(** * The BME680 sensor session of paulvha/bme680

    A shallow embedding of the class [rasp_BME680] (bme680_lib.cpp,
    rasp_BME680.h) and of the reading routine of the command-line monitor
    (bme680m.cpp), with the properties of the measurement cycle stated over
    it.

    Conventions.
    - C integers are [Z] together with the wrap-around of their type
      (module [C]).  [unsigned long] is 32 bits wide, as on the 32-bit ARM
      Raspbian the README targets.
    - [float] and [double] are IEEE-754 binary32 and binary64, given by
      [spec_float] and the operations of the standard library's [SpecFloat]
      (module [FP]).
    - The vendor driver (bme680.c), the clock and the delay routine are
      outside the class.  Calls to them are [event]s of a small free monad
      [prog]; [run] executes a program against an environment and records
      the calls it made.
    - Diagnostic output on stdout (the [_bme_debug] printf calls) is not
      modelled. *)

From Stdlib Require Import ZArith List Bool Lia.
From Stdlib Require Import Floats.SpecFloat.
From Stdlib Require Strings.Ascii Strings.String.
From Stdlib Require QArith Qabs.
Import ListNotations.

Local Open Scope Z_scope.

(** ** C integer types *)

Module C.

Definition uint8 (x : Z) : Z := x mod 2 ^ 8.
Definition uint16 (x : Z) : Z := x mod 2 ^ 16.
Definition uint32 (x : Z) : Z := x mod 2 ^ 32.
Definition int8 (x : Z) : Z := (x + 2 ^ 7) mod 2 ^ 8 - 2 ^ 7.
Definition int16 (x : Z) : Z := (x + 2 ^ 15) mod 2 ^ 16 - 2 ^ 15.

(** [unsigned long] on the ILP32 target. *)
Definition ULONG_BITS : Z := 32.
Definition ulong (x : Z) : Z := x mod 2 ^ ULONG_BITS.

(** The C operator [!]. *)
Definition lnot (x : Z) : Z := if x =? 0 then 1 else 0.

(** A C scalar used as a condition. *)
Definition truthy (x : Z) : bool := negb (x =? 0).

End C.

(** ** IEEE-754 arithmetic *)

Module FP.

Definition float : Type := spec_float.

Definition NAN : float := S754_nan.

Definition fprec : Z := 24.
Definition femax : Z := 128.
Definition dprec : Z := 53.
Definition demax : Z := 1024.

(** Integer to [double] and to [float], round to nearest even. *)
Definition double_of_Z (z : Z) : float := binary_normalize dprec demax z 0 false.
Definition float_of_Z (z : Z) : float := binary_normalize fprec femax z 0 false.

(** Narrowing a [double] to [float] (assignment to a [float] object). *)
Definition float_of_double (d : float) : float :=
  match d with
  | S754_finite s m e => binary_round fprec femax s m e
  | _ => d
  end.

Definition ddiv : float -> float -> float := SFdiv dprec demax.
Definition dmul : float -> float -> float := SFmul dprec demax.
Definition dadd : float -> float -> float := SFadd dprec demax.
Definition dsub : float -> float -> float := SFsub dprec demax.
Definition fdiv : float -> float -> float := SFdiv fprec femax.

(** A decimal literal [num / den] of type [double]. *)
Definition dlit (num den : Z) : float := ddiv (double_of_Z num) (double_of_Z den).

(** The operator [==] on floating-point operands. *)
Definition feq (x y : float) : bool := SFeqb x y.

(** Truncation toward zero of a finite value. *)
Definition Ztrunc (f : float) : Z :=
  match f with
  | S754_finite s m e =>
      let a := match e with
               | Zneg p => Z.shiftr (Zpos m) (Zpos p)
               | _ => Z.shiftl (Zpos m) e
               end in
      if s then - a else a
  | _ => 0
  end.

(** [float] to [uint32_t].  C++ defines the conversion only when the
    truncated value fits the destination; outside that range the model
    follows the ARM VFP instruction (VCVT) the target executes: NaN gives 0
    and other values saturate. *)
Definition uint32_of_float (f : float) : Z :=
  match f with
  | S754_nan => 0
  | S754_infinity s => if s then 0 else 2 ^ 32 - 1
  | _ => Z.max 0 (Z.min (2 ^ 32 - 1) (Ztrunc f))
  end.

End FP.


(** ** The vendor driver's interface (bme680.h, bme680_defs.h)

    The Bosch driver is a dependency of the class; its header and its code
    are not part of the sources.  The structures below carry the members the
    class reads or writes. *)

Module Bosch.

(** Modelled from the spec: the oversampling constants of bme680_defs.h.
    The data model gives the oversampling settings as the enumeration
    NONE, 1x, 2x, 4x, 8x, 16x; the constants number it in that order. *)
Inductive oversampling : Type :=
| OS_NONE | OS_1X | OS_2X | OS_4X | OS_8X | OS_16X.

(** Modelled from the spec: the value of the constant BME680_OS_... of a
    setting, its position in the enumeration. *)
Definition os_code (o : oversampling) : Z :=
  match o with
  | OS_NONE => 0 | OS_1X => 1 | OS_2X => 2
  | OS_4X => 3 | OS_8X => 4 | OS_16X => 5
  end.

Definition BME680_OS_NONE : Z := os_code OS_NONE.
Definition BME680_OS_1X : Z := os_code OS_1X.
Definition BME680_OS_2X : Z := os_code OS_2X.
Definition BME680_OS_4X : Z := os_code OS_4X.
Definition BME680_OS_8X : Z := os_code OS_8X.
Definition BME680_OS_16X : Z := os_code OS_16X.

(** Modelled from the spec: the filter-size constants of bme680_defs.h.
    The data model gives the IIR filter depths as the enumeration
    0, 1, 3, 7, 15, 31, 63, 127 samples; the constants number it in that
    order. *)
Inductive filter_size : Type :=
| FILTER_SIZE_0 | FILTER_SIZE_1 | FILTER_SIZE_3 | FILTER_SIZE_7
| FILTER_SIZE_15 | FILTER_SIZE_31 | FILTER_SIZE_63 | FILTER_SIZE_127.

(** Modelled from the spec: the value of the constant BME680_FILTER_SIZE_...
    of a size, its position in the enumeration. *)
Definition filter_code (f : filter_size) : Z :=
  match f with
  | FILTER_SIZE_0 => 0 | FILTER_SIZE_1 => 1 | FILTER_SIZE_3 => 2
  | FILTER_SIZE_7 => 3 | FILTER_SIZE_15 => 4 | FILTER_SIZE_31 => 5
  | FILTER_SIZE_63 => 6 | FILTER_SIZE_127 => 7
  end.

(** The number of samples a filter size stands for. *)
Definition filter_samples (f : filter_size) : Z :=
  match f with
  | FILTER_SIZE_0 => 0 | FILTER_SIZE_1 => 1 | FILTER_SIZE_3 => 3
  | FILTER_SIZE_7 => 7 | FILTER_SIZE_15 => 15 | FILTER_SIZE_31 => 31
  | FILTER_SIZE_63 => 63 | FILTER_SIZE_127 => 127
  end.

Definition os_is_none (o : oversampling) : bool :=
  match o with
  | OS_NONE => true
  | _ => false
  end.

Definition filter_is_zero (f : filter_size) : bool :=
  match f with
  | FILTER_SIZE_0 => true
  | _ => false
  end.

(** The factor an oversampling setting stands for. *)
Definition os_factor (o : oversampling) : Z :=
  match o with
  | OS_NONE => 0 | OS_1X => 1 | OS_2X => 2
  | OS_4X => 4 | OS_8X => 8 | OS_16X => 16
  end.

Definition BME680_FILTER_SIZE_0 : Z := filter_code FILTER_SIZE_0.
Definition BME680_FILTER_SIZE_1 : Z := filter_code FILTER_SIZE_1.
Definition BME680_FILTER_SIZE_3 : Z := filter_code FILTER_SIZE_3.
Definition BME680_FILTER_SIZE_7 : Z := filter_code FILTER_SIZE_7.
Definition BME680_FILTER_SIZE_15 : Z := filter_code FILTER_SIZE_15.
Definition BME680_FILTER_SIZE_31 : Z := filter_code FILTER_SIZE_31.
Definition BME680_FILTER_SIZE_63 : Z := filter_code FILTER_SIZE_63.
Definition BME680_FILTER_SIZE_127 : Z := filter_code FILTER_SIZE_127.

(** The other constants of bme680_defs.h the class names.  Their values
    are parameters: every statement below holds for each choice of them
    unless it says otherwise. *)
Class defs : Type := {
  BME680_OK : Z;
  BME680_FORCED_MODE : Z;
  BME680_ENABLE_GAS_MEAS : Z;
  BME680_DISABLE_GAS_MEAS : Z;
  BME680_OST_SEL : Z;
  BME680_OSP_SEL : Z;
  BME680_OSH_SEL : Z;
  BME680_FILTER_SEL : Z;
  BME680_GAS_SENSOR_SEL : Z;
  BME680_NEW_DATA_MSK : Z;
  BME680_HEAT_STAB_MSK : Z
}.

(** The values of driver version 3.5.9, the one the sources name. *)
Definition v3_5_9 : defs := {|
  BME680_OK := 0;
  BME680_FORCED_MODE := 1;
  BME680_ENABLE_GAS_MEAS := 1;
  BME680_DISABLE_GAS_MEAS := 0;
  BME680_OST_SEL := 1;
  BME680_OSP_SEL := 2;
  BME680_OSH_SEL := 4;
  BME680_FILTER_SEL := 16;
  BME680_GAS_SENSOR_SEL := Z.lor 8 (Z.lor 64 128);
  BME680_NEW_DATA_MSK := 0x80;
  BME680_HEAT_STAB_MSK := 0x10
|}.

(** Modelled from the spec: struct bme680_tph_sett of bme680_defs.h, the
    per-channel oversampling and the filter of the session's configuration. *)
Record tph_sett_t : Type := {
  os_hum : Z;
  os_temp : Z;
  os_pres : Z;
  filter : Z
}.

(** Modelled from the spec: struct bme680_gas_sett of bme680_defs.h, the
    heater profile (target temperature, duration) and the gas enable. *)
Record gas_sett_t : Type := {
  run_gas : Z;
  heatr_temp : Z;
  heatr_dur : Z
}.

(** Modelled from the spec: struct bme680_dev of bme680_defs.h, the power
    mode and the two settings structures. *)
Record bme680_dev : Type := {
  power_mode : Z;
  tph_sett : tph_sett_t;
  gas_sett : gas_sett_t
}.

(** Modelled from the spec: struct bme680_field_data of bme680_defs.h, what
    the field data call yields: the status bitmask and the compensated
    temperature (hundredths of a degree, [int16_t]), pressure (Pa), humidity
    (thousandths of a percent) and gas resistance (ohms), each [uint32_t]. *)
Record bme680_field_data : Type := {
  status : Z;
  temperature : Z;
  pressure : Z;
  humidity : Z;
  gas_resistance : Z
}.

Definition set_power_mode (v : Z) (d : bme680_dev) : bme680_dev :=
  {| power_mode := v; tph_sett := tph_sett d; gas_sett := gas_sett d |}.

Definition set_tph_sett (v : tph_sett_t) (d : bme680_dev) : bme680_dev :=
  {| power_mode := power_mode d; tph_sett := v; gas_sett := gas_sett d |}.

Definition set_gas_sett (v : gas_sett_t) (d : bme680_dev) : bme680_dev :=
  {| power_mode := power_mode d; tph_sett := tph_sett d; gas_sett := v |}.

Definition set_os_hum (v : Z) (t : tph_sett_t) : tph_sett_t :=
  {| os_hum := v; os_temp := os_temp t; os_pres := os_pres t; filter := filter t |}.

Definition set_os_temp (v : Z) (t : tph_sett_t) : tph_sett_t :=
  {| os_hum := os_hum t; os_temp := v; os_pres := os_pres t; filter := filter t |}.

Definition set_os_pres (v : Z) (t : tph_sett_t) : tph_sett_t :=
  {| os_hum := os_hum t; os_temp := os_temp t; os_pres := v; filter := filter t |}.

Definition set_filter (v : Z) (t : tph_sett_t) : tph_sett_t :=
  {| os_hum := os_hum t; os_temp := os_temp t; os_pres := os_pres t; filter := v |}.

Definition set_run_gas (v : Z) (g : gas_sett_t) : gas_sett_t :=
{| run_gas := v; heatr_temp := heatr_temp g; heatr_dur := heatr_dur g |}.

Definition set_heatr_temp (v : Z) (g : gas_sett_t) : gas_sett_t :=
{| run_gas := run_gas g; heatr_temp := v; heatr_dur := heatr_dur g |}.

Definition set_heatr_dur (v : Z) (g : gas_sett_t) : gas_sett_t :=
{| run_gas := run_gas g; heatr_temp := heatr_temp g; heatr_dur := v |}.

End Bosch.

(** ** The monitor's variables and option tables (bme680m.cpp) *)

Module Cli.

(** struct bmeval *)
Record bmeval : Type := {
  overSampleT : Z;
  overSampleH : Z;
  overSampleP : Z;
  filter : Z;
  heaterT : Z;
  heaterM : Z;
  tempC : FP.float;
  humid : FP.float;
  pressure : FP.float;
  sealevel : FP.float;
  height : FP.float;
  dewpoint : FP.float;
  gas_resistance : Z
}.

(** struct measure, without the two character buffers (output format and
    file name), which the reading routine does not touch. *)
Record measure : Type := {
  verbose : Z;
  loop : Z;
  loop_delay : Z;
  bme : bmeval
}.

Definition set_bme (v : bmeval) (mm : measure) : measure :=
  {| verbose := verbose mm; loop := loop mm; loop_delay := loop_delay mm; bme := v |}.

Definition set_tempC (v : FP.float) (b : bmeval) : bmeval :=
  {| overSampleT := overSampleT b; overSampleH := overSampleH b;
     overSampleP := overSampleP b; filter := filter b; heaterT := heaterT b;
     heaterM := heaterM b; tempC := v; humid := humid b; pressure := pressure b;
     sealevel := sealevel b; height := height b; dewpoint := dewpoint b;
     gas_resistance := gas_resistance b |}.

Definition set_humid (v : FP.float) (b : bmeval) : bmeval :=
  {| overSampleT := overSampleT b; overSampleH := overSampleH b;
     overSampleP := overSampleP b; filter := filter b; heaterT := heaterT b;
     heaterM := heaterM b; tempC := tempC b; humid := v; pressure := pressure b;
     sealevel := sealevel b; height := height b; dewpoint := dewpoint b;
     gas_resistance := gas_resistance b |}.

Definition set_pressure (v : FP.float) (b : bmeval) : bmeval :=
  {| overSampleT := overSampleT b; overSampleH := overSampleH b;
     overSampleP := overSampleP b; filter := filter b; heaterT := heaterT b;
     heaterM := heaterM b; tempC := tempC b; humid := humid b; pressure := v;
     sealevel := sealevel b; height := height b; dewpoint := dewpoint b;
     gas_resistance := gas_resistance b |}.

Definition set_height (v : FP.float) (b : bmeval) : bmeval :=
  {| overSampleT := overSampleT b; overSampleH := overSampleH b;
     overSampleP := overSampleP b; filter := filter b; heaterT := heaterT b;
     heaterM := heaterM b; tempC := tempC b; humid := humid b; pressure := pressure b;
     sealevel := sealevel b; height := v; dewpoint := dewpoint b;
     gas_resistance := gas_resistance b |}.

Definition set_dewpoint (v : FP.float) (b : bmeval) : bmeval :=
  {| overSampleT := overSampleT b; overSampleH := overSampleH b;
     overSampleP := overSampleP b; filter := filter b; heaterT := heaterT b;
     heaterM := heaterM b; tempC := tempC b; humid := humid b; pressure := pressure b;
     sealevel := sealevel b; height := height b; dewpoint := v;
     gas_resistance := gas_resistance b |}.

Definition set_gas_resistance (v : Z) (b : bmeval) : bmeval :=
  {| overSampleT := overSampleT b; overSampleH := overSampleH b;
     overSampleP := overSampleP b; filter := filter b; heaterT := heaterT b;
     heaterM := heaterM b; tempC := tempC b; humid := humid b; pressure := pressure b;
     sealevel := sealevel b; height := height b; dewpoint := dewpoint b;
     gas_resistance := v |}.

(** uint8_t getOversample(uint8_t opt) *)
Definition getOversample (opt : Z) : Z :=
  let opt := C.uint8 opt in
  if opt =? 0 then Bosch.BME680_OS_NONE
  else if opt =? 1 then Bosch.BME680_OS_1X
  else if opt =? 2 then Bosch.BME680_OS_2X
  else if opt =? 4 then Bosch.BME680_OS_4X
  else if opt =? 8 then Bosch.BME680_OS_8X
  else if opt =? 16 then Bosch.BME680_OS_16X
  else 0xff.

(** uint8_t getfilter(uint8_t opt) *)
Definition getfilter (opt : Z) : Z :=
  let opt := C.uint8 opt in
  if opt =? 0 then Bosch.BME680_FILTER_SIZE_0
  else if opt =? 1 then Bosch.BME680_FILTER_SIZE_1
  else if opt =? 3 then Bosch.BME680_FILTER_SIZE_3
  else if opt =? 7 then Bosch.BME680_FILTER_SIZE_7
  else if opt =? 15 then Bosch.BME680_FILTER_SIZE_15
  else if opt =? 31 then Bosch.BME680_FILTER_SIZE_31
  else if opt =? 63 then Bosch.BME680_FILTER_SIZE_63
  else if opt =? 127 then Bosch.BME680_FILTER_SIZE_127
  else 0xff.

End Cli.

(** ** Calls that leave the class and the reading routine

    The driver takes the device structure by pointer and may update it, so
    the calls that take a non-const pointer answer with the structure as the
    driver left it.  [millis] and [delay_ms] are the clock and the delay
    routine of bme680_lib.cpp.  The last four are used by the monitor only:
    the driver's soft reset, the bus library's close, the monitor's output
    routine (formatting, console and log file) and sleep(3). *)

Inductive event : Type -> Type :=
| bme680_set_sensor_settings (desired_settings : Z) (dev : Bosch.bme680_dev)
  : event (Z * Bosch.bme680_dev)
| bme680_set_sensor_mode (dev : Bosch.bme680_dev) : event (Z * Bosch.bme680_dev)
| bme680_get_profile_dur (dev : Bosch.bme680_dev) : event Z
| bme680_get_sensor_data (dev : Bosch.bme680_dev)
  : event (Z * Bosch.bme680_field_data * Bosch.bme680_dev)
| millis : event Z
| delay_ms (ms : Z) : event unit
| bme680_soft_reset (dev : Bosch.bme680_dev) : event (Z * Bosch.bme680_dev)
| TWI_close : event unit
| do_output_values (mm : Cli.measure) : event bool
| sleep (seconds : Z) : event unit.

Inductive prog (A : Type) : Type :=
| Ret (a : A)
| Vis (X : Type) (e : event X) (k : X -> prog A).

Arguments Ret {A} a.
Arguments Vis {A X} e k.

Fixpoint bind {A B : Type} (p : prog A) (f : A -> prog B) : prog B :=
  match p with
  | Ret a => f a
  | Vis e k => Vis e (fun x => bind (k x) f)
  end.

Definition trigger {X : Type} (e : event X) : prog X := Vis e Ret.

Declare Scope prog_scope.
Delimit Scope prog_scope with prog.
Notation "x <- p ;; q" := (bind p (fun x => q))
  (at level 61, p at next level, right associativity) : prog_scope.
Notation "' pat <- p ;; q" := (bind p (fun x => match x with pat => q end))
  (at level 61, pat pattern, p at next level, right associativity) : prog_scope.
Notation "p ;; q" := (bind p (fun _ => q))
  (at level 61, right associativity) : prog_scope.

(** ** Running a program against an environment *)

(** An environment answers each call from its own state [W]. *)
Definition env (W : Type) : Type := forall X : Type, event X -> W -> X * W.

(** One observed call with its answer. *)
Inductive obs : Type :=
| Obs (X : Type) (e : event X) (x : X).

Arguments Obs {X} e x.

Fixpoint run {W A : Type} (h : env W) (p : prog A) (w : W) : A * W * list obs :=
  match p with
  | Ret a => (a, w, [])
  | Vis e k =>
      let '(x, w1) := h _ e w in
      let '(a, w2, tr) := run h (k x) w1 in
      (a, w2, Obs e x :: tr)
  end.

Definition result {W A : Type} (r : A * W * list obs) : A := fst (fst r).
Definition world {W A : Type} (r : A * W * list obs) : W := snd (fst r).
Definition trace {W A : Type} (r : A * W * list obs) : list obs := snd r.


(** ** The mathematical library

    [log] and [pow] of libm are functions of the platform; the model takes
    them as parameters. *)

Class libm : Type := {
  log : FP.float -> FP.float;
  pow : FP.float -> FP.float -> FP.float
}.

(** ** class rasp_BME680 (rasp_BME680.h) *)

Record rasp_BME680 : Type := {
  temperature : FP.float;
  pressure : FP.float;
  humidity : FP.float;
  gas_resistance : FP.float;
  _filterEnabled : bool;
  _tempEnabled : bool;
  _humEnabled : bool;
  _presEnabled : bool;
  _gasEnabled : bool;
  _meas_end : Z;
  gas_sensor : Bosch.bme680_dev
}.

Definition set_temperature (v : FP.float) (s : rasp_BME680) : rasp_BME680 :=
  {| temperature := v; pressure := pressure s; humidity := humidity s;
     gas_resistance := gas_resistance s;
     _filterEnabled := _filterEnabled s; _tempEnabled := _tempEnabled s;
     _humEnabled := _humEnabled s; _presEnabled := _presEnabled s;
     _gasEnabled := _gasEnabled s; _meas_end := _meas_end s;
     gas_sensor := gas_sensor s |}.

Definition set_pressure (v : FP.float) (s : rasp_BME680) : rasp_BME680 :=
  {| temperature := temperature s; pressure := v; humidity := humidity s;
     gas_resistance := gas_resistance s;
     _filterEnabled := _filterEnabled s; _tempEnabled := _tempEnabled s;
     _humEnabled := _humEnabled s; _presEnabled := _presEnabled s;
     _gasEnabled := _gasEnabled s; _meas_end := _meas_end s;
     gas_sensor := gas_sensor s |}.

Definition set_humidity (v : FP.float) (s : rasp_BME680) : rasp_BME680 :=
  {| temperature := temperature s; pressure := pressure s; humidity := v;
     gas_resistance := gas_resistance s;
     _filterEnabled := _filterEnabled s; _tempEnabled := _tempEnabled s;
     _humEnabled := _humEnabled s; _presEnabled := _presEnabled s;
     _gasEnabled := _gasEnabled s; _meas_end := _meas_end s;
     gas_sensor := gas_sensor s |}.

Definition set_gas_resistance (v : FP.float) (s : rasp_BME680) : rasp_BME680 :=
  {| temperature := temperature s; pressure := pressure s; humidity := humidity s;
     gas_resistance := v;
     _filterEnabled := _filterEnabled s; _tempEnabled := _tempEnabled s;
     _humEnabled := _humEnabled s; _presEnabled := _presEnabled s;
     _gasEnabled := _gasEnabled s; _meas_end := _meas_end s;
     gas_sensor := gas_sensor s |}.

Definition set_filterEnabled (v : bool) (s : rasp_BME680) : rasp_BME680 :=
  {| temperature := temperature s; pressure := pressure s; humidity := humidity s;
     gas_resistance := gas_resistance s;
     _filterEnabled := v; _tempEnabled := _tempEnabled s;
     _humEnabled := _humEnabled s; _presEnabled := _presEnabled s;
     _gasEnabled := _gasEnabled s; _meas_end := _meas_end s;
     gas_sensor := gas_sensor s |}.

Definition set_tempEnabled (v : bool) (s : rasp_BME680) : rasp_BME680 :=
  {| temperature := temperature s; pressure := pressure s; humidity := humidity s;
     gas_resistance := gas_resistance s;
     _filterEnabled := _filterEnabled s; _tempEnabled := v;
     _humEnabled := _humEnabled s; _presEnabled := _presEnabled s;
     _gasEnabled := _gasEnabled s; _meas_end := _meas_end s;
     gas_sensor := gas_sensor s |}.

Definition set_humEnabled (v : bool) (s : rasp_BME680) : rasp_BME680 :=
  {| temperature := temperature s; pressure := pressure s; humidity := humidity s;
     gas_resistance := gas_resistance s;
     _filterEnabled := _filterEnabled s; _tempEnabled := _tempEnabled s;
     _humEnabled := v; _presEnabled := _presEnabled s;
     _gasEnabled := _gasEnabled s; _meas_end := _meas_end s;
     gas_sensor := gas_sensor s |}.

Definition set_presEnabled (v : bool) (s : rasp_BME680) : rasp_BME680 :=
  {| temperature := temperature s; pressure := pressure s; humidity := humidity s;
     gas_resistance := gas_resistance s;
     _filterEnabled := _filterEnabled s; _tempEnabled := _tempEnabled s;
     _humEnabled := _humEnabled s; _presEnabled := v;
     _gasEnabled := _gasEnabled s; _meas_end := _meas_end s;
     gas_sensor := gas_sensor s |}.

Definition set_gasEnabled (v : bool) (s : rasp_BME680) : rasp_BME680 :=
  {| temperature := temperature s; pressure := pressure s; humidity := humidity s;
     gas_resistance := gas_resistance s;
     _filterEnabled := _filterEnabled s; _tempEnabled := _tempEnabled s;
     _humEnabled := _humEnabled s; _presEnabled := _presEnabled s;
     _gasEnabled := v; _meas_end := _meas_end s;
     gas_sensor := gas_sensor s |}.

Definition set_meas_end (v : Z) (s : rasp_BME680) : rasp_BME680 :=
  {| temperature := temperature s; pressure := pressure s; humidity := humidity s;
     gas_resistance := gas_resistance s;
     _filterEnabled := _filterEnabled s; _tempEnabled := _tempEnabled s;
     _humEnabled := _humEnabled s; _presEnabled := _presEnabled s;
     _gasEnabled := _gasEnabled s; _meas_end := v;
     gas_sensor := gas_sensor s |}.

Definition set_gas_sensor (v : Bosch.bme680_dev) (s : rasp_BME680) : rasp_BME680 :=
  {| temperature := temperature s; pressure := pressure s; humidity := humidity s;
     gas_resistance := gas_resistance s;
     _filterEnabled := _filterEnabled s; _tempEnabled := _tempEnabled s;
     _humEnabled := _humEnabled s; _presEnabled := _presEnabled s;
     _gasEnabled := _gasEnabled s; _meas_end := _meas_end s;
     gas_sensor := v |}.

(** An assignment to a member of [gas_sensor.tph_sett]. *)
Definition with_tph_sett (f : Bosch.tph_sett_t -> Bosch.tph_sett_t) (s : rasp_BME680)
  : rasp_BME680 :=
  set_gas_sensor (Bosch.set_tph_sett (f (Bosch.tph_sett (gas_sensor s))) (gas_sensor s)) s.

(** An assignment to a member of [gas_sensor.gas_sett]. *)
Definition with_gas_sett (f : Bosch.gas_sett_t -> Bosch.gas_sett_t) (s : rasp_BME680)
  : rasp_BME680 :=
  set_gas_sensor (Bosch.set_gas_sett (f (Bosch.gas_sett (gas_sensor s))) (gas_sensor s)) s.

(** A member function: it reads and updates the object and may call out. *)
Definition method (A : Type) : Type := rasp_BME680 -> prog (A * rasp_BME680).

(** The constructor: the five enable flags are cleared, the other members
    keep what the storage held. *)
Definition rasp_BME680_ctor (storage : rasp_BME680) : rasp_BME680 :=
  set_gasEnabled false
    (set_presEnabled false
       (set_humEnabled false
          (set_tempEnabled false
             (set_filterEnabled false storage)))).

(** Zero-initialised storage, as a global object has before its
    constructor runs. *)
Definition zeroed : rasp_BME680 :=
  {| temperature := S754_zero false; pressure := S754_zero false;
     humidity := S754_zero false; gas_resistance := S754_zero false;
     _filterEnabled := false; _tempEnabled := false; _humEnabled := false;
     _presEnabled := false; _gasEnabled := false; _meas_end := 0;
     gas_sensor :=
       {| Bosch.power_mode := 0;
          Bosch.tph_sett := {| Bosch.os_hum := 0; Bosch.os_temp := 0;
                               Bosch.os_pres := 0; Bosch.filter := 0 |};
          Bosch.gas_sett := {| Bosch.run_gas := 0; Bosch.heatr_temp := 0;
                               Bosch.heatr_dur := 0 |} |} |}.

(** The global [rasp_BME680 MyBme] of bme680m.cpp. *)
Definition MyBme : rasp_BME680 := rasp_BME680_ctor zeroed.

Section Session.

Context {D : Bosch.defs} {M : libm}.

Local Open Scope prog_scope.

(** unsigned long rasp_BME680::beginReading(void) *)
Definition beginReading : method Z := fun s =>
  if C.truthy (_meas_end s) then
    (* A measurement is already in progress *)
    Ret (_meas_end s, s)
  else
    let s := set_gas_sensor (Bosch.set_power_mode Bosch.BME680_FORCED_MODE (gas_sensor s)) s in
    let set_required_settings := 0 in
    let set_required_settings :=
      if _tempEnabled s then C.uint8 (Z.lor set_required_settings Bosch.BME680_OST_SEL)
      else set_required_settings in
    let set_required_settings :=
      if _humEnabled s then C.uint8 (Z.lor set_required_settings Bosch.BME680_OSH_SEL)
      else set_required_settings in
    let set_required_settings :=
      if _presEnabled s then C.uint8 (Z.lor set_required_settings Bosch.BME680_OSP_SEL)
      else set_required_settings in
    let set_required_settings :=
      if _filterEnabled s then C.uint8 (Z.lor set_required_settings Bosch.BME680_FILTER_SEL)
      else set_required_settings in
    let set_required_settings :=
      if _gasEnabled s then C.uint8 (Z.lor set_required_settings Bosch.BME680_GAS_SENSOR_SEL)
      else set_required_settings in
    '(rslt, dev) <- trigger (bme680_set_sensor_settings set_required_settings (gas_sensor s)) ;;
    let s := set_gas_sensor dev s in
    if negb (C.int8 rslt =? Bosch.BME680_OK) then Ret (0, s)
    else
      '(rslt, dev) <- trigger (bme680_set_sensor_mode (gas_sensor s)) ;;
      let s := set_gas_sensor dev s in
      if negb (C.int8 rslt =? Bosch.BME680_OK) then Ret (0, s)
      else
        meas_period <- trigger (bme680_get_profile_dur (gas_sensor s)) ;;
        t <- trigger millis ;;
        let s := set_meas_end (C.ulong (C.ulong t + C.uint16 meas_period)) s in
        Ret (_meas_end s, s).

(** The test [! data.status & BME680_NEW_DATA_MSK]: the operator [!] binds
    tighter than [&]. *)
Definition no_new_fields (data : Bosch.bme680_field_data) : bool :=
  C.truthy (Z.land (C.lnot (C.uint8 (Bosch.status data))) Bosch.BME680_NEW_DATA_MSK).

(** The test [data.status & BME680_HEAT_STAB_MSK]. *)
Definition heater_stable (data : Bosch.bme680_field_data) : bool :=
  C.truthy (Z.land (C.uint8 (Bosch.status data)) Bosch.BME680_HEAT_STAB_MSK).

(** performReading, the branch under "if NO new fields":
    [temperature = pressure = humidity = NAN; gas_resistance = 0;] *)
Definition store_no_new_fields (s : rasp_BME680) : rasp_BME680 :=
  let s := set_humidity FP.NAN s in
  let s := set_pressure FP.NAN s in
  let s := set_temperature FP.NAN s in
  set_gas_resistance (FP.float_of_Z 0) s.

(** performReading, the assignments after that branch. *)
Definition store_fields (data : Bosch.bme680_field_data) (s : rasp_BME680) : rasp_BME680 :=
  let s :=
    if _tempEnabled s then
      set_temperature
        (FP.float_of_double
           (FP.ddiv (FP.double_of_Z (C.int16 (Bosch.temperature data)))
                    (FP.double_of_Z 100))) s
    else set_temperature FP.NAN s in
  let s :=
    if _humEnabled s then
      set_humidity
        (FP.float_of_double
           (FP.ddiv (FP.double_of_Z (C.uint32 (Bosch.humidity data)))
                    (FP.double_of_Z 1000))) s
    else set_humidity FP.NAN s in
  let s :=
    if _presEnabled s then
      set_pressure (FP.float_of_Z (C.uint32 (Bosch.pressure data))) s
    else set_pressure FP.NAN s in
  (* Avoid using measurements from an unstable heating setup *)
  if _gasEnabled s then
    if heater_stable data then
      set_gas_resistance (FP.float_of_Z (C.uint32 (Bosch.gas_resistance data))) s
    else
      set_gas_resistance (FP.float_of_Z 0) s
  else s.

(** bool rasp_BME680::performReading(void) *)
Definition performReading : method bool := fun s =>
  '(meas_end, s) <- beginReading s ;;
  if meas_end =? 0 then Ret (false, s)
  else
    now <- trigger millis ;;
    let now := C.ulong now in
    (if meas_end >? now then
       let meas_period := meas_end - now in
       (* Delay 2 x waiting timing till the measurement is expected to be ready *)
       trigger (delay_ms (C.uint32 (C.ulong (meas_period * 2))))
     else Ret tt) ;;
    let s := set_meas_end 0 s in
    '(rslt, data, dev) <- trigger (bme680_get_sensor_data (gas_sensor s)) ;;
    let s := set_gas_sensor dev s in
    if negb (C.int8 rslt =? Bosch.BME680_OK) then Ret (false, s)
    else if no_new_fields data then Ret (true, store_no_new_fields s)
    else Ret (true, store_fields data s).

(** uint32_t rasp_BME680::readGas(void) *)
Definition readGas : method Z := fun s =>
  '(_, s) <- performReading s ;;
  Ret (FP.uint32_of_float (gas_resistance s), s).

(** float rasp_BME680::readTemperature(void) *)
Definition readTemperature : method FP.float := fun s =>
  '(_, s) <- performReading s ;;
  Ret (temperature s, s).

(** float rasp_BME680::readPressure(void) *)
Definition readPressure : method FP.float := fun s =>
  '(_, s) <- performReading s ;;
  Ret (pressure s, s).

(** float rasp_BME680::readHumidity(void) *)
Definition readHumidity : method FP.float := fun s =>
  '(_, s) <- performReading s ;;
  Ret (humidity s, s).

(** float rasp_BME680::readAltitude(float seaLevel) *)
Definition readAltitude (seaLevel : FP.float) : method FP.float := fun s =>
  '(atmospheric, s) <- readPressure s ;;
  Ret (FP.float_of_double
         (FP.dmul (FP.double_of_Z 44330)
            (FP.dsub (FP.double_of_Z 1)
               (pow (FP.fdiv atmospheric seaLevel) (FP.dlit 190284 1000000)))),
       s).

(** float rasp_BME680::calc_dewpoint(float temp, float hum) *)
Definition calc_dewpoint (temp hum : FP.float) : FP.float :=
  let H :=
    FP.float_of_double
      (FP.dadd (log (FP.fdiv hum (FP.float_of_Z 100)))
               (FP.ddiv (FP.dmul (FP.dlit 17625 1000) temp)
                        (FP.dadd (FP.dlit 24312 100) temp))) in
  let td :=
    FP.float_of_double
      (FP.ddiv (FP.dmul (FP.dlit 24304 100) H)
               (FP.dsub (FP.dlit 17625 1000) H)) in
  td.

(** bool rasp_BME680::setGasHeater(uint16_t heaterTemp, uint16_t heaterTime) *)
Definition setGasHeater (heaterTemp heaterTime : Z) (s : rasp_BME680)
  : bool * rasp_BME680 :=
  let heaterTemp := C.uint16 heaterTemp in
  let heaterTime := C.uint16 heaterTime in
  let s := with_gas_sett (Bosch.set_heatr_temp heaterTemp) s in
  let s := with_gas_sett (Bosch.set_heatr_dur heaterTime) s in
  if (heaterTemp =? 0) || (heaterTime =? 0) then
    (* disabled! *)
    let s := with_gas_sett (Bosch.set_run_gas Bosch.BME680_DISABLE_GAS_MEAS) s in
    (true, set_gasEnabled false s)
  else
    let s := with_gas_sett (Bosch.set_run_gas Bosch.BME680_ENABLE_GAS_MEAS) s in
    (true, set_gasEnabled true s).

End Session.

(** The oversampling and filter setters use none of the parameters. *)

(** bool rasp_BME680::setTemperatureOversampling(uint8_t oversample) *)
Definition setTemperatureOversampling (oversample : Z) (s : rasp_BME680)
  : bool * rasp_BME680 :=
  let oversample := C.uint8 oversample in
  if oversample >? Bosch.BME680_OS_16X then (false, s)
  else
    let s := with_tph_sett (Bosch.set_os_temp oversample) s in
    if oversample =? Bosch.BME680_OS_NONE then (true, set_tempEnabled false s)
    else (true, set_tempEnabled true s).

(** bool rasp_BME680::setHumidityOversampling(uint8_t oversample) *)
Definition setHumidityOversampling (oversample : Z) (s : rasp_BME680)
  : bool * rasp_BME680 :=
  let oversample := C.uint8 oversample in
  if oversample >? Bosch.BME680_OS_16X then (false, s)
  else
    let s := with_tph_sett (Bosch.set_os_hum oversample) s in
    if oversample =? Bosch.BME680_OS_NONE then (true, set_humEnabled false s)
    else (true, set_humEnabled true s).

(** bool rasp_BME680::setPressureOversampling(uint8_t oversample) *)
Definition setPressureOversampling (oversample : Z) (s : rasp_BME680)
  : bool * rasp_BME680 :=
  let oversample := C.uint8 oversample in
  if oversample >? Bosch.BME680_OS_16X then (false, s)
  else
    let s := with_tph_sett (Bosch.set_os_pres oversample) s in
    if oversample =? Bosch.BME680_OS_NONE then (true, set_presEnabled false s)
    else (true, set_presEnabled true s).

(** bool rasp_BME680::setIIRFilterSize(uint8_t filtersize) *)
Definition setIIRFilterSize (filtersize : Z) (s : rasp_BME680)
  : bool * rasp_BME680 :=
  let filtersize := C.uint8 filtersize in
  if filtersize >? Bosch.BME680_FILTER_SIZE_127 then (false, s)
  else
    let s := with_tph_sett (Bosch.set_filter filtersize) s in
    if filtersize =? Bosch.BME680_FILTER_SIZE_0 then (true, set_filterEnabled false s)
    else (true, set_filterEnabled true s).


(** The part of bool rasp_BME680::begin() after the bus and the driver are
    initialised: "set default values and enable", then the power mode. *)
Definition begin_defaults {D : Bosch.defs} (s : rasp_BME680) : rasp_BME680 :=
  let s := snd (setTemperatureOversampling Bosch.BME680_OS_8X s) in
  let s := snd (setHumidityOversampling Bosch.BME680_OS_2X s) in
  let s := snd (setPressureOversampling Bosch.BME680_OS_4X s) in
  let s := snd (setIIRFilterSize Bosch.BME680_FILTER_SIZE_3 s) in
  let s := snd (setGasHeater 320 150 s) in
  set_gas_sensor (Bosch.set_power_mode Bosch.BME680_FORCED_MODE (gas_sensor s)) s.


(** ** The monitor's reading routine and loop (bme680m.cpp) *)

Module Monitor.

Import Cli.

(** EXIT_FAILURE of stdlib.h. *)
Definition EXIT_FAILURE : Z := 1.

Section Reading.

Context {D : Bosch.defs} {M : libm}.

Local Open Scope prog_scope.

(** bool read_BME680(struct measure *mm), acting on the global [MyBme]. *)
Definition read_BME680 (mm : measure) (s : rasp_BME680)
  : prog (bool * measure * rasp_BME680) :=
  (* get temperature *)
  '(v, s) <- readTemperature s ;;
  let mm := set_bme (set_tempC v (bme mm)) mm in
  if FP.feq (tempC (bme mm)) FP.NAN then Ret (false, mm, s)
  else
    (* get humidity *)
    '(v, s) <- readHumidity s ;;
    let mm := set_bme (set_humid v (bme mm)) mm in
    if FP.feq (humid (bme mm)) FP.NAN then Ret (false, mm, s)
    else
      (* get pressure *)
      '(v, s) <- readPressure s ;;
      let mm := set_bme (set_pressure v (bme mm)) mm in
      if FP.feq (pressure (bme mm)) FP.NAN then Ret (false, mm, s)
      else
        (* get gas *)
        '(v, s) <- readGas s ;;
        let mm := set_bme (set_gas_resistance v (bme mm)) mm in
        if gas_resistance (bme mm) =? 0 then Ret (false, mm, s)
        else
          (* Calculate hight in meters *)
          '(v, s) <- readAltitude (sealevel (bme mm)) s ;;
          let mm := set_bme (set_height v (bme mm)) mm in
          (* calculate dew_point *)
          let mm := set_bme
                      (set_dewpoint (calc_dewpoint (tempC (bme mm)) (humid (bme mm)))
                         (bme mm)) mm in
          Ret (true, mm, s).

(** The four reads of read_BME680 one after the other, without its
    guards. *)
Definition four_reads (s : rasp_BME680)
  : prog (FP.float * FP.float * FP.float * Z * rasp_BME680) :=
  '(t, s) <- readTemperature s ;;
  '(hu, s) <- readHumidity s ;;
  '(p, s) <- readPressure s ;;
  '(g, s) <- readGas s ;;
  Ret (t, hu, p, g, s).

(** void closeout(int val): reset the sensor, close the bus, exit(val).
    exit does not return; the model returns the exit status, and the caller
    stops there. *)
Definition closeout (val : Z) (s : rasp_BME680) : prog (Z * rasp_BME680) :=
  '(_, dev) <- trigger (bme680_soft_reset (gas_sensor s)) ;;
  let s := set_gas_sensor dev s in
  trigger TWI_close ;;
  Ret (val, s).

(** How the measurement loop ends: the process exited, the loop ran to its
    end, or the iterations allowed to the model ran out. *)
Inductive loop_end : Type :=
| Exited (val : Z)
| Finished
| Unfinished.

(** The while loop of main_loop, for at most [fuel] iterations. *)
Fixpoint main_loop_from (fuel : nat) (lloop : Z) (mm : measure) (s : rasp_BME680)
  : prog (loop_end * measure * rasp_BME680) :=
  if lloop >? 0 then
    match fuel with
    | O => Ret (Unfinished, mm, s)
    | S fuel' =>
        (* read values *)
        '(ok, mm, s) <- read_BME680 mm s ;;
        if negb ok then
          '(val, s) <- closeout EXIT_FAILURE s ;; Ret (Exited val, mm, s)
        else
          (* do output *)
          ok <- trigger (do_output_values mm) ;;
          if negb ok then
            '(val, s) <- closeout EXIT_FAILURE s ;; Ret (Exited val, mm, s)
          else
            (* delay *)
            trigger (sleep (loop_delay mm)) ;;
            (* loop count *)
            let lloop := if loop mm >? 0 then C.uint16 (lloop - 1) else lloop in
            main_loop_from fuel' lloop mm s
    end
  else Ret (Finished, mm, s).

(** void main_loop(struct measure *mm) *)
Definition main_loop (fuel : nat) (mm : measure) (s : rasp_BME680)
  : prog (loop_end * measure * rasp_BME680) :=
  let lloop := if loop mm >? 0 then C.uint16 (loop mm) else 1 in
  main_loop_from fuel lloop mm s.

End Reading.

End Monitor.

(** ** A scripted environment

    A test double for the driver and the clock: fixed answers of the driver
    calls and a list of successive clock readings (the last one repeats). *)

Record mock : Type := {
  settings_rslt : Z;
  mode_rslt : Z;
  profile_dur : Z;
  sensor_rslt : Z;
  field_data : Bosch.bme680_field_data;
  clock : list Z
}.

Definition tick (w : mock) : mock :=
  {| settings_rslt := settings_rslt w; mode_rslt := mode_rslt w;
     profile_dur := profile_dur w; sensor_rslt := sensor_rslt w;
     field_data := field_data w;
     clock := match clock w with
              | _ :: (_ :: _) as rest => rest
              | last => last
              end |}.

Definition mock_env : env mock := fun X e =>
  match e in event X return mock -> X * mock with
  | bme680_set_sensor_settings _ dev => fun w => ((settings_rslt w, dev), w)
  | bme680_set_sensor_mode dev => fun w => ((mode_rslt w, dev), w)
  | bme680_get_profile_dur _ => fun w => (profile_dur w, w)
  | bme680_get_sensor_data dev => fun w => ((sensor_rslt w, field_data w, dev), w)
  | millis => fun w => (hd 0 (clock w), tick w)
  | delay_ms _ => fun w => (tt, w)
  | bme680_soft_reset dev => fun w => ((0, dev), w)
  | TWI_close => fun w => (tt, w)
  | do_output_values _ => fun w => (true, w)
  | sleep _ => fun w => (tt, w)
  end.

(** A libm double for closed examples: the special values of [log] that
    Annex F of the C standard fixes, and NaN elsewhere. *)
Definition libm_stub : libm := {|
  log := fun x =>
    match x with
    | S754_zero _ => S754_infinity true
    | S754_infinity false => S754_infinity false
    | _ => S754_nan
    end;
  pow := fun _ _ => S754_nan
|}.

(** The session of the monitor once begin() has returned, with driver
    version 3.5.9. *)
Definition configured : rasp_BME680 := begin_defaults (D := Bosch.v3_5_9) MyBme.

(** A sample as the driver's integer compensation delivers it: 1013.25 hPa,
    45 %RH, and the given status byte, temperature (centidegrees) and gas
    resistance (ohms). *)
Definition sample (status_byte temp gas : Z) : Bosch.bme680_field_data :=
  {| Bosch.status := status_byte; Bosch.temperature := temp;
     Bosch.pressure := 101325; Bosch.humidity := 45000;
     Bosch.gas_resistance := gas |}.

(** A device whose calls all succeed: a conversion of 190 ms, the given
    sample and the given clock readings. *)
Definition healthy (data : Bosch.bme680_field_data) (ticks : list Z) : mock :=
  {| settings_rslt := 0; mode_rslt := 0; profile_dur := 190; sensor_rslt := 0;
     field_data := data; clock := ticks |}.

(** A device on which bme680_set_sensor_settings fails with
    BME680_E_COM_FAIL (-2). *)
Definition settings_fail : mock :=
  {| settings_rslt := -2; mode_rslt := 0; profile_dur := 190; sensor_rslt := 0;
     field_data := sample 0x90 2150 50000; clock := [1000] |}.

(** The session after one fetch of a sample with new data and a stable
    heater (status 0x90), 21.50 C and 50 kOhm. *)
Definition after_first_fetch : rasp_BME680 :=
  snd (result (run mock_env (performReading (D := Bosch.v3_5_9) configured)
                 (healthy (sample 0x90 2150 50000) [1000; 1001]))).

(** Then the heater is switched off: setGasHeater(0, 0). *)
Definition gas_switched_off : rasp_BME680 :=
  snd (setGasHeater (D := Bosch.v3_5_9) 0 0 after_first_fetch).

(** The configured session with temperature, humidity and pressure
    switched off (oversampling NONE) and the heater left on. *)
Definition thp_off : rasp_BME680 :=
  let s := snd (setTemperatureOversampling Bosch.BME680_OS_NONE configured) in
  let s := snd (setHumidityOversampling Bosch.BME680_OS_NONE s) in
  snd (setPressureOversampling Bosch.BME680_OS_NONE s).

(** The monitor's variables as init_variables() leaves them, for a sea
    level of 101325 Pa; the gas resistance, which it does not set, is taken
    as 0. *)
Definition mm_init : Cli.measure :=
  {| Cli.verbose := 0; Cli.loop := 0; Cli.loop_delay := 5;
     Cli.bme :=
       {| Cli.overSampleT := 16; Cli.overSampleH := 8; Cli.overSampleP := 8;
          Cli.filter := 7; Cli.heaterT := 300; Cli.heaterM := 150;
          Cli.tempC := FP.float_of_Z 0; Cli.humid := FP.float_of_Z 0;
          Cli.pressure := FP.float_of_Z 0; Cli.sealevel := FP.float_of_Z 101325;
          Cli.height := FP.float_of_Z 0; Cli.dewpoint := FP.float_of_Z 0;
          Cli.gas_resistance := 0 |} |}.

(** ** What a trace shows *)

(** A call without the device structure and the answer. *)
Inductive call : Type :=
| call_set_sensor_settings (desired_settings : Z)
| call_set_sensor_mode
| call_get_profile_dur
| call_get_sensor_data
| call_millis
| call_delay_ms (ms : Z)
| call_soft_reset
| call_TWI_close
| call_do_output_values
| call_sleep (seconds : Z).

Definition call_of (o : obs) : call :=
  match o with
  | Obs e _ =>
      match e with
      | bme680_set_sensor_settings sel _ => call_set_sensor_settings sel
      | bme680_set_sensor_mode _ => call_set_sensor_mode
      | bme680_get_profile_dur _ => call_get_profile_dur
      | bme680_get_sensor_data _ => call_get_sensor_data
      | millis => call_millis
      | delay_ms ms => call_delay_ms ms
      | bme680_soft_reset _ => call_soft_reset
      | TWI_close => call_TWI_close
      | do_output_values _ => call_do_output_values
      | sleep seconds => call_sleep seconds
      end
  end.

Definition calls (tr : list obs) : list call := map call_of tr.

Fixpoint first_some {A B : Type} (f : A -> option B) (l : list A) : option B :=
  match l with
  | [] => None
  | a :: l' =>
      match f a with
      | Some b => Some b
      | None => first_some f l'
      end
  end.

(** The result code a bme680_set_sensor_settings call returned. *)
Definition settings_of (o : obs) : option Z :=
  match o with
  | Obs e x =>
      match e in event X return X -> option Z with
      | bme680_set_sensor_settings _ _ => fun x => Some (fst x)
      | _ => fun _ => None
      end x
  end.

(** The result code and the field data a bme680_get_sensor_data call
    returned. *)
Definition sensor_data_of (o : obs) : option (Z * Bosch.bme680_field_data) :=
  match o with
  | Obs e x =>
      match e in event X return X -> option (Z * Bosch.bme680_field_data) with
      | bme680_get_sensor_data _ => fun x => Some (fst x)
      | _ => fun _ => None
      end x
  end.

(** The delay a delay_ms call asked for. *)
Definition delay_of (o : obs) : list Z :=
  match o with
  | Obs e _ =>
      match e with
      | delay_ms ms => [ms]
      | _ => []
      end
  end.

Definition settings_answer (tr : list obs) : option Z := first_some settings_of tr.

Definition sensor_data_answer (tr : list obs) : option (Z * Bosch.bme680_field_data) :=
  first_some sensor_data_of tr.

Definition delays (tr : list obs) : list Z := flat_map delay_of tr.

(** The reading a millis call returned. *)
Definition clock_of (o : obs) : list Z :=
  match o with
  | Obs e x =>
      match e in event X return X -> list Z with
      | millis => fun x => [x]
      | _ => fun _ => []
      end x
  end.

Definition clock_readings (tr : list obs) : list Z := flat_map clock_of tr.

(** The four cached readings. *)
Definition readings (s : rasp_BME680) : FP.float * FP.float * FP.float * FP.float :=
  (temperature s, humidity s, pressure s, gas_resistance s).

(** The five enable flags. *)
Definition flags (s : rasp_BME680) : bool * bool * bool * bool * bool :=
  (_filterEnabled s, _tempEnabled s, _humEnabled s, _presEnabled s, _gasEnabled s).

(** The oversampling and filter members of the device structure. *)
Definition tph_settings (s : rasp_BME680) : Bosch.tph_sett_t :=
  Bosch.tph_sett (gas_sensor s).

(** The members that no oversampling or filter setter writes: the heater
    settings and the gas flag, the power mode, the cached readings and the
    deadline. *)
Definition untouched_by_setters (s : rasp_BME680)
  : Bosch.gas_sett_t * Z * bool * (FP.float * FP.float * FP.float * FP.float) * Z :=
  (Bosch.gas_sett (gas_sensor s), Bosch.power_mode (gas_sensor s), _gasEnabled s,
   readings s, _meas_end s).

(** ** The steps of a fetch

    performReading seen from outside: the trigger, one clock reading, at
    most one delay, the field data call, and what is stored and returned
    once that call has answered. *)

(** The delays performReading asks for, given the deadline and the clock
    reading: [gas_sensor.delay_ms(meas_period * 2)] under
    [if (meas_end > now)]. *)
Definition wait_request (meas_end now : Z) : list Z :=
  if meas_end >? now then [C.uint32 (C.ulong ((meas_end - now) * 2))] else [].

Definition delay_obs (ms : Z) : obs := Obs (delay_ms ms) tt.

(** The environment after the delays. *)
Fixpoint sleep_all {W : Type} (h : env W) (l : list Z) (w : W) : W :=
  match l with
  | [] => w
  | ms :: l' => sleep_all h l' (snd (h _ (delay_ms ms) w))
  end.

(** What performReading returns and stores once bme680_get_sensor_data has
    answered [rslt] and [data]. *)
Definition conclude {D : Bosch.defs} (rslt : Z) (data : Bosch.bme680_field_data)
  (s : rasp_BME680) : bool * rasp_BME680 :=
  if negb (C.int8 rslt =? Bosch.BME680_OK) then (false, s)
  else if no_new_fields data then (true, store_no_new_fields s)
  else (true, store_fields data s).

(** The two ways a fetch goes: the trigger fails, or the field data call is
    reached. *)
Inductive fetch {D : Bosch.defs} {W : Type} (h : env W) (w : W) (s : rasp_BME680)
  : bool * rasp_BME680 * W * list obs -> Prop :=
| fetch_no_trigger (s1 : rasp_BME680) (w1 : W) (tr1 : list obs) :
    run h (beginReading s) w = ((0, s1), w1, tr1) ->
    fetch h w s ((false, s1), w1, tr1)
| fetch_data (d : Z) (s1 : rasp_BME680) (w1 : W) (tr1 : list obs)
    (now : Z) (w2 : W) (rslt : Z) (data : Bosch.bme680_field_data)
    (dev : Bosch.bme680_dev) (w4 : W) :
    run h (beginReading s) w = ((d, s1), w1, tr1) ->
    d <> 0 ->
    h _ millis w1 = (now, w2) ->
    h _ (bme680_get_sensor_data (gas_sensor s1))
      (sleep_all h (wait_request d (C.ulong now)) w2) = ((rslt, data, dev), w4) ->
    fetch h w s
      (conclude rslt data (set_gas_sensor dev (set_meas_end 0 s1)), w4,
       tr1 ++ Obs millis now
           :: map delay_obs (wait_request d (C.ulong now))
           ++ [Obs (bme680_get_sensor_data (gas_sensor s1)) (rslt, data, dev)]).

(** ** The claims about a fetch, as the specification words them *)

(** The values a sample gives the four readings. *)
Definition sample_temperature (data : Bosch.bme680_field_data) : FP.float :=
  FP.float_of_double
    (FP.ddiv (FP.double_of_Z (C.int16 (Bosch.temperature data))) (FP.double_of_Z 100)).

Definition sample_humidity (data : Bosch.bme680_field_data) : FP.float :=
  FP.float_of_double
    (FP.ddiv (FP.double_of_Z (C.uint32 (Bosch.humidity data))) (FP.double_of_Z 1000)).

Definition sample_pressure (data : Bosch.bme680_field_data) : FP.float :=
  FP.float_of_Z (C.uint32 (Bosch.pressure data)).

Definition sample_gas_resistance (data : Bosch.bme680_field_data) : FP.float :=
  FP.float_of_Z (C.uint32 (Bosch.gas_resistance data)).

(** No channel was updated: the four readings are the previous ones. *)
Definition none_updated (s s' : rasp_BME680) : Prop := readings s' = readings s.

(** All four channels were updated: each reading is a value this fetch
    writes, the one of the sample or the one written in its place (NaN for
    temperature, humidity and pressure, 0 for the gas resistance). *)
Definition all_updated (data : Bosch.bme680_field_data) (s' : rasp_BME680) : Prop :=
  (temperature s' = sample_temperature data \/ temperature s' = FP.NAN)
  /\ (humidity s' = sample_humidity data \/ humidity s' = FP.NAN)
  /\ (pressure s' = sample_pressure data \/ pressure s' = FP.NAN)
  /\ (gas_resistance s' = sample_gas_resistance data
      \/ gas_resistance s' = FP.float_of_Z 0).

(** "An error return leaves prior cached readings untouched; either all
    four channels are updated together or none are." *)
Definition all_or_none {D : Bosch.defs} {W : Type} (h : env W) (w : W)
  (s : rasp_BME680) : Prop :=
  let r := run h (performReading s) w in
  (fst (result r) = false -> none_updated s (snd (result r)))
  /\ (none_updated s (snd (result r))
      \/ exists rslt data,
           sensor_data_answer (trace r) = Some (rslt, data)
           /\ all_updated data (snd (result r))).

(** "If the deadline lies in the future, sleeps for exactly twice the
    remaining duration; if it has passed, does not sleep."  The deadline is
    what the trigger returned, the clock reading is the one performReading
    takes after it. *)
Definition sleeps_twice_remaining {D : Bosch.defs} {W : Type} (h : env W) (w : W)
  (s : rasp_BME680) : Prop :=
  let rb := run h (beginReading s) w in
  let meas_end := fst (result rb) in
  let now := C.ulong (fst (h _ millis (world rb))) in
  meas_end <> 0 ->
  delays (trace (run h (performReading s) w))
  = if meas_end >? now then [2 * (meas_end - now)] else [].

(** ** The clock and the delay routine (bme680_lib.cpp) *)

Module Clock.

(** struct timeval of sys/time.h; on the target [time_t] and [suseconds_t]
    are [long]. *)
Record timeval : Type := {
  tv_sec : Z;
  tv_usec : Z
}.

(** The range of [long] on the ILP32 target. *)
Definition LONG_MIN : Z := - 2 ^ 31.
Definition LONG_MAX : Z := 2 ^ 31 - 1.

Definition in_long (x : Z) : Prop := LONG_MIN <= x <= LONG_MAX.

(** static unsigned long millis(), as a function of the reading [tv] that
    its gettimeofday call takes and of the reading [tv_s] that begin() took.
    The sum is computed in [long], where [/] truncates toward zero, and
    converted to [unsigned long] by the initialisation of [calc].  The
    expression is defined as long as its intermediate results fit [long]. *)
Definition millis (tv tv_s : timeval) : Z :=
  let calc :=
    C.ulong ((tv_sec tv - tv_sec tv_s) * 1000
             + Z.quot (tv_usec tv - tv_usec tv_s) 1000) in
  calc.

(** The time between two readings, in microseconds. *)
Definition elapsed_usec (tv tv_s : timeval) : Z :=
  (tv_sec tv - tv_sec tv_s) * 1000000 + (tv_usec tv - tv_usec tv_s).

(** A reading as gettimeofday delivers it: microseconds below one second. *)
Definition normalized (tv : timeval) : Prop := 0 <= tv_usec tv < 1000000.

(** struct timespec of time.h, as [sleeper] in delay_msec. *)
Record timespec : Type := {
  sleeper_tv_sec : Z;
  sleeper_tv_nsec : Z
}.

(** static void delay_msec(uint32_t ms): the [sleeper] it hands to
    nanosleep. *)
Definition delay_msec (ms : Z) : timespec :=
  let ms := C.uint32 ms in
  {| sleeper_tv_sec := ms / 1000;
     sleeper_tv_nsec := (ms mod 1000) * 1000000 |}.

End Clock.

(** ** The bus callbacks handed to the driver (bme680_lib.cpp)

    i2c_read and i2c_write drive the bus object [TWI] of the twowire
    library.  Its calls are the operations [op] of a second small free
    monad; a handler answers them and [run] records them. *)

Module I2C.

(** The status codes of the bus library that the two switch statements
    name; [I2C_unknown] stands for any other code (the default label). *)
Inductive Wstatus : Type :=
| I2C_OK
| I2C_SDA_NACK
| I2C_SCL_CLKSTR
| I2C_SDA_DATA
| I2C_unknown.

Definition is_ok (st : Wstatus) : bool :=
  match st with
  | I2C_OK => true
  | _ => false
  end.

Definition failed (st : Wstatus) : Prop := st <> I2C_OK.

(** TWI.setSlave(address), TWI.i2c_write(buf, len) with the bytes of the
    buffer, and TWI.i2c_read(buf, len), which answers with its status and
    with the buffer as it leaves it. *)
Inductive op : Type -> Type :=
| TWI_setSlave (addr : Z) : op unit
| TWI_i2c_write (buf : list Z) (len : Z) : op Wstatus
| TWI_i2c_read (buf : list Z) (len : Z) : op (Wstatus * list Z).

Inductive prog (A : Type) : Type :=
| Ret (a : A)
| Vis (X : Type) (e : op X) (k : X -> prog A).

Arguments Ret {A} a.
Arguments Vis {A X} e k.

Fixpoint bind {A B : Type} (p : prog A) (f : A -> prog B) : prog B :=
  match p with
  | Ret a => f a
  | Vis e k => Vis e (fun x => bind (k x) f)
  end.

Definition trigger {X : Type} (e : op X) : prog X := Vis e Ret.

Declare Scope i2c_scope.
Delimit Scope i2c_scope with i2c.
Notation "x <- p ;; q" := (bind p (fun x => q))
  (at level 61, p at next level, right associativity) : i2c_scope.
Notation "' pat <- p ;; q" := (bind p (fun x => match x with pat => q end))
  (at level 61, pat pattern, p at next level, right associativity) : i2c_scope.
Notation "p ;; q" := (bind p (fun _ => q))
  (at level 61, right associativity) : i2c_scope.

(** A bus answers each call from its own state [B]. *)
Definition bus (B : Type) : Type := forall X : Type, op X -> B -> X * B.

(** One call on the bus with its answer. *)
Inductive obs : Type :=
| Obs (X : Type) (e : op X) (x : X).

Arguments Obs {X} e x.

Fixpoint run {B A : Type} (h : bus B) (p : prog A) (b : B) : A * B * list obs :=
  match p with
  | Ret a => (a, b, [])
  | Vis e k =>
      let '(x, b1) := h _ e b in
      let '(a, b2, tr) := run h (k x) b1 in
      (a, b2, Obs e x :: tr)
  end.

Section Glue.

(** BME680_TMP_BUFFER_LENGTH of bme680_defs.h, a parameter. *)
Variable BME680_TMP_BUFFER_LENGTH : Z.

(** I2Csettings.I2C_Address *)
Variable I2C_Address : Z.

Local Open Scope i2c_scope.

(** The [while(1)] loop of i2c_read with [retry] retries left: the test
    [if (retry-- > 0) continue;] goes round again while the count is
    positive. *)
Fixpoint i2c_read_loop (retry : nat) (addr : Z) (reg_data : list Z) (len : Z)
  : prog (Z * list Z) :=
  (* first write the register we want to read *)
  st <- trigger (TWI_i2c_write [addr] 1) ;;
  if negb (is_ok st) then Ret (1, reg_data)
  else
    (* read results from I2C *)
    '(result, reg_data) <- trigger (TWI_i2c_read reg_data len) ;;
    match result with
    | I2C_OK => Ret (0, reg_data)
    | _ =>
        (* if failure, then retry as long as retrycount has not been reached *)
        match retry with
        | S retry' => i2c_read_loop retry' addr reg_data len
        | O => Ret (1, reg_data)
        end
    end.

(** int8_t i2c_read(uint8_t dev_id, uint8_t reg_addr, uint8_t *reg_data,
    uint16_t len): the result and the buffer [reg_data] afterwards. *)
Definition i2c_read (dev_id reg_addr : Z) (reg_data : list Z) (len : Z)
  : prog (Z * list Z) :=
  let retry := 3%nat in
  let addr := C.uint8 reg_addr in
  (* set slave address *)
  trigger (TWI_setSlave I2C_Address) ;;
  i2c_read_loop retry addr reg_data (C.uint16 len).

(** The [while (1)] loop of i2c_write with [retry] retries left. *)
Fixpoint i2c_write_loop (retry : nat) (tmp : list Z) (len : Z) : prog Z :=
  (* perform a write of data *)
  result <- trigger (TWI_i2c_write tmp len) ;;
  match result with
  | I2C_OK => Ret 0
  | _ =>
      (* if error, perform retry (if not exceeded) *)
      match retry with
      | S retry' => i2c_write_loop retry' tmp len
      | O => Ret 1
      end
  end.

(** int8_t i2c_write(uint8_t dev_id, uint8_t reg_addr, uint8_t *reg_data,
    uint16_t len).  [reg_data] holds the bytes at the pointer; [tmp] is the
    part of the local buffer that the copy loop fills. *)
Definition i2c_write (dev_id reg_addr : Z) (reg_data : list Z) (len : Z) : prog Z :=
  let retry := 3%nat in
  let len := C.uint16 len in
  (* exceeding buffer during copy *)
  if len >? BME680_TMP_BUFFER_LENGTH then Ret 1
  else
    (* set slave address *)
    trigger (TWI_setSlave I2C_Address) ;;
    (* copy register address and data in single buffer *)
    let tmp := C.uint8 reg_addr :: firstn (Z.to_nat len) reg_data in
    i2c_write_loop retry tmp (C.uint8 len + 1).

End Glue.

(** What a bus trace shows: the answers to the write calls and to the read
    calls, in order, and the buffers and lengths the write calls sent. *)
Definition write_status_of (o : obs) : list Wstatus :=
  match o with
  | Obs e x =>
      match e in op X return X -> list Wstatus with
      | TWI_i2c_write _ _ => fun x => [x]
      | _ => fun _ => []
      end x
  end.

Definition read_status_of (o : obs) : list Wstatus :=
  match o with
  | Obs e x =>
      match e in op X return X -> list Wstatus with
      | TWI_i2c_read _ _ => fun x => [fst x]
      | _ => fun _ => []
      end x
  end.

Definition sent_of (o : obs) : list (list Z * Z) :=
  match o with
  | Obs e _ =>
      match e with
      | TWI_i2c_write buf len => [(buf, len)]
      | _ => []
      end
  end.

Definition read_buffer_of (o : obs) : list (list Z) :=
  match o with
  | Obs e x =>
      match e in op X return X -> list (list Z) with
      | TWI_i2c_read _ _ => fun x => [snd x]
      | _ => fun _ => []
      end x
  end.

Definition slave_of (o : obs) : list Z :=
  match o with
  | Obs e _ =>
      match e with
      | TWI_setSlave addr => [addr]
      | _ => []
      end
  end.

Definition write_answers (tr : list obs) : list Wstatus := flat_map write_status_of tr.
Definition read_buffers (tr : list obs) : list (list Z) := flat_map read_buffer_of tr.
Definition slaves (tr : list obs) : list Z := flat_map slave_of tr.
Definition read_answers (tr : list obs) : list Wstatus := flat_map read_status_of tr.
Definition sent (tr : list obs) : list (list Z * Z) := flat_map sent_of tr.

(** A bus double that answers the write calls and the read calls from two
    scripts; a script that ran out answers I2C_OK.  A read delivers the
    bytes [data]. *)
Record scripted : Type := {
  write_script : list Wstatus;
  read_script : list Wstatus;
  data : list Z
}.

Definition scripted_bus : bus scripted := fun X e =>
  match e in op X return scripted -> X * scripted with
  | TWI_setSlave _ => fun b => (tt, b)
  | TWI_i2c_write _ _ => fun b =>
      (hd I2C_OK (write_script b),
       {| write_script := tl (write_script b); read_script := read_script b;
          data := data b |})
  | TWI_i2c_read buf _ => fun b =>
      let st := hd I2C_OK (read_script b) in
      ((st, if is_ok st then data b else buf),
       {| write_script := write_script b; read_script := tl (read_script b);
          data := data b |})
  end.

End I2C.

(** ** Coloured console output (bme680_lib.cpp, rasp_BME680.h) *)

Module Color.

Import Strings.String.

Local Open Scope string_scope.

Definition RED : Z := 1.
Definition GREEN : Z := 2.
Definition YELLOW : Z := 3.
Definition BLUE : Z := 4.
Definition WHITE : Z := 5.

(** The escape character written [\e]. *)
Definition ESC : String.string := String.String (Ascii.ascii_of_N 27) "".

(** The formats REDSTR, GRNSTR, YLWSTR and BLUSTR, each with the single
    directive %s: the text before it and the text after it. *)
Definition REDSTR : String.string * String.string := (ESC ++ "[1;31m", ESC ++ "[00m").
Definition GRNSTR : String.string * String.string := (ESC ++ "[1;92m", ESC ++ "[00m").
Definition YLWSTR : String.string * String.string := (ESC ++ "[1;93m", ESC ++ "[00m").
Definition BLUSTR : String.string * String.string := (ESC ++ "[1;34m", ESC ++ "[00m").

(** sprintf(col, fmt, format) for such a format: the string left in [col]. *)
Definition sprintf_s (fmt : String.string * String.string) (arg : String.string)
  : String.string :=
  fst fmt ++ arg ++ snd fmt.

(** The size of the block that p_printf allocates for [col]. *)
Definition col_size (format : String.string) : Z :=
  Z.of_nat (String.length format) + 20.

(** void p_printf(int level, char *format, ...): the string [col] it
    builds and hands to vfprintf as the format. *)
Definition p_printf (NoColor : bool) (level : Z) (format : String.string)
  : String.string :=
  let coll := level in
  let coll := if NoColor then WHITE else coll in
  if (coll =? RED)%Z then sprintf_s REDSTR format
  else if (coll =? GREEN)%Z then sprintf_s GRNSTR format
  else if (coll =? YELLOW)%Z then sprintf_s YLWSTR format
  else if (coll =? BLUE)%Z then sprintf_s BLUSTR format
  else format.

End Color.

(** ** Startup (bme680_lib.cpp, bme680m.cpp) *)

(** bool rasp_BME680::begin().  [twi_begin] is what TWI.begin returned
    (nonzero for an error) and [bme680_init] is the driver's initialisation
    as it acts on the device structure.  The callbacks and the interface
    kind that begin() stores in the structure are members the model of the
    structure does not carry, and gettimeofday(&tv_s) sets the start time
    that [Clock.millis] takes as its second argument. *)
Definition begin {D : Bosch.defs} (twi_begin : Z)
  (bme680_init : Bosch.bme680_dev -> Z * Bosch.bme680_dev) (s : rasp_BME680)
  : bool * rasp_BME680 :=
  if C.truthy twi_begin then (false, s)
  else
    let '(rslt, dev) := bme680_init (gas_sensor s) in
    let s := set_gas_sensor dev s in
    if negb (C.int8 rslt =? Bosch.BME680_OK) then (false, s)
    else
      (* set default values and enable *)
      (true, begin_defaults s).

Module Setup.

Import Cli.

(** struct bmeI2C_p (rasp_BME680.h) *)
Record bmeI2C_p : Type := {
  hw_initialized : bool;
  I2C_interface : bool;
  I2C_Address : Z;
  baudrate : Z;
  sda : Z;
  scl : Z
}.

Definition BME680_DEFAULT_ADDRESS : Z := 0x77.
Definition BME680_SPEED : Z := 100.
Definition DEF_SDA : Z := 2.
Definition DEF_SCL : Z := 3.
Definition LOOPDELAY : Z := 5.

Section Hardware.

Context {D : Bosch.defs}.

(** hard_I2C and soft_I2C of twowire.h, parameters. *)
Variables hard_I2C soft_I2C : bool.

(** void init_variables(struct measure *mm), acting on the global
    [I2Csettings] too.  It also empties the two character buffers that
    [Cli.measure] leaves out; it does not set [gas_resistance]. *)
Definition init_variables (I2Csettings : bmeI2C_p) (mm : measure)
  : bmeI2C_p * measure :=
  (* set I2C *)
  let I2Csettings :=
    {| hw_initialized := hw_initialized I2Csettings;
       I2C_interface := soft_I2C;
       I2C_Address := BME680_DEFAULT_ADDRESS;
       baudrate := BME680_SPEED;
       sda := DEF_SDA;
       scl := DEF_SCL |} in
  let mm :=
    {| (* set program instructions *)
       verbose := 0; loop := 0; loop_delay := LOOPDELAY;
       bme :=
         {| (* BME680 measurement settings *)
            overSampleT := 16; overSampleH := 8; overSampleP := 8;
            filter := 7; heaterT := 300; heaterM := 150;
            (* reset results *)
            tempC := FP.float_of_Z 0; humid := FP.float_of_Z 0;
            pressure := FP.float_of_Z 0; sealevel := FP.float_of_Z 0;
            height := FP.float_of_Z 0; dewpoint := FP.float_of_Z 0;
            gas_resistance := gas_resistance (bme mm) |} |} in
  (I2Csettings, mm).

Local Open Scope prog_scope.

(** void init_hardware(struct measure *mm), acting on the global [MyBme].
    [geteuid] is the effective user id, [twi_begin] and [bme680_init] are
    what begin() meets.  exit does not return: the model answers with the
    exit status, and [None] when init_hardware returns to its caller. *)
Definition init_hardware (I2Csettings : bmeI2C_p) (geteuid twi_begin : Z)
  (bme680_init : Bosch.bme680_dev -> Z * Bosch.bme680_dev)
  (mm : measure) (s : rasp_BME680) : prog (option Z * rasp_BME680) :=
  (* hard_I2C requires  root permission *)
  if Bool.eqb (I2C_interface I2Csettings) hard_I2C && negb (geteuid =? 0)
  then Ret (Some Monitor.EXIT_FAILURE, s)
  else
    let '(ok, s) := begin twi_begin bme680_init s in
    if negb (Bool.eqb ok true) then Ret (Some Monitor.EXIT_FAILURE, s)
    else
      (* set BME680 measurement settings *)
      let '(ok, s) := setHumidityOversampling (getOversample (overSampleH (bme mm))) s in
      if Bool.eqb ok false then
        '(val, s) <- Monitor.closeout Monitor.EXIT_FAILURE s ;; Ret (Some val, s)
      else
        let '(ok, s) :=
          setTemperatureOversampling (getOversample (overSampleT (bme mm))) s in
        if Bool.eqb ok false then
          '(val, s) <- Monitor.closeout Monitor.EXIT_FAILURE s ;; Ret (Some val, s)
        else
          let '(ok, s) :=
            setPressureOversampling (getOversample (overSampleP (bme mm))) s in
          if Bool.eqb ok false then
            '(val, s) <- Monitor.closeout Monitor.EXIT_FAILURE s ;; Ret (Some val, s)
          else
            let '(ok, s) := setIIRFilterSize (getfilter (filter (bme mm))) s in
            if Bool.eqb ok false then
              '(val, s) <- Monitor.closeout Monitor.EXIT_FAILURE s ;; Ret (Some val, s)
            else
              let '(ok, s) := setGasHeater (heaterT (bme mm)) (heaterM (bme mm)) s in
              if Bool.eqb ok false then
                '(val, s) <- Monitor.closeout Monitor.EXIT_FAILURE s ;; Ret (Some val, s)
              else Ret (None, s).

End Hardware.

End Setup.

(** ** Further observations on a run of the monitor *)

Section Fetches.

Context {D : Bosch.defs}.

Local Open Scope prog_scope.

(** [n] calls of performReading one after the other. *)
Fixpoint fetches (n : nat) (s : rasp_BME680) : prog rasp_BME680 :=
  match n with
  | O => Ret s
  | S n' => '(_, s) <- performReading s ;; fetches n' s
  end.

End Fetches.

(** The expression of readAltitude on the pressure it read. *)
Definition altitude {M : libm} (atmospheric seaLevel : FP.float) : FP.float :=
  FP.float_of_double
    (FP.dmul (FP.double_of_Z 44330)
       (FP.dsub (FP.double_of_Z 1)
          (pow (FP.fdiv atmospheric seaLevel) (FP.dlit 190284 1000000)))).

(** The seconds a sleep call asked for. *)
Definition sleep_of (o : obs) : list Z :=
  match o with
  | Obs e _ =>
      match e with
      | sleep seconds => [seconds]
      | _ => []
      end
  end.

(** The variables a do_output_values call was given. *)
Definition output_of (o : obs) : list Cli.measure :=
  match o with
  | Obs e _ =>
      match e with
      | do_output_values mm => [mm]
      | _ => []
      end
  end.

(** The result code a bme680_set_sensor_mode call returned. *)
Definition mode_of (o : obs) : option Z :=
  match o with
  | Obs e x =>
      match e in event X return X -> option Z with
      | bme680_set_sensor_mode _ => fun x => Some (fst x)
      | _ => fun _ => None
      end x
  end.

(** The duration a bme680_get_profile_dur call returned. *)
Definition profile_dur_of (o : obs) : list Z :=
  match o with
  | Obs e x =>
      match e in event X return X -> list Z with
      | bme680_get_profile_dur _ => fun x => [x]
      | _ => fun _ => []
      end x
  end.

(** The power mode of the device structure a driver call was given. *)
Definition power_mode_of (o : obs) : list Z :=
  match o with
  | Obs e _ =>
      match e with
      | bme680_set_sensor_settings _ dev => [Bosch.power_mode dev]
      | bme680_set_sensor_mode dev => [Bosch.power_mode dev]
      | bme680_get_profile_dur dev => [Bosch.power_mode dev]
      | bme680_get_sensor_data dev => [Bosch.power_mode dev]
      | bme680_soft_reset dev => [Bosch.power_mode dev]
      | _ => []
      end
  end.

Definition mode_answer (tr : list obs) : option Z := first_some mode_of tr.

Definition profile_durations (tr : list obs) : list Z := flat_map profile_dur_of tr.

Definition sleeps (tr : list obs) : list Z := flat_map sleep_of tr.

Definition outputs (tr : list obs) : list Cli.measure := flat_map output_of tr.

(** The selection byte that beginReading builds from the enable flags. *)
Definition required_settings {D : Bosch.defs} (s : rasp_BME680) : Z :=
  C.uint8
    (Z.lor (if _tempEnabled s then Bosch.BME680_OST_SEL else 0)
       (Z.lor (if _humEnabled s then Bosch.BME680_OSH_SEL else 0)
          (Z.lor (if _presEnabled s then Bosch.BME680_OSP_SEL else 0)
             (Z.lor (if _filterEnabled s then Bosch.BME680_FILTER_SEL else 0)
                (if _gasEnabled s then Bosch.BME680_GAS_SENSOR_SEL else 0))))).

(** The configuration part of the monitor's variables: everything but the
    six results of a reading. *)
Definition options (mm : Cli.measure) : Z * Z * Z * (Z * Z * Z * Z * Z * Z) * FP.float :=
  (Cli.verbose mm, Cli.loop mm, Cli.loop_delay mm,
   (Cli.overSampleT (Cli.bme mm), Cli.overSampleH (Cli.bme mm),
    Cli.overSampleP (Cli.bme mm), Cli.filter (Cli.bme mm),
    Cli.heaterT (Cli.bme mm), Cli.heaterM (Cli.bme mm)),
   Cli.sealevel (Cli.bme mm)).

(** ** The output line (bme680m.cpp)

    C strings are [string]s, without their terminator.  The conversions
    of printf ([%2.2f], [%u], [%d]) and the text that time_stamp writes
    belong to the C library; they are parameters. *)

Module Output.

Import Strings.Ascii Strings.String.

Local Open Scope string_scope.

Definition MAXBUF : Z := 200.

Definition TAB : string := String (ascii_of_N 9) EmptyString.
Definition NL : string := String (ascii_of_N 10) EmptyString.
Definition backslash : ascii := ascii_of_N 92.

(** void add_to_buf(char *buf, char *buf1): the string in [buf]
    afterwards. *)
Definition add_to_buf (buf buf1 : string) : string :=
  if (Z.of_nat (length buf) + Z.of_nat (length buf1) >? MAXBUF)%Z then buf
  else buf ++ buf1.

Section Format.

(** printf's conversion [%2.2f] of a [float] argument. *)
Variable fmt_2_2f : FP.float -> string.

(** printf's conversions [%u] and [%d]. *)
Variable fmt_u : Z -> string.
Variable fmt_d : Z -> string.

(** What time_stamp() writes into its buffer. *)
Variable time_stamp : string.

(** The line that format_output writes with sprintf when no format was
    requested, and again when it meets an illegal character. *)
Definition default_line (b : Cli.bmeval) : string :=
  "Temp: " ++ fmt_2_2f (Cli.tempC b)
  ++ TAB ++ "Humidity: " ++ fmt_2_2f (Cli.humid b)
  ++ TAB ++ "pressure: " ++ fmt_2_2f (FP.fdiv (Cli.pressure b) (FP.float_of_Z 100))
  ++ TAB ++ " gas resistance " ++ fmt_u (Cli.gas_resistance b / 1000)%Z
  ++ " Kohm" ++ NL.

(** The letters of the BME results. *)
Definition is_result (c : ascii) : bool :=
  (c =? "T")%char || (c =? "H")%char || (c =? "P")%char
  || (c =? "M")%char || (c =? "R")%char || (c =? "D")%char.

(** What the branches under "BME results" write into [tm]. *)
Definition result_text (b : Cli.bmeval) (c : ascii) : string :=
  if (c =? "T")%char then " Temp: " ++ fmt_2_2f (Cli.tempC b)
  else if (c =? "H")%char then " Humidity: " ++ fmt_2_2f (Cli.humid b)
  else if (c =? "P")%char then
    " Pressure: " ++ fmt_2_2f (FP.fdiv (Cli.pressure b) (FP.float_of_Z 100))
  else if (c =? "M")%char then " Height: " ++ fmt_2_2f (Cli.height b)
  else if (c =? "R")%char then " Resistance: " ++ fmt_d (Cli.gas_resistance b / 1000)%Z
  else " Dewpoint: " ++ fmt_2_2f (Cli.dewpoint b).

(** The characters after a backslash that the branches under "markup"
    name. *)
Definition is_markup (c : ascii) : bool :=
  (c =? "t")%char || (c =? "s")%char || (c =? "n")%char
  || (c =? ",")%char || (c =? ";")%char || (c =? "l")%char
  || (c =? backslash)%char.

(** What the branches under "markup" write into [tm] for the character
    after the backslash, the doubled backslash apart; for any other
    character [tm] keeps what it held. *)
Definition markup_text (c : ascii) (tm : string) : string :=
  if (c =? "t")%char then TAB
  else if (c =? "s")%char then " "
  else if (c =? "n")%char then NL
  else if (c =? ",")%char then ","
  else if (c =? ";")%char then ";"
  else if (c =? "l")%char then time_stamp
  else tm.

(** The while loop of format_output over the format and the statement after
    it, from the position [p] with [tm] and [buf] as they are.  The format
    sits in an array of MAXBUF characters that strncpy padded with zeros,
    so for a format of fewer than MAXBUF - 1 characters the position just
    past the terminator (after a backslash that ends the format) reads as
    the end too.  [tm] is an array of 30 characters and [buf] the array
    of its caller; the strings are those the arrays hold as long as every
    text has room in them. *)
Fixpoint format_loop (b : Cli.bmeval) (p : string) (tm buf : string) : string :=
  match p with
  | EmptyString => add_to_buf buf NL
  | String c p1 =>
      (* BME results *)
      if is_result c then
        let tm := result_text b c in
        format_loop b p1 tm (add_to_buf buf tm)
      (* markup *)
      else if (c =? backslash)%char then
        match p1 with
        | EmptyString =>
            (* the terminator follows: no branch writes [tm] *)
            add_to_buf (add_to_buf buf tm) NL
        | String c1 p2 =>
            if (c1 =? backslash)%char then
              match p2 with
              | EmptyString =>
                  (* [%c] of the terminator leaves [tm] empty *)
                  let tm := EmptyString in
                  add_to_buf (add_to_buf buf tm) NL
              | String c2 p3 =>
                  let tm := String c2 EmptyString in
                  format_loop b p3 tm (add_to_buf buf tm)
              end
            else
              let tm := markup_text c1 tm in
              format_loop b p2 tm (add_to_buf buf tm)
        end
      (* trouble ... *)
      else default_line b
  end.

(** void format_output(struct measure *mm, char *buf): the string in [buf]
    afterwards.  [format] is mm->format and [tm0] is what the local array
    [tm] holds on entry, which the code does not initialise. *)
Definition format_output (b : Cli.bmeval) (format : string) (tm0 : string) : string :=
  (* use default output if no specific format was requested *)
  if Nat.eqb (length format) 0 then default_line b
  else
    (* reset output buffer *)
    let buf := EmptyString in
    format_loop b format tm0 buf.

(** The items of a format as the comment above format_output lists them. *)
Inductive item : Type :=
| Result (c : ascii)
| Markup (c : ascii)
| Included (c : ascii).

(** The text of an item. *)
Definition item_text (b : Cli.bmeval) (i : item) : string :=
  match i with
  | Result c => result_text b c
  | Markup c => markup_text c EmptyString
  | Included c => String c EmptyString
  end.

(** Reading a format as a sequence of items: a result letter, a backslash
    with one of [t s n , ; l], or two backslashes and any character. *)
Fixpoint items (p : string) : option (list item) :=
  match p with
  | EmptyString => Some []
  | String c p1 =>
      if is_result c then option_map (cons (Result c)) (items p1)
      else if (c =? backslash)%char then
        match p1 with
        | EmptyString => None
        | String c1 p2 =>
            if (c1 =? backslash)%char then
              match p2 with
              | EmptyString => None
              | String c2 p3 => option_map (cons (Included c2)) (items p3)
              end
            else if is_markup c1 then option_map (cons (Markup c1)) (items p2)
            else None
        end
      else None
  end.

(** The texts of the items, one after the other. *)
Fixpoint texts (b : Cli.bmeval) (l : list item) : string :=
  match l with
  | [] => EmptyString
  | i :: l' => item_text b i ++ texts b l'
  end.

(** What [tm] holds after the items [l], when it held [tm] before them:
    the text of the last item. *)
Definition last_text (b : Cli.bmeval) (l : list item) (tm : string) : string :=
  match l with
  | [] => tm
  | _ => item_text b (last l (Result "T"%char))
  end.

End Format.

End Output.

(** ** The output line with its arrays (bme680m.cpp)

    format_output works on three arrays: [mm->format] and the caller's
    [buf], of MAXBUF characters each, and its own [tm] of 30.  The module
    [Output] gives the strings they hold as long as every string has room.
    Here every write is checked against the size of its array: the result is
    [None] when the call reads or writes outside an array.  A string is the
    C string at a pointer, without its terminator. *)

Module Buffers.

Import Strings.Ascii Strings.String.

Local Open Scope string_scope.

(** [char tm[30]] of format_output. *)
Definition TMSIZE : Z := 30.

(** A string has room in an array of [size] characters when it fits with
    its terminator. *)
Definition has_room (size : Z) (t : string) : bool := (Z.of_nat (length t) <? size)%Z.

(** Writing the string [t] to the start of an array of [size] characters
    (sprintf, strcat from the start): the array holds [t] when it has room,
    and the write runs past the array otherwise. *)
Definition stored (size : Z) (t : string) : option string :=
  if has_room size t then Some t else None.

(** What mm->format holds: init_variables sets [format[0] = 0x0] and leaves
    the rest, and option -O copies its argument with
    [strncpy(mm->format, option, MAXBUF)], which fills the array up with
    zeros behind a shorter argument and leaves no terminator behind a longer
    one. *)
Inductive format_array : Type :=
| Unset
| Copied (option : string).

(** The string in the array, as strlen and the loop read it: there is none
    when no terminator lies inside the array. *)
Definition held (f : format_array) : option string :=
  match f with
  | Unset => Some EmptyString
  | Copied option => stored Output.MAXBUF option
  end.

Definition bind {A B : Type} (o : option A) (f : A -> option B) : option B :=
  match o with
  | Some a => f a
  | None => None
  end.

Notation "x <- o ;; q" := (bind o (fun x => q))
  (at level 61, o at next level, right associativity).

(** void add_to_buf(char *buf, char *buf1) on [char buf[MAXBUF]]: the test
    lets a total of exactly MAXBUF characters through, for which strcat
    writes the terminator behind the array. *)
Definition add_to_buf (buf buf1 : string) : option string :=
  if (Z.of_nat (length buf) + Z.of_nat (length buf1) >? Output.MAXBUF)%Z then Some buf
  else stored Output.MAXBUF (buf ++ buf1).

(** The concatenation of texts. *)
Fixpoint concat_texts (l : list string) : string :=
  match l with
  | [] => EmptyString
  | t :: l' => (t ++ concat_texts l')%string
  end.

(** add_to_buf for one text after the other. *)
Fixpoint add_all (l : list string) (buf : string) : option string :=
  match l with
  | [] => Some buf
  | t :: l' => buf <- add_to_buf buf t ;; add_all l' buf
  end.

Section Format.

Variable fmt_2_2f : FP.float -> string.
Variable fmt_u : Z -> string.
Variable fmt_d : Z -> string.
Variable time_stamp : string.

(** The while loop of format_output and the statement after it.  [tm] is
    [None] as long as nothing was written to the array.  [padded] tells
    whether the character behind the format's terminator lies inside
    mm->format, where strncpy left a zero: the loop reads it after a
    backslash that ends the format. *)
Fixpoint format_loop (b : Cli.bmeval) (padded : bool) (p : string)
  (tm : option string) (buf : string) : option string :=
  match p with
  | EmptyString => add_to_buf buf Output.NL
  | String c p1 =>
      (* BME results *)
      if Output.is_result c then
        tm <- stored TMSIZE (Output.result_text fmt_2_2f fmt_d b c) ;;
        buf <- add_to_buf buf tm ;;
        format_loop b padded p1 (Some tm) buf
      (* markup *)
      else if (c =? Output.backslash)%char then
        match p1 with
        | EmptyString =>
            (* the terminator follows: no branch writes [tm], and the
               [p++] after add_to_buf steps behind the terminator *)
            tm <- tm ;;
            buf <- add_to_buf buf tm ;;
            if padded then add_to_buf buf Output.NL else None
        | String c1 p2 =>
            if (c1 =? Output.backslash)%char then
              match p2 with
              | EmptyString =>
                  (* [%c] of the terminator leaves [tm] empty *)
                  buf <- add_to_buf buf EmptyString ;;
                  if padded then add_to_buf buf Output.NL else None
              | String c2 p3 =>
                  tm <- stored TMSIZE (String c2 EmptyString) ;;
                  buf <- add_to_buf buf tm ;;
                  format_loop b padded p3 (Some tm) buf
              end
            else
              tm <- (if Output.is_markup c1
                     then stored TMSIZE (Output.markup_text time_stamp c1 EmptyString)
                     else tm) ;;
              buf <- add_to_buf buf tm ;;
              format_loop b padded p2 (Some tm) buf
        end
      (* trouble ... *)
      else stored Output.MAXBUF (Output.default_line fmt_2_2f fmt_u b)
  end.

(** void format_output(struct measure *mm, char *buf) with its arrays: the
    string in [buf] afterwards, or [None] when the call reads or writes
    outside mm->format, [tm] or [buf], or reads [tm] before anything was
    written to it. *)
Definition format_output (b : Cli.bmeval) (f : format_array) : option string :=
  format <- held f ;;
  (* use default output if no specific format was requested *)
  if Nat.eqb (length format) 0 then
    stored Output.MAXBUF (Output.default_line fmt_2_2f fmt_u b)
  else
    (* reset output buffer *)
    let buf := EmptyString in
    format_loop b (Z.of_nat (length format) + 1 <? Output.MAXBUF)%Z format None buf.

(** What [tm] holds after the items [l]. *)
Definition tm_after (b : Cli.bmeval) (l : list Output.item) (tm : option string)
  : option string :=
  match l with
  | [] => tm
  | _ => Some (Output.last_text fmt_2_2f fmt_d time_stamp b l EmptyString)
  end.

(** Every text of the items has room in [tm]. *)
Definition texts_have_room (b : Cli.bmeval) (l : list Output.item) : Prop :=
  Forall (fun i => has_room TMSIZE (Output.item_text fmt_2_2f fmt_d time_stamp b i) = true) l.

End Format.

End Buffers.

(** ** Notions the further properties are stated with *)

(** Two member functions commute: either order leaves the same object and
    the same two results. *)
Definition commute (f g : rasp_BME680 -> bool * rasp_BME680) : Prop :=
  forall s,
    snd (g (snd (f s))) = snd (f (snd (g s)))
    /\ fst (f (snd (g s))) = fst (f s)
    /\ fst (g (snd (f s))) = fst (g s).

(** A successful call of [f] makes an earlier call of [g] without effect. *)
Definition overrides (f g : rasp_BME680 -> bool * rasp_BME680) : Prop :=
  forall s, fst (f s) = true -> f (snd (g s)) = f s.

(** The option values that the tables getOversample and getfilter know. *)
Definition os_options : list Z := [0; 1; 2; 4; 8; 16].
Definition filter_options : list Z := [0; 1; 3; 7; 15; 31; 63; 127].

Definition valid_options (b : Cli.bmeval) : Prop :=
  In (C.uint8 (Cli.overSampleH b)) os_options
  /\ In (C.uint8 (Cli.overSampleT b)) os_options
  /\ In (C.uint8 (Cli.overSampleP b)) os_options
  /\ In (C.uint8 (Cli.filter b)) filter_options.

(** The object [s'] carries the options [b] and is otherwise as [s]: the
    oversampling and filter constants of the four option values, the heater
    profile, the five enable flags that go with them, and the power mode,
    the cached readings and the deadline of [s]. *)
Definition configured_by {D : Bosch.defs} (b : Cli.bmeval) (s s' : rasp_BME680) : Prop :=
  Bosch.tph_sett (gas_sensor s')
  = {| Bosch.os_hum := Cli.getOversample (Cli.overSampleH b);
       Bosch.os_temp := Cli.getOversample (Cli.overSampleT b);
       Bosch.os_pres := Cli.getOversample (Cli.overSampleP b);
       Bosch.filter := Cli.getfilter (Cli.filter b) |}
  /\ Bosch.gas_sett (gas_sensor s')
     = {| Bosch.run_gas :=
            if (C.uint16 (Cli.heaterT b) =? 0) || (C.uint16 (Cli.heaterM b) =? 0)
            then Bosch.BME680_DISABLE_GAS_MEAS else Bosch.BME680_ENABLE_GAS_MEAS;
          Bosch.heatr_temp := C.uint16 (Cli.heaterT b);
          Bosch.heatr_dur := C.uint16 (Cli.heaterM b) |}
  /\ flags s'
     = (negb (C.uint8 (Cli.filter b) =? 0), negb (C.uint8 (Cli.overSampleT b) =? 0),
        negb (C.uint8 (Cli.overSampleH b) =? 0), negb (C.uint8 (Cli.overSampleP b) =? 0),
        negb ((C.uint16 (Cli.heaterT b) =? 0) || (C.uint16 (Cli.heaterM b) =? 0)))
  /\ Bosch.power_mode (gas_sensor s') = Bosch.power_mode (gas_sensor s)
  /\ readings s' = readings s
  /\ _meas_end s' = _meas_end s.

(** A value that is minus infinity or NaN. *)
Definition neg_inf_or_nan (x : FP.float) : Prop :=
  x = S754_infinity true \/ x = S754_nan.

(** What Annex F of the C standard fixes for [log]: minus infinity at a
    zero of either sign, NaN at a negative argument and at NaN. *)
Definition log_special_values {M : libm} : Prop :=
  (forall s, log (S754_zero s) = S754_infinity true)
  /\ (forall m e, log (S754_finite true m e) = S754_nan)
  /\ log (S754_infinity true) = S754_nan
  /\ log S754_nan = S754_nan.

(** ** The dew point formula

    The Magnus approximation as the specification gives it, over an
    arithmetic: the target's floating-point arithmetic, in which
    calc_dewpoint evaluates it, and exact arithmetic on rationals. *)

Module Magnus.

Import QArith Qabs.

(** An arithmetic in which the formula is evaluated. *)
Record arithmetic (R : Type) : Type := {
  ln : R -> R;
  add : R -> R -> R;
  sub : R -> R -> R;
  mul : R -> R -> R;
  div : R -> R -> R;
  (* the decimal literal [num / den] *)
  dec : Z -> Z -> R;
  (* a percentage as a fraction: [hum / 100] *)
  percent : R -> R;
  (* the value a variable of the result type holds after an assignment *)
  assign : R -> R
}.

Arguments ln {R} _.
Arguments add {R} _.
Arguments sub {R} _.
Arguments mul {R} _.
Arguments div {R} _.
Arguments dec {R} _.
Arguments percent {R} _.
Arguments assign {R} _.

(** Modelled from the spec: "H = ln(hum/100) + (17.625*temp)/(243.12+temp);
    dewPoint = 243.04*H / (17.625-H)". *)
Definition dewPoint {R : Type} (A : arithmetic R) (temp hum : R) : R :=
  let H := assign A (add A (ln A (percent A hum))
                       (div A (mul A (dec A 17625 1000) temp)
                              (add A (dec A 24312 100) temp))) in
  assign A (div A (mul A (dec A 24304 100) H) (sub A (dec A 17625 1000) H)).

(** The arithmetic of the target: [hum / 100] is a [float] division, the
    other operations have a [double] operand and are done in [double], and
    an assignment to a [float] variable narrows. *)
Definition machine {M : libm} : arithmetic FP.float :=
  {| ln := log; add := FP.dadd; sub := FP.dsub; mul := FP.dmul; div := FP.ddiv;
     dec := FP.dlit;
     percent := fun hum => FP.fdiv hum (FP.float_of_Z 100);
     assign := FP.float_of_double |}.

(** Exact arithmetic on rationals, around a given logarithm. *)
Definition exact (ln : Q -> Q) : arithmetic Q :=
  {| ln := ln; add := Qplus; sub := Qminus; mul := Qmult; div := Qdiv;
     dec := fun num den => inject_Z num / inject_Z den;
     percent := fun hum => hum / inject_Z 100;
     assign := fun x => x |}.

(** The number a floating-point value stands for. *)
Definition value (f : FP.float) : option Q :=
  match f with
  | S754_zero _ => Some 0%Q
  | S754_finite s m e =>
      Some ((if s then - inject_Z (Zpos m) else inject_Z (Zpos m)) * Qpower 2 e)%Q
  | _ => None
  end.

(** [x] lies within [tol] of [y]. *)
Definition within (tol x y : Q) : Prop := (Qabs (x - y) <= tol)%Q.

(** ln(1/2) = -0.693147180559945309..., rounded to the nearest [double] and
    to the nearest [float]. *)
Definition ln_half_double : FP.float := S754_finite true 6243314768165359 (-53).
Definition ln_half_float : FP.float := S754_finite true 11629080 (-24).

(** 50 / 100 in [float]. *)
Definition half : FP.float := FP.fdiv (FP.float_of_Z 50) (FP.float_of_Z 100).

(** [log] is correctly rounded at 1/2: it returns the nearest [double], or
    the nearest [float] where the [float] overload of <cmath> is chosen. *)
Definition log_rounds_half {M : libm} : Prop :=
  log half = ln_half_double \/ log half = ln_half_float.

End Magnus.

(** A libm double with the special values of Annex F and the nearest
    [double] to ln(1/2) at 1/2. *)
Definition libm_half : libm := {|
  log := fun x =>
    match x with
    | S754_zero _ => S754_infinity true
    | S754_infinity false => S754_infinity false
    | S754_finite false 8388608 (-24) => Magnus.ln_half_double
    | _ => S754_nan
    end;
  pow := fun _ _ => S754_nan
|}.

(** A trace without sleep and output calls. *)
Definition quiet (tr : list obs) : Prop := sleeps tr = [] /\ outputs tr = [].

(** A device on which bme680_set_sensor_mode fails with
    BME680_E_COM_FAIL (-2). *)
Definition mode_fail : mock :=
  {| settings_rslt := 0; mode_rslt := -2; profile_dur := 190; sensor_rslt := 0;
     field_data := sample 0x90 2150 50000; clock := [1000] |}.

(** A C library that prints every [%2.2f] as 25.00 and every integer as
    50, and a time stamp. *)
Module Printer.

Import Strings.String.

Definition fixed_2_2f (x : FP.float) : string := "25.00"%string.
Definition fixed_int (n : Z) : string := "50"%string.
Definition fixed_stamp : string := "Tue Nov  3 12:00:00 2026"%string.

(** [n] copies of a string, one after the other. *)
Fixpoint copies (n : nat) (t : string) : string :=
  match n with
  | O => EmptyString
  | S n' => append t (copies n' t)
  end.

End Printer.

(** The monitor's variables with a loop count, as option -L sets it. *)
Definition with_loop (n : Z) (mm : Cli.measure) : Cli.measure :=
  {| Cli.verbose := Cli.verbose mm; Cli.loop := n;
     Cli.loop_delay := Cli.loop_delay mm; Cli.bme := Cli.bme mm |}.

(** ** The rounds of the measurement loop

    A round of main_loop is a reading, the output of the values read and a
    sleep.  The definitions below name the calls of a round, so that the
    loop can be stated round by round. *)

Section Rounds.

Context {D : Bosch.defs} {M : libm} {W : Type}.

Variable h : env W.

(** What a round of the measurement loop starts from: the monitor's
    variables, the session and the environment. *)
Definition loop_state : Type := Cli.measure * rasp_BME680 * W.

(** The reading of the round that starts from [st] succeeds: read_BME680
    returns true. *)
Definition reading_ok (st : loop_state) : bool :=
  let '(mm, s, w) := st in
  fst (fst (result (run h (Monitor.read_BME680 mm s) w))).

(** The variables, the session and the environment after that reading. *)
Definition after_reading (st : loop_state) : loop_state :=
  let '(mm, s, w) := st in
  let r := run h (Monitor.read_BME680 mm s) w in
  (snd (fst (result r)), snd (result r), world r).

(** The output of the round succeeds: do_output_values, called with the
    values just read, returns true. *)
Definition output_ok (st : loop_state) : bool :=
  let '(mm, _, w) := after_reading st in
  fst (h _ (do_output_values mm) w).

(** Both succeed: the round goes on to its sleep. *)
Definition goes_round (st : loop_state) : bool := reading_ok st && output_ok st.

(** What the next round starts from, after the reading, the output and the
    sleep of this one. *)
Definition next_round (st : loop_state) : loop_state :=
  let '(mm, s, w) := after_reading st in
  let w := snd (h _ (do_output_values mm) w) in
  (mm, s, snd (h _ (sleep (Cli.loop_delay mm)) w)).

(** What round [k] (counted from 0) starts from when the rounds before it
    went round. *)
Fixpoint round_start (k : nat) (st : loop_state) : loop_state :=
  match k with
  | O => st
  | S k' => round_start k' (next_round st)
  end.

(** What a run leaves: the variables, the session and the environment. *)
Definition final_state {A : Type} (r : A * Cli.measure * rasp_BME680 * W * list obs)
  : loop_state :=
  (snd (fst (result r)), snd (result r), world r).

End Rounds.

(** ** Properties of the execution model *)

Arguments C.uint8 : simpl never.
Arguments C.uint16 : simpl never.
Arguments C.uint32 : simpl never.
Arguments C.int8 : simpl never.
Arguments C.int16 : simpl never.
Arguments C.ulong : simpl never.
Arguments C.lnot : simpl never.
Arguments C.truthy : simpl never.
Arguments FP.float_of_Z : simpl never.
Arguments FP.double_of_Z : simpl never.
Arguments FP.float_of_double : simpl never.
Arguments FP.ddiv : simpl never.
Arguments FP.uint32_of_float : simpl never.

Lemma run_bind {W A B : Type} (h : env W) (p : prog A) (f : A -> prog B) (w : W) :
  run h (bind p f) w =
  let '(a, w1, tr1) := run h p w in
  let '(b, w2, tr2) := run h (f a) w1 in
  (b, w2, tr1 ++ tr2).
Proof.
  revert w. induction p as [a | X e k IH]; intros w; cbn [bind run].
  - destruct (run h (f a) w) as [[b w2] tr2]. reflexivity.
  - destruct (h X e w) as [x w1]. rewrite IH.
    destruct (run h (k x) w1) as [[a w2] tr1].
    destruct (run h (f a) w2) as [[b w3] tr2]. reflexivity.
Qed.

Lemma first_some_app {A B : Type} (f : A -> option B) (l1 l2 : list A) :
  first_some f (l1 ++ l2) =
  match first_some f l1 with
  | Some b => Some b
  | None => first_some f l2
  end.
Proof.
  induction l1 as [| a l1 IH]; cbn [app first_some]; [reflexivity |].
  destruct (f a); [reflexivity | exact IH].
Qed.

Lemma delays_app (l1 l2 : list obs) : delays (l1 ++ l2) = delays l1 ++ delays l2.
Proof. apply flat_map_app. Qed.

Lemma calls_app (l1 l2 : list obs) : calls (l1 ++ l2) = calls l1 ++ calls l2.
Proof. apply map_app. Qed.

Lemma truthy_true_iff (x : Z) : C.truthy x = true <-> x <> 0.
Proof.
  unfold C.truthy. destruct (Z.eqb_spec x 0); cbn; split; intros; congruence.
Qed.

Lemma truthy_false_iff (x : Z) : C.truthy x = false <-> x = 0.
Proof.
  unfold C.truthy. destruct (Z.eqb_spec x 0); cbn; split; intros; congruence.
Qed.

Lemma ulong_range (x : Z) : 0 <= C.ulong x < 2 ^ 32.
Proof. unfold C.ulong, C.ULONG_BITS. apply Z.mod_pos_bound. lia. Qed.

Lemma uint16_range (x : Z) : 0 <= C.uint16 x < 2 ^ 16.
Proof. unfold C.uint16. apply Z.mod_pos_bound. lia. Qed.

(** A deadline computed from a clock reading and a 16-bit duration, seen
    from a later clock reading: twice the remaining time fits 32 bits. *)
Lemma steady_clock_fits (t dur now : Z) :
  C.ulong t <= now ->
  2 * (C.ulong (C.ulong t + C.uint16 dur) - now) < 2 ^ 32.
Proof.
  intros Hle.
  pose proof (ulong_range t) as Ht. pose proof (uint16_range dur) as Hd.
  set (a := C.ulong t) in *. set (b := C.uint16 dur) in *.
  unfold C.ulong, C.ULONG_BITS.
  destruct (Z.lt_ge_cases (a + b) (2 ^ 32)) as [Hs | Hs].
  - rewrite Z.mod_small by lia. lia.
  - rewrite <- (Z.mod_unique (a + b) (2 ^ 32) 1 (a + b - 2 ^ 32)) by lia. lia.
Qed.

(** *** Integers that a float holds exactly *)

Lemma digits2_pos_iter_xO (m k : positive) :
  digits2_pos (Pos.iter xO m k) = (digits2_pos m + k)%positive.
Proof.
  induction k as [| k IH] using Pos.peano_ind.
  - cbn. rewrite Pos.add_1_r. reflexivity.
  - rewrite Pos.iter_succ. cbn [digits2_pos]. rewrite IH. lia.
Qed.

Lemma div2_iter_xO (m k : positive) :
  Pos.iter Z.div2 (Zpos (Pos.iter xO m k)) k = Zpos m.
Proof.
  revert m. induction k as [| k IH] using Pos.peano_ind; intros m.
  - reflexivity.
  - rewrite (Pos.iter_succ_r k positive xO), (Pos.iter_succ k Z Z.div2), IH.
    reflexivity.
Qed.

Lemma digits2_pos_bound (m : positive) :
  2 ^ (Zpos (digits2_pos m) - 1) <= Zpos m < 2 ^ Zpos (digits2_pos m).
Proof.
  assert (Hsize : digits2_pos m = Pos.size m).
  { induction m as [m IH | m IH |]; cbn; [rewrite IH | rewrite IH |]; reflexivity. }
  rewrite Hsize.
  pose proof (Pos.size_gt m) as Hgt. pose proof (Pos.size_le m) as Hle.
  split.
  - apply Pos2Z.pos_le_pos in Hle. rewrite Pos2Z.inj_pow in Hle.
    replace (Zpos (Pos.size m)) with (Z.succ (Zpos (Pos.size m) - 1)) in Hle by lia.
    rewrite Z.pow_succ_r in Hle by lia. lia.
  - apply Pos2Z.pos_lt_pos in Hgt. rewrite Pos2Z.inj_pow in Hgt. exact Hgt.
Qed.

(** Rounding a 24-bit mantissa with an exponent in range changes nothing. *)
Lemma binary_round_aux_canonical (mz : positive) (ez : Z) :
  Zpos (digits2_pos mz) = 24 -> -125 <= ez <= 104 ->
  binary_round_aux 24 128 false (Zpos mz) ez loc_Exact = S754_finite false mz ez.
Proof.
  intros Hd He.
  assert (Hshift : fexp 24 128 (Zdigits2 (Zpos mz) + ez) - ez = 0).
  { cbn [Zdigits2]. rewrite Hd. unfold fexp, emin. lia. }
  unfold binary_round_aux, shr_fexp. rewrite Hshift.
  cbn [shr shr_record_of_loc loc_of_shr_record round_nearest_even shr_m].
  rewrite Hshift. cbn [shr shr_record_of_loc shr_m].
  destruct (Z.leb_spec ez (128 - 24)) as [_ | H]; [reflexivity | lia].
Qed.

Lemma Ztrunc_float_of_pos (m : positive) :
  Zpos m < 2 ^ 24 -> FP.Ztrunc (FP.float_of_Z (Zpos m)) = Zpos m.
Proof.
  intros Hm.
  pose proof (digits2_pos_bound m) as Hd.
  assert (Hd24 : Zpos (digits2_pos m) <= 24).
  { destruct (Z.le_gt_cases (Zpos (digits2_pos m)) 24) as [H | H]; [exact H |].
    exfalso.
    assert (2 ^ 24 <= 2 ^ (Zpos (digits2_pos m) - 1))
      by (apply Z.pow_le_mono_r; lia).
    lia. }
  unfold FP.float_of_Z, binary_normalize, binary_round, FP.fprec, FP.femax.
  assert (Hfexp : fexp 24 128 (Zpos (digits2_pos m) + 0) = Zpos (digits2_pos m) - 24).
  { unfold fexp, emin. lia. }
  rewrite Hfexp. unfold shl_align.
  destruct (Zpos (digits2_pos m) - 24 - 0) as [| p | k] eqn:Hk; [| lia |].
  - rewrite binary_round_aux_canonical by lia. reflexivity.
  - rewrite binary_round_aux_canonical.
    + replace (Zpos (digits2_pos m) - 24) with (Zneg k) by lia.
      cbn [FP.Ztrunc]. unfold Z.shiftr, Z.shiftl. cbn [Z.opp].
      apply div2_iter_xO.
    + rewrite digits2_pos_iter_xO. lia.
    + lia.
Qed.

(** An unsigned integer below 2^24 survives the conversion to [float] and
    back. *)
Lemma uint32_of_float_of_Z (z : Z) :
  0 <= z < 2 ^ 24 -> FP.uint32_of_float (FP.float_of_Z z) = z.
Proof.
  intros Hz. destruct z as [| m | m]; [reflexivity | | lia].
  pose proof (Ztrunc_float_of_pos m (proj2 Hz)) as Ht.
  unfold FP.uint32_of_float.
  destruct (FP.float_of_Z (Zpos m)) eqn:Hf;
    try (cbn in Ht; discriminate Ht).
  rewrite Ht. lia.
Qed.

(** ** beginReading *)

Section BeginReading.

Context {D : Bosch.defs}.

Lemma beginReading_in_progress (s : rasp_BME680) :
  _meas_end s <> 0 -> beginReading s = Ret (_meas_end s, s).
Proof.
  intros H. unfold beginReading.
  rewrite (proj2 (truthy_true_iff _) H). reflexivity.
Qed.

(** beginReading touches neither the cached readings nor the enable flags,
    returns the deadline it leaves in [_meas_end], never sleeps and never
    fetches field data. *)
Lemma beginReading_frame {W : Type} (h : env W) (w : W) (s : rasp_BME680) :
  let r := run h (beginReading s) w in
  readings (snd (result r)) = readings s
  /\ flags (snd (result r)) = flags s
  /\ _meas_end (snd (result r)) = fst (result r)
  /\ delays (trace r) = []
  /\ sensor_data_answer (trace r) = None.
Proof.
  cbv zeta. unfold beginReading.
  destruct (C.truthy (_meas_end s)) eqn:Hp.
  - cbn. auto.
  - apply truthy_false_iff in Hp.
    cbn [bind trigger run].
    destruct (h _ _ w) as [[rslt dev] w1].
    destruct (negb (C.int8 rslt =? Bosch.BME680_OK)).
    + cbn. auto.
    + cbn [bind trigger run].
      destruct (h _ _ w1) as [[rslt2 dev2] w2].
      destruct (negb (C.int8 rslt2 =? Bosch.BME680_OK)).
      * cbn. auto.
      * cbn [bind trigger run].
        destruct (h _ _ w2) as [dur w3].
        destruct (h _ _ w3) as [t w4].
        cbn. auto.
Qed.

(** A trigger that returns a nonzero deadline leaves the cycle in progress:
    the next trigger returns that deadline and calls nothing. *)
Lemma beginReading_twice {W : Type} (h : env W) (w : W) (s : rasp_BME680) :
  let r := run h (beginReading s) w in
  fst (result r) <> 0 ->
  run h (beginReading (snd (result r))) (world r) = (result r, world r, []).
Proof.
  cbv zeta. intros Hd.
  destruct (beginReading_frame h w s) as (_ & _ & Hend & _).
  cbv zeta in Hend.
  rewrite beginReading_in_progress by (rewrite Hend; exact Hd).
  cbn [run]. rewrite Hend.
  destruct (run h (beginReading s) w) as [[[d s1] w1] tr]. reflexivity.
Qed.

(** C3: while a measurement cycle is in progress (the stored deadline is
    nonzero), beginReading returns the stored deadline and does nothing
    else: it is the program that returns at once, so in every environment
    the session state is unchanged and no call reaches the driver, the clock
    or the delay routine.  Two consecutive triggers then return the same
    deadline; and whenever a trigger returned a nonzero deadline, the trigger
    after it returns that deadline again without calling anything. *)
Theorem beginReading_idempotent_while_in_progress
  (s : rasp_BME680) (Hprogress : _meas_end s <> 0) :
  beginReading s = Ret (_meas_end s, s)
  /\ (forall (W : Type) (h : env W) (w : W),
        run h (beginReading s) w = ((_meas_end s, s), w, []))
  /\ (forall (W : Type) (h : env W) (w : W),
        run h (bind (beginReading s) (fun r1 =>
               bind (beginReading (snd r1)) (fun r2 =>
               Ret (fst r1, fst r2, snd r2)))) w
        = ((_meas_end s, _meas_end s, s), w, []))
  /\ (forall (W : Type) (h : env W) (w : W) (s0 : rasp_BME680),
        fst (result (run h (beginReading s0) w)) <> 0 ->
        run h (beginReading (snd (result (run h (beginReading s0) w))))
              (world (run h (beginReading s0) w))
        = (result (run h (beginReading s0) w), world (run h (beginReading s0) w), [])).
Proof.
  pose proof (beginReading_in_progress s Hprogress) as Heq.
  split; [exact Heq |].
  split; [intros W h w; rewrite Heq; reflexivity |].
  split.
  - intros W h w. rewrite Heq. cbn [bind snd]. rewrite Heq. reflexivity.
  - intros W h w s0. apply beginReading_twice.
Qed.

(** The run of a trigger whose settings call is answered by a failure. *)
Lemma beginReading_settings_failure_run
  {W : Type} (h : env W) (w : W) (s : rasp_BME680) (rslt : Z) :
  settings_answer (trace (run h (beginReading s) w)) = Some rslt ->
  C.int8 rslt <> Bosch.BME680_OK ->
  exists sel dev0 dev w1,
    _meas_end s = 0
    /\ run h (beginReading s) w
       = ((0, set_gas_sensor dev
                (set_gas_sensor
                   (Bosch.set_power_mode Bosch.BME680_FORCED_MODE (gas_sensor s)) s)),
          w1, [Obs (bme680_set_sensor_settings sel dev0) (rslt, dev)]).
Proof.
  unfold beginReading.
  destruct (C.truthy (_meas_end s)) eqn:Hp.
  - cbn. discriminate.
  - apply truthy_false_iff in Hp.
    cbn [bind trigger run].
    destruct (h _ _ w) as [[rslt1 dev] w1].
    destruct (negb (C.int8 rslt1 =? Bosch.BME680_OK)) eqn:Hr.
    + cbn. intros Heq _. injection Heq as Heq. subst rslt1.
      do 4 eexists. split; [exact Hp | reflexivity].
    + apply negb_false_iff, Z.eqb_eq in Hr.
      destruct (run h _ w1) as [[a w2] tr].
      cbn. intros Heq Hne. injection Heq as Heq. subst rslt1. contradiction.
Qed.

(** With no cycle in progress, a trigger begins by applying the settings. *)
Lemma beginReading_fresh_applies_settings
  {W : Type} (h : env W) (w : W) (s : rasp_BME680) :
  _meas_end s = 0 ->
  exists sel,
    hd_error (calls (trace (run h (beginReading s) w)))
    = Some (call_set_sensor_settings sel).
Proof.
  intros Hz. unfold beginReading.
  rewrite (proj2 (truthy_false_iff _) Hz).
  cbn [bind trigger run].
  destruct (h _ _ w) as [[r1 d1] w1].
  match goal with
  | |- context [bme680_set_sensor_settings ?sel _] => exists sel
  end.
  destruct (run h _ w1) as [[a w2] tr]. reflexivity.
Qed.

(** C5: when bme680_set_sensor_settings fails during beginReading, the call
    fails (it returns 0, the value of [false]), no deadline is stored, and
    nothing further is asked of the device: the mode is not set and no
    duration is queried.  The cached readings and the enable flags are as
    before, performReading on the same state returns false, and the next
    trigger starts afresh by applying the settings again. *)
Theorem beginReading_settings_failure
  {W : Type} (h : env W) (w : W) (s : rasp_BME680) (rslt : Z)
  (Hanswer : settings_answer (trace (run h (beginReading s) w)) = Some rslt)
  (Hfail : C.int8 rslt <> Bosch.BME680_OK) :
  let r := run h (beginReading s) w in
  fst (result r) = 0
  /\ _meas_end (snd (result r)) = 0
  /\ (exists sel, calls (trace r) = [call_set_sensor_settings sel])
  /\ readings (snd (result r)) = readings s
  /\ flags (snd (result r)) = flags s
  /\ fst (result (run h (performReading s) w)) = false
  /\ (forall (W' : Type) (h' : env W') (w' : W'),
        exists sel,
          hd_error (calls (trace (run h' (beginReading (snd (result r))) w')))
          = Some (call_set_sensor_settings sel)).
Proof.
  cbv zeta.
  destruct (beginReading_settings_failure_run h w s rslt Hanswer Hfail)
    as (sel & dev0 & dev & w1 & Hz & Hrun).
  unfold performReading. rewrite run_bind, Hrun.
  cbn [result trace world fst snd calls map call_of Z.eqb run app].
  split; [reflexivity |].
  split; [exact Hz |].
  split; [exists sel; reflexivity |].
  split; [reflexivity |].
  split; [reflexivity |].
  split; [reflexivity |].
  intros W' h' w'. apply beginReading_fresh_applies_settings. exact Hz.
Qed.

(** A trigger that started a cycle read the clock once and returns that
    reading plus the device's duration, in [unsigned long]. *)
Lemma beginReading_fresh_deadline {W : Type} (h : env W) (w : W) (s : rasp_BME680) :
  _meas_end s = 0 ->
  fst (result (run h (beginReading s) w)) <> 0 ->
  exists t dur,
    clock_readings (trace (run h (beginReading s) w)) = [t]
    /\ fst (result (run h (beginReading s) w)) = C.ulong (C.ulong t + C.uint16 dur).
Proof.
  intros Hz. unfold beginReading.
  rewrite (proj2 (truthy_false_iff _) Hz).
  cbn [bind trigger run].
  destruct (h _ _ w) as [[rslt dev] w1].
  destruct (negb (C.int8 rslt =? Bosch.BME680_OK)).
  - cbn. intros H. contradiction.
  - cbn [bind trigger run].
    destruct (h _ _ w1) as [[rslt2 dev2] w2].
    destruct (negb (C.int8 rslt2 =? Bosch.BME680_OK)).
    + cbn. intros H. contradiction.
    + cbn [bind trigger run].
      destruct (h _ _ w2) as [dur w3].
      destruct (h _ _ w3) as [t w4].
      cbn. intros _. exists t, dur. split; reflexivity.
Qed.

End BeginReading.

(** The theorem at the configured session with a cycle due at 1190 ms. *)
Lemma beginReading_idempotent_while_in_progress_witness :
  beginReading (D := Bosch.v3_5_9) (set_meas_end 1190 configured)
  = Ret (1190, set_meas_end 1190 configured).
Proof.
  refine (proj1 (beginReading_idempotent_while_in_progress
                   (D := Bosch.v3_5_9) (set_meas_end 1190 configured) _)).
  cbn. discriminate.
Defined.

(** The theorem on the device whose settings call fails. *)
Lemma beginReading_settings_failure_witness :
  fst (result (run mock_env (beginReading (D := Bosch.v3_5_9) configured) settings_fail)) = 0
  /\ _meas_end (snd (result (run mock_env (beginReading (D := Bosch.v3_5_9) configured)
                               settings_fail))) = 0.
Proof.
  pose proof (beginReading_settings_failure (D := Bosch.v3_5_9)
                mock_env settings_fail configured (-2) eq_refl) as H.
  cbv zeta in H.
  assert (Hne : C.int8 (-2) <> Bosch.BME680_OK (defs := Bosch.v3_5_9)).
  { intros Heq. vm_compute in Heq. discriminate Heq. }
  destruct (H Hne) as (H1 & H2 & _).
  exact (conj H1 H2).
Defined.

(** ** performReading *)

Section PerformReading.

Context {D : Bosch.defs}.

(** Every run of performReading is one of the two fetches. *)
Lemma performReading_fetch {W : Type} (h : env W) (w : W) (s : rasp_BME680) :
  fetch h w s (run h (performReading s) w).
Proof.
  unfold performReading. rewrite run_bind.
  destruct (run h (beginReading s) w) as [[[d s1] w1] tr1] eqn:Hb.
  destruct (Z.eqb_spec d 0) as [Hd | Hd].
  - subst d. cbn [run]. rewrite app_nil_r. apply fetch_no_trigger. exact Hb.
  - cbn [bind trigger run].
    destruct (h _ millis w1) as [now w2] eqn:Hnow.
    pose proof (fetch_data h w s d s1 w1 tr1 now w2) as Hf.
    unfold wait_request in Hf |- *.
    destruct (d >? C.ulong now).
    + cbn [bind trigger run sleep_all map app] in Hf |- *.
      destruct (h _ (delay_ms _) w2) as [[] w3].
      cbn [snd] in Hf.
      destruct (h _ (bme680_get_sensor_data _) w3) as [[[rslt data] dev] w4] eqn:Hdata.
      specialize (Hf rslt data dev w4 Hb Hd Hnow eq_refl).
      unfold conclude in Hf.
      destruct (negb (C.int8 rslt =? Bosch.BME680_OK));
        [| destruct (no_new_fields data)]; cbn [run]; exact Hf.
    + cbn [bind trigger run sleep_all map app] in Hf |- *.
      destruct (h _ (bme680_get_sensor_data _) w2) as [[[rslt data] dev] w4] eqn:Hdata.
      specialize (Hf rslt data dev w4 Hb Hd Hnow eq_refl).
      unfold conclude in Hf.
      destruct (negb (C.int8 rslt =? Bosch.BME680_OK));
        [| destruct (no_new_fields data)]; cbn [run]; exact Hf.
Qed.

Lemma sensor_data_answer_delays (l : list Z) (tl : list obs) :
  first_some sensor_data_of (map delay_obs l ++ tl) = first_some sensor_data_of tl.
Proof. induction l as [| ms l IH]; [reflexivity | exact IH]. Qed.

Lemma delays_delay_obs (l : list Z) : delays (map delay_obs l) = l.
Proof.
  unfold delays.
  induction l as [| ms l IH]; cbn; [reflexivity | f_equal; exact IH].
Qed.

Lemma calls_delay_obs (l : list Z) : calls (map delay_obs l) = map call_delay_ms l.
Proof. unfold calls. rewrite map_map. reflexivity. Qed.

(** A fetch in which the field data call answered: the trigger left the
    readings and the flags alone, and the outcome is [conclude] on the
    answer. *)
Lemma performReading_answered {W : Type} (h : env W) (w : W) (s : rasp_BME680)
  (rslt : Z) (data : Bosch.bme680_field_data) :
  sensor_data_answer (trace (run h (performReading s) w)) = Some (rslt, data) ->
  exists s1,
    readings s1 = readings s
    /\ flags s1 = flags s
    /\ _meas_end s1 = 0
    /\ result (run h (performReading s) w) = conclude rslt data s1.
Proof.
  pose proof (beginReading_frame h w s) as Hframe. cbv zeta in Hframe.
  destruct (performReading_fetch h w s)
    as [s1 w1 tr1 Hb | d s1 w1 tr1 now w2 rslt' data' dev w4 Hb Hd Hnow Hdata];
    rewrite Hb in Hframe; destruct Hframe as (Hr & Hf & _ & _ & Hnone);
    cbn [result trace fst snd] in *.
  - intros Habs. rewrite Habs in Hnone. discriminate.
  - unfold sensor_data_answer in *.
    rewrite first_some_app, Hnone. cbn [first_some sensor_data_of].
    rewrite sensor_data_answer_delays. cbn [first_some sensor_data_of fst].
    intros Heq. injection Heq as -> ->.
    exists (set_gas_sensor dev (set_meas_end 0 s1)).
    repeat split; assumption.
Qed.

(** A fetch in which the field data call was not reached: it returns false
    and leaves the readings alone. *)
Lemma performReading_unanswered {W : Type} (h : env W) (w : W) (s : rasp_BME680) :
  sensor_data_answer (trace (run h (performReading s) w)) = None ->
  fst (result (run h (performReading s) w)) = false
  /\ readings (snd (result (run h (performReading s) w))) = readings s
  /\ delays (trace (run h (performReading s) w)) = [].
Proof.
  pose proof (beginReading_frame h w s) as Hframe. cbv zeta in Hframe.
  destruct (performReading_fetch h w s)
    as [s1 w1 tr1 Hb | d s1 w1 tr1 now w2 rslt' data' dev w4 Hb Hd Hnow Hdata];
    rewrite Hb in Hframe; destruct Hframe as (Hr & Hf & _ & Hdel & Hnone);
    cbn [result trace fst snd] in *.
  - intros _. auto.
  - unfold sensor_data_answer in *.
    rewrite first_some_app, Hnone. cbn [first_some sensor_data_of].
    rewrite sensor_data_answer_delays. cbn [first_some sensor_data_of fst].
    discriminate.
Qed.

(** The calls of a fetch whose trigger succeeded: those of the trigger,
    the clock, the delays, the field data call. *)
Lemma performReading_calls {W : Type} (h : env W) (w : W) (s : rasp_BME680) :
  let rb := run h (beginReading s) w in
  let d := fst (result rb) in
  let now := C.ulong (fst (h _ millis (world rb))) in
  d <> 0 ->
  delays (trace (run h (performReading s) w)) = wait_request d now
  /\ calls (trace (run h (performReading s) w))
     = calls (trace rb)
         ++ call_millis :: map call_delay_ms (wait_request d now)
         ++ [call_get_sensor_data].
Proof.
  cbv zeta. intros Hd0.
  pose proof (beginReading_frame h w s) as Hframe. cbv zeta in Hframe.
  destruct (performReading_fetch h w s)
    as [s1 w1 tr1 Hb | d s1 w1 tr1 now w2 rslt' data' dev w4 Hb Hd Hnow Hdata];
    rewrite Hb in Hframe, Hd0 |- *; destruct Hframe as (_ & _ & _ & Hdel & _);
    cbn [result trace world fst snd] in *.
  - contradiction.
  - rewrite Hnow. cbn [fst]. split.
    + rewrite delays_app, Hdel. cbn [app delays flat_map delay_of].
      change (flat_map delay_of ?l) with (delays l).
      rewrite delays_app, delays_delay_obs. cbn. apply app_nil_r.
    + rewrite calls_app. cbn [calls map call_of]. f_equal. f_equal.
      change (map call_of ?l) with (calls l).
      rewrite calls_app, calls_delay_obs. reflexivity.
Qed.

(** *** The stored values *)

Lemma new_data_not_stale (data : Bosch.bme680_field_data) :
  Z.land (C.uint8 (Bosch.status data)) Bosch.BME680_NEW_DATA_MSK <> 0 ->
  no_new_fields data = false.
Proof.
  intros Hnew. unfold no_new_fields, C.lnot.
  destruct (Z.eqb_spec (C.uint8 (Bosch.status data)) 0) as [Hz | Hz].
  - rewrite Hz in Hnew. rewrite Z.land_0_l in Hnew. contradiction.
  - rewrite Z.land_0_l. reflexivity.
Qed.

(** The test the code makes takes the branch only for a zero status byte and
    a mask with bit 0 set. *)
Lemma no_new_fields_spec (data : Bosch.bme680_field_data) :
  no_new_fields data = true
  <-> C.uint8 (Bosch.status data) = 0 /\ Z.odd Bosch.BME680_NEW_DATA_MSK = true.
Proof.
  unfold no_new_fields, C.lnot. rewrite truthy_true_iff.
  destruct (Z.eqb_spec (C.uint8 (Bosch.status data)) 0) as [Hz | Hz].
  - rewrite Z.land_comm, Z.land_ones with (n := 1) by lia.
    change (2 ^ 1) with 2. rewrite Zmod_odd.
    destruct (Z.odd Bosch.BME680_NEW_DATA_MSK); split; intros H;
      try (split; [exact Hz | reflexivity]); try lia.
  - rewrite Z.land_0_l. split; [congruence | intros [H _]; contradiction].
Qed.

Ltac store_fields_cases data s :=
  unfold store_fields;
  destruct (_tempEnabled s); cbn;
  destruct (_humEnabled s); cbn;
  destruct (_presEnabled s); cbn;
  destruct (_gasEnabled s); cbn;
  try destruct (heater_stable data).

Lemma store_fields_temperature (data : Bosch.bme680_field_data) (s : rasp_BME680) :
  temperature (store_fields data s)
  = if _tempEnabled s then
      FP.float_of_double
        (FP.ddiv (FP.double_of_Z (C.int16 (Bosch.temperature data))) (FP.double_of_Z 100))
    else FP.NAN.
Proof.
  store_fields_cases data s; reflexivity.
Qed.

Lemma store_fields_humidity (data : Bosch.bme680_field_data) (s : rasp_BME680) :
  humidity (store_fields data s)
  = if _humEnabled s then
      FP.float_of_double
        (FP.ddiv (FP.double_of_Z (C.uint32 (Bosch.humidity data))) (FP.double_of_Z 1000))
    else FP.NAN.
Proof.
  store_fields_cases data s; reflexivity.
Qed.

Lemma store_fields_pressure (data : Bosch.bme680_field_data) (s : rasp_BME680) :
  pressure (store_fields data s)
  = if _presEnabled s then FP.float_of_Z (C.uint32 (Bosch.pressure data))
    else FP.NAN.
Proof.
  store_fields_cases data s; reflexivity.
Qed.

Lemma store_fields_gas_resistance (data : Bosch.bme680_field_data) (s : rasp_BME680) :
  gas_resistance (store_fields data s)
  = if _gasEnabled s then
      if heater_stable data
      then FP.float_of_Z (C.uint32 (Bosch.gas_resistance data))
      else FP.float_of_Z 0
    else gas_resistance s.
Proof.
  store_fields_cases data s; reflexivity.
Qed.

Lemma flags_eq (s1 s : rasp_BME680) :
  flags s1 = flags s ->
  _tempEnabled s1 = _tempEnabled s /\ _humEnabled s1 = _humEnabled s
  /\ _presEnabled s1 = _presEnabled s /\ _gasEnabled s1 = _gasEnabled s.
Proof. unfold flags. intros H. injection H as _ H1 H2 H3 H4. auto. Qed.

Lemma readings_eq_tuple (s : rasp_BME680) (t hu p g : FP.float) :
  readings s = (t, hu, p, g) ->
  temperature s = t /\ humidity s = hu /\ pressure s = p /\ gas_resistance s = g.
Proof. unfold readings. intros H. injection H as H1 H2 H3 H4. auto. Qed.

Lemma readings_eq (s1 s : rasp_BME680) :
  readings s1 = readings s ->
  temperature s1 = temperature s /\ humidity s1 = humidity s
  /\ pressure s1 = pressure s /\ gas_resistance s1 = gas_resistance s.
Proof. unfold readings. intros H. injection H as H1 H2 H3 H4. auto. Qed.

(** C2: in a fetch whose field data call succeeded and reported new data
    while gas measurement is enabled, performReading returns true and the
    heater-stable bit alone decides the gas reading: without it
    [gas_resistance] is set to 0 (positive zero, which readGas converts to
    the integer 0) whatever compensated value the driver supplied; with it
    [gas_resistance] is assigned the compensated value, that is, its
    conversion to the member's type [float], which holds every value below
    2^24 ohms exactly (readGas then returns the compensated value
    itself). *)
Theorem performReading_heater_gate
  {W : Type} (h : env W) (w : W) (s : rasp_BME680)
  (rslt : Z) (data : Bosch.bme680_field_data)
  (Hanswer : sensor_data_answer (trace (run h (performReading s) w)) = Some (rslt, data))
  (Hok : C.int8 rslt = Bosch.BME680_OK)
  (Hnew : Z.land (C.uint8 (Bosch.status data)) Bosch.BME680_NEW_DATA_MSK <> 0)
  (Hgas : _gasEnabled s = true) :
  let r := run h (performReading s) w in
  fst (result r) = true
  /\ (Z.land (C.uint8 (Bosch.status data)) Bosch.BME680_HEAT_STAB_MSK = 0 ->
      gas_resistance (snd (result r)) = S754_zero false
      /\ FP.uint32_of_float (gas_resistance (snd (result r))) = 0)
  /\ (Z.land (C.uint8 (Bosch.status data)) Bosch.BME680_HEAT_STAB_MSK <> 0 ->
      gas_resistance (snd (result r))
      = FP.float_of_Z (C.uint32 (Bosch.gas_resistance data))
      /\ (C.uint32 (Bosch.gas_resistance data) < 2 ^ 24 ->
          FP.uint32_of_float (gas_resistance (snd (result r)))
          = C.uint32 (Bosch.gas_resistance data))).
Proof.
  cbv zeta.
  destruct (performReading_answered h w s rslt data Hanswer)
    as (s1 & _ & Hflags & _ & Hres).
  apply flags_eq in Hflags. destruct Hflags as (_ & _ & _ & Hg).
  rewrite Hres. unfold conclude.
  rewrite Hok, Z.eqb_refl, (new_data_not_stale data Hnew).
  cbn [negb fst snd].
  rewrite store_fields_gas_resistance, Hg, Hgas.
  unfold heater_stable.
  split; [reflexivity |]. split.
  - intros Hz. rewrite (proj2 (truthy_false_iff _) Hz). split; reflexivity.
  - intros Hnz. rewrite (proj2 (truthy_true_iff _) Hnz).
    split; [reflexivity |].
    intros Hsmall. apply uint32_of_float_of_Z.
    split; [apply Z.mod_pos_bound; lia | exact Hsmall].
Qed.

(** C9: in a fetch whose field data call succeeded and reported new data
    while gas measurement is disabled, performReading returns true and
    leaves [gas_resistance] as it was, while each of temperature, humidity
    and pressure whose channel is disabled is set to NaN. *)
Theorem performReading_gas_disabled_keeps_gas_resistance
  {W : Type} (h : env W) (w : W) (s : rasp_BME680)
  (rslt : Z) (data : Bosch.bme680_field_data)
  (Hanswer : sensor_data_answer (trace (run h (performReading s) w)) = Some (rslt, data))
  (Hok : C.int8 rslt = Bosch.BME680_OK)
  (Hnew : Z.land (C.uint8 (Bosch.status data)) Bosch.BME680_NEW_DATA_MSK <> 0)
  (Hgas : _gasEnabled s = false) :
  let r := run h (performReading s) w in
  fst (result r) = true
  /\ gas_resistance (snd (result r)) = gas_resistance s
  /\ (_tempEnabled s = false -> temperature (snd (result r)) = FP.NAN)
  /\ (_humEnabled s = false -> humidity (snd (result r)) = FP.NAN)
  /\ (_presEnabled s = false -> pressure (snd (result r)) = FP.NAN).
Proof.
  cbv zeta.
  destruct (performReading_answered h w s rslt data Hanswer)
    as (s1 & Hreadings & Hflags & _ & Hres).
  apply flags_eq in Hflags. destruct Hflags as (Ht & Hh & Hp & Hg).
  apply readings_eq in Hreadings. destruct Hreadings as (_ & _ & _ & Hold).
  rewrite Hres. unfold conclude.
  rewrite Hok, Z.eqb_refl, (new_data_not_stale data Hnew).
  cbn [negb fst snd].
  rewrite store_fields_gas_resistance, store_fields_temperature,
    store_fields_humidity, store_fields_pressure, Hg, Hgas, Ht, Hh, Hp.
  split; [reflexivity |]. split; [exact Hold |].
  repeat split; intros ->; reflexivity.
Qed.

(** When bit 0 of BME680_NEW_DATA_MSK is clear, the branch "if NO new
    fields" is dead: every answered fetch stores the sample, whatever its
    status byte says. *)
Lemma performReading_even_mask_stores_sample
  {W : Type} (h : env W) (w : W) (s : rasp_BME680)
  (rslt : Z) (data : Bosch.bme680_field_data) :
  Z.odd Bosch.BME680_NEW_DATA_MSK = false ->
  sensor_data_answer (trace (run h (performReading s) w)) = Some (rslt, data) ->
  C.int8 rslt = Bosch.BME680_OK ->
  exists s1,
    readings s1 = readings s /\ flags s1 = flags s
    /\ result (run h (performReading s) w) = (true, store_fields data s1).
Proof.
  intros Heven Hanswer Hok.
  destruct (performReading_answered h w s rslt data Hanswer)
    as (s1 & Hr & Hf & _ & Hres).
  exists s1. split; [exact Hr |]. split; [exact Hf |].
  rewrite Hres. unfold conclude. rewrite Hok, Z.eqb_refl. cbn [negb].
  destruct (no_new_fields data) eqn:Hstale; [| reflexivity].
  apply no_new_fields_spec in Hstale. destruct Hstale as [_ Hodd].
  rewrite Heven in Hodd. discriminate Hodd.
Qed.

(** C6, amended: a fetch that returns false leaves the four cached readings
    untouched.  A fetch that returns true has had its field data call
    answered with success; it then either takes the branch "NO new fields"
    and sets the readings to NaN, NaN, NaN and 0, or overwrites temperature,
    humidity and pressure with the sample's values (NaN for a disabled
    channel) and overwrites [gas_resistance] only if gas measurement is
    enabled: with the gas channel disabled the previous [gas_resistance]
    stays. *)
Theorem performReading_updates
  {W : Type} (h : env W) (w : W) (s : rasp_BME680) :
  let r := run h (performReading s) w in
  let s' := snd (result r) in
  (fst (result r) = false -> none_updated s s')
  /\ (fst (result r) = true ->
      exists rslt data,
        sensor_data_answer (trace r) = Some (rslt, data)
        /\ C.int8 rslt = Bosch.BME680_OK
        /\ if no_new_fields data then
             readings s' = (FP.NAN, FP.NAN, FP.NAN, FP.float_of_Z 0)
           else
             temperature s'
             = (if _tempEnabled s then sample_temperature data else FP.NAN)
             /\ humidity s'
                = (if _humEnabled s then sample_humidity data else FP.NAN)
             /\ pressure s'
                = (if _presEnabled s then sample_pressure data else FP.NAN)
             /\ gas_resistance s'
                = (if _gasEnabled s then
                     if heater_stable data then sample_gas_resistance data
                     else FP.float_of_Z 0
                   else gas_resistance s)).
Proof.
  cbv zeta. unfold none_updated.
  destruct (sensor_data_answer (trace (run h (performReading s) w)))
    as [[rslt data] |] eqn:Hanswer.
  - destruct (performReading_answered h w s rslt data Hanswer)
      as (s1 & Hr & Hf & _ & Hres).
    apply flags_eq in Hf. destruct Hf as (Ht & Hh & Hp & Hg).
    rewrite Hres. unfold conclude.
    destruct (Z.eqb_spec (C.int8 rslt) Bosch.BME680_OK) as [Hok | Hne]; cbn [negb].
    + destruct (no_new_fields data) eqn:Hstale; cbn [fst snd].
      * split; [discriminate |]. intros _. exists rslt, data.
        rewrite Hstale. auto.
      * split; [discriminate |]. intros _. exists rslt, data.
        rewrite Hstale.
        rewrite store_fields_temperature, store_fields_humidity,
          store_fields_pressure, store_fields_gas_resistance, Ht, Hh, Hp, Hg.
        apply readings_eq in Hr. destruct Hr as (_ & _ & _ & Hold).
        rewrite Hold. repeat split; try assumption; reflexivity.
    + cbn [fst snd]. split; [intros _; exact Hr | discriminate].
  - destruct (performReading_unanswered h w s Hanswer) as (Hfalse & Hr & _).
    split; [intros _; exact Hr |].
    rewrite Hfalse. discriminate.
Qed.

Lemma uint32_ulong (x : Z) : C.uint32 (C.ulong x) = C.uint32 x.
Proof.
  unfold C.uint32, C.ulong, C.ULONG_BITS. apply Z.mod_mod. lia.
Qed.

(** The wait of a fetch for any two clock readings: with the deadline
    [meas_end] (nonzero) that the trigger returned, performReading reads the
    clock once; if the deadline lies in the future it asks for one delay of
    twice the remaining time, a product formed in [unsigned long] and passed
    as a [uint32_t], and if the deadline has passed it asks for none. *)
Lemma performReading_wait
  {W : Type} (h : env W) (w : W) (s : rasp_BME680)
  (Htriggered : fst (result (run h (beginReading s) w)) <> 0) :
  let rb := run h (beginReading s) w in
  let meas_end := fst (result rb) in
  let now := C.ulong (fst (h _ millis (world rb))) in
  let r := run h (performReading s) w in
  delays (trace r)
  = (if meas_end >? now then [(2 * (meas_end - now)) mod 2 ^ 32] else [])
  /\ calls (trace r)
     = calls (trace rb)
         ++ call_millis
         :: (if meas_end >? now
             then [call_delay_ms ((2 * (meas_end - now)) mod 2 ^ 32)] else [])
         ++ [call_get_sensor_data]
  /\ (2 * (meas_end - now) < 2 ^ 32 -> sleeps_twice_remaining h w s)
  /\ (_meas_end s = 0 ->
      (forall t, In t (clock_readings (trace rb)) -> C.ulong t <= now) ->
      sleeps_twice_remaining h w s).
Proof.
  cbv zeta.
  destruct (performReading_calls h w s Htriggered) as [Hdelays Hcalls].
  cbv zeta in Hdelays, Hcalls.
  assert (Hwait : forall d now,
    wait_request d now = if d >? now then [(2 * (d - now)) mod 2 ^ 32] else []).
  { intros d now. unfold wait_request. destruct (d >? now); [| reflexivity].
    rewrite uint32_ulong. unfold C.uint32. rewrite (Z.mul_comm 2). reflexivity. }
  rewrite Hwait in Hdelays, Hcalls.
  assert (Hfits : 2 * (fst (result (run h (beginReading s) w))
                       - C.ulong (fst (h Z millis (world (run h (beginReading s) w)))))
                  < 2 ^ 32 ->
                  sleeps_twice_remaining h w s).
  { intros Hfit. unfold sleeps_twice_remaining. intros _.
    rewrite Hdelays.
    destruct (Z.gtb_spec (fst (result (run h (beginReading s) w)))
                (C.ulong (fst (h Z millis (world (run h (beginReading s) w))))))
      as [Hgt | Hle]; [| reflexivity].
    rewrite Z.mod_small by lia. reflexivity. }
  split; [exact Hdelays |]. split.
  { rewrite Hcalls. destruct (_ >? _); reflexivity. }
  split; [exact Hfits |].
  intros Hidle Hsteady. apply Hfits.
  destruct (beginReading_fresh_deadline h w s Hidle Htriggered)
    as (t & dur & Hclock & Hdeadline).
  rewrite Hdeadline. apply steady_clock_fits.
  apply Hsteady. rewrite Hclock. left. reflexivity.
Qed.

(** C7: in every fetch whose deadline lies in the future, performReading
    asks for exactly one delay of twice the remaining time, after it has
    read the clock and before it asks for the field data; when the deadline
    has passed it asks for no delay.  The deadline [meas_end] is the one the
    trigger returned, the remaining time is [meas_end - now] for the clock
    reading [now] that follows the trigger.  Time is monotonic: the deadline
    is a clock reading [t] plus a 16-bit duration, as beginReading computes
    it, and the clock has not gone back behind [t].  In a fetch that starts
    its own cycle [t] is the reading the trigger took; in a fetch that finds
    a cycle in progress the deadline is the one stored and the trigger makes
    no call. *)
Theorem performReading_waits_twice_the_remaining_time
  {W : Type} (h : env W) (w : W) (s : rasp_BME680) (t dur : Z)
  (Htriggered : fst (result (run h (beginReading s) w)) <> 0)
  (Hdeadline : fst (result (run h (beginReading s) w))
               = C.ulong (C.ulong t + C.uint16 dur))
  (Hsteady : C.ulong t
             <= C.ulong (fst (h _ millis (world (run h (beginReading s) w))))) :
  let rb := run h (beginReading s) w in
  let meas_end := fst (result rb) in
  let now := C.ulong (fst (h _ millis (world rb))) in
  let r := run h (performReading s) w in
  (now < meas_end ->
   delays (trace r) = [2 * (meas_end - now)]
   /\ calls (trace r)
      = calls (trace rb)
          ++ [call_millis; call_delay_ms (2 * (meas_end - now)); call_get_sensor_data])
  /\ (meas_end <= now ->
      delays (trace r) = []
      /\ calls (trace r) = calls (trace rb) ++ [call_millis; call_get_sensor_data])
  /\ sleeps_twice_remaining h w s
  /\ (_meas_end s = 0 ->
      exists t0 dur0,
        clock_readings (trace rb) = [t0]
        /\ meas_end = C.ulong (C.ulong t0 + C.uint16 dur0))
  /\ (_meas_end s <> 0 -> meas_end = _meas_end s /\ trace rb = []).
Proof.
  cbv zeta.
  destruct (performReading_calls h w s Htriggered) as [Hdelays Hcalls].
  cbv zeta in Hdelays, Hcalls.
  pose proof (steady_clock_fits t dur _ Hsteady) as Hfit.
  rewrite <- Hdeadline in Hfit.
  set (meas_end := fst (result (run h (beginReading s) w))) in *.
  set (now := C.ulong (fst (h Z millis (world (run h (beginReading s) w))))) in *.
  assert (Hnow : 0 <= now) by (apply ulong_range).
  assert (Hwait : wait_request meas_end now
                  = if meas_end >? now then [2 * (meas_end - now)] else []).
  { unfold wait_request. destruct (Z.gtb_spec meas_end now) as [Hgt | Hle]; [| reflexivity].
    rewrite uint32_ulong. unfold C.uint32. rewrite (Z.mul_comm _ 2).
    rewrite Z.mod_small by lia. reflexivity. }
  rewrite Hwait in Hdelays, Hcalls.
  split.
  { intros Hlt. rewrite (proj2 (Z.gtb_lt _ _) Hlt) in Hdelays, Hcalls.
    split; [exact Hdelays | exact Hcalls]. }
  split.
  { intros Hle.
    destruct (Z.gtb_spec meas_end now) as [Hgt | _]; [lia |].
    split; [exact Hdelays | exact Hcalls]. }
  split.
  { unfold sleeps_twice_remaining. cbv zeta. intros _. exact Hdelays. }
  split.
  { intros Hidle. exact (beginReading_fresh_deadline h w s Hidle Htriggered). }
  intros Hpending. subst meas_end.
  unfold beginReading. rewrite (proj2 (truthy_true_iff _) Hpending).
  split; reflexivity.
Qed.

End PerformReading.

(** ** The oversampling and filter setters *)

Lemma uint8_os_code (o : Bosch.oversampling) :
  C.uint8 (Bosch.os_code o) = Bosch.os_code o.
Proof. destruct o; reflexivity. Qed.

Lemma uint8_filter_code (f : Bosch.filter_size) :
  C.uint8 (Bosch.filter_code f) = Bosch.filter_code f.
Proof. destruct f; reflexivity. Qed.

Lemma uint8_range (x : Z) : 0 <= C.uint8 x < 256.
Proof. unfold C.uint8. apply Z.mod_pos_bound. lia. Qed.

(** The codes up to BME680_OS_16X are those of the six settings. *)
Lemma os_code_cover (x : Z) :
  0 <= x <= Bosch.BME680_OS_16X -> exists o, Bosch.os_code o = x.
Proof.
  change Bosch.BME680_OS_16X with 5. intros H.
  assert (Hc : x = 0 \/ x = 1 \/ x = 2 \/ x = 3 \/ x = 4 \/ x = 5) by lia.
  destruct Hc as [-> | [-> | [-> | [-> | [-> | ->]]]]];
    [exists Bosch.OS_NONE | exists Bosch.OS_1X | exists Bosch.OS_2X
    | exists Bosch.OS_4X | exists Bosch.OS_8X | exists Bosch.OS_16X]; reflexivity.
Qed.

(** The codes up to BME680_FILTER_SIZE_127 are those of the eight sizes. *)
Lemma filter_code_cover (x : Z) :
  0 <= x <= Bosch.BME680_FILTER_SIZE_127 -> exists f, Bosch.filter_code f = x.
Proof.
  change Bosch.BME680_FILTER_SIZE_127 with 7. intros H.
  assert (Hc : x = 0 \/ x = 1 \/ x = 2 \/ x = 3 \/ x = 4 \/ x = 5 \/ x = 6 \/ x = 7)
    by lia.
  destruct Hc as [-> | [-> | [-> | [-> | [-> | [-> | [-> | ->]]]]]]];
    [exists Bosch.FILTER_SIZE_0 | exists Bosch.FILTER_SIZE_1
    | exists Bosch.FILTER_SIZE_3 | exists Bosch.FILTER_SIZE_7
    | exists Bosch.FILTER_SIZE_15 | exists Bosch.FILTER_SIZE_31
    | exists Bosch.FILTER_SIZE_63 | exists Bosch.FILTER_SIZE_127]; reflexivity.
Qed.

Lemma setTemperatureOversampling_legal (o : Bosch.oversampling) (s : rasp_BME680) :
  setTemperatureOversampling (Bosch.os_code o) s
  = (true, set_tempEnabled (negb (Bosch.os_is_none o))
             (with_tph_sett (Bosch.set_os_temp (Bosch.os_code o)) s)).
Proof.
  unfold setTemperatureOversampling. rewrite uint8_os_code. destruct o; reflexivity.
Qed.

Lemma setHumidityOversampling_legal (o : Bosch.oversampling) (s : rasp_BME680) :
  setHumidityOversampling (Bosch.os_code o) s
  = (true, set_humEnabled (negb (Bosch.os_is_none o))
             (with_tph_sett (Bosch.set_os_hum (Bosch.os_code o)) s)).
Proof.
  unfold setHumidityOversampling. rewrite uint8_os_code. destruct o; reflexivity.
Qed.

Lemma setPressureOversampling_legal (o : Bosch.oversampling) (s : rasp_BME680) :
  setPressureOversampling (Bosch.os_code o) s
  = (true, set_presEnabled (negb (Bosch.os_is_none o))
             (with_tph_sett (Bosch.set_os_pres (Bosch.os_code o)) s)).
Proof.
  unfold setPressureOversampling. rewrite uint8_os_code. destruct o; reflexivity.
Qed.

Lemma setIIRFilterSize_legal (f : Bosch.filter_size) (s : rasp_BME680) :
  setIIRFilterSize (Bosch.filter_code f) s
  = (true, set_filterEnabled (negb (Bosch.filter_is_zero f))
             (with_tph_sett (Bosch.set_filter (Bosch.filter_code f)) s)).
Proof.
  unfold setIIRFilterSize. rewrite uint8_filter_code. destruct f; reflexivity.
Qed.

Lemma oversampling_illegal (arg : Z) :
  (forall o, Bosch.os_code o <> C.uint8 arg) ->
  (C.uint8 arg >? Bosch.BME680_OS_16X) = true.
Proof.
  intros Hno.
  destruct (Z.gtb_spec (C.uint8 arg) Bosch.BME680_OS_16X) as [Hgt | Hle];
    [reflexivity | exfalso].
  pose proof (uint8_range arg) as Hr.
  destruct (os_code_cover (C.uint8 arg)) as [o Ho]; [lia |].
  exact (Hno o Ho).
Qed.

Lemma filter_illegal (arg : Z) :
  (forall f, Bosch.filter_code f <> C.uint8 arg) ->
  (C.uint8 arg >? Bosch.BME680_FILTER_SIZE_127) = true.
Proof.
  intros Hno.
  destruct (Z.gtb_spec (C.uint8 arg) Bosch.BME680_FILTER_SIZE_127) as [Hgt | Hle];
    [reflexivity | exfalso].
  pose proof (uint8_range arg) as Hr.
  destruct (filter_code_cover (C.uint8 arg)) as [f Hf]; [lia |].
  exact (Hno f Hf).
Qed.

Ltac split_option_chain :=
  repeat match goal with
    | |- context [if ?x =? ?k then _ else _] => destruct (Z.eqb_spec x k)
    end.

(** The monitor's option values: a setter accepts getOversample's result
    exactly for the options 0, 1, 2, 4, 8, 16. *)
Lemma getOversample_accepted (opt : Z) :
  (Cli.getOversample opt >? Bosch.BME680_OS_16X) = false
  <-> In (C.uint8 opt) [0; 1; 2; 4; 8; 16].
Proof.
  unfold Cli.getOversample. cbn [In].
  split_option_chain; cbn; split; intros H;
    try reflexivity; try discriminate; lia.
Qed.

(** A setter accepts getfilter's result exactly for the options 0, 1, 3, 7,
    15, 31, 63, 127. *)
Lemma getfilter_accepted (opt : Z) :
  (Cli.getfilter opt >? Bosch.BME680_FILTER_SIZE_127) = false
  <-> In (C.uint8 opt) [0; 1; 3; 7; 15; 31; 63; 127].
Proof.
  unfold Cli.getfilter. cbn [In].
  split_option_chain; cbn; split; intros H;
    try reflexivity; try discriminate; lia.
Qed.

Lemma uint8_getOversample (opt : Z) :
  C.uint8 (Cli.getOversample opt) = Cli.getOversample opt.
Proof. unfold Cli.getOversample. split_option_chain; reflexivity. Qed.

Lemma uint8_getfilter (opt : Z) :
  C.uint8 (Cli.getfilter opt) = Cli.getfilter opt.
Proof. unfold Cli.getfilter. split_option_chain; reflexivity. Qed.

(** C4: each of the three oversampling setters, given the constant of one
    of the six settings NONE, 1x, 2x, 4x, 8x, 16x, returns true; afterwards
    the channel's oversampling member holds the constant and the channel's
    enable flag is true exactly when the setting is not NONE, while the
    other three enable flags, the other three oversampling and filter
    members and every member outside them are as before.  Given any other
    argument (a byte that is the constant of no setting) it returns false
    and leaves the object as it was.  setIIRFilterSize does the same over
    the constants of the eight filter sizes 0, 1, 3, 7, 15, 31, 63, 127,
    with the filter flag true exactly when the size is not 0.  Through the
    monitor's option tables getOversample and getfilter, which send the
    factor of a setting and the sample count of a size to their constants,
    the setters succeed exactly for the option values 0, 1, 2, 4, 8, 16 and
    0, 1, 3, 7, 15, 31, 63, 127. *)
Theorem oversampling_and_filter_setters (s : rasp_BME680) :
  (forall o : Bosch.oversampling,
      let r := setTemperatureOversampling (Bosch.os_code o) s in
      fst r = true
      /\ (_tempEnabled (snd r) = true <-> o <> Bosch.OS_NONE)
      /\ Bosch.os_temp (tph_settings (snd r)) = Bosch.os_code o
      /\ (_humEnabled (snd r), _presEnabled (snd r), _filterEnabled (snd r))
         = (_humEnabled s, _presEnabled s, _filterEnabled s)
      /\ (Bosch.os_hum (tph_settings (snd r)), Bosch.os_pres (tph_settings (snd r)),
          Bosch.filter (tph_settings (snd r)))
         = (Bosch.os_hum (tph_settings s), Bosch.os_pres (tph_settings s),
            Bosch.filter (tph_settings s))
      /\ untouched_by_setters (snd r) = untouched_by_setters s)
  /\ (forall o : Bosch.oversampling,
      let r := setHumidityOversampling (Bosch.os_code o) s in
      fst r = true
      /\ (_humEnabled (snd r) = true <-> o <> Bosch.OS_NONE)
      /\ Bosch.os_hum (tph_settings (snd r)) = Bosch.os_code o
      /\ (_tempEnabled (snd r), _presEnabled (snd r), _filterEnabled (snd r))
         = (_tempEnabled s, _presEnabled s, _filterEnabled s)
      /\ (Bosch.os_temp (tph_settings (snd r)), Bosch.os_pres (tph_settings (snd r)),
          Bosch.filter (tph_settings (snd r)))
         = (Bosch.os_temp (tph_settings s), Bosch.os_pres (tph_settings s),
            Bosch.filter (tph_settings s))
      /\ untouched_by_setters (snd r) = untouched_by_setters s)
  /\ (forall o : Bosch.oversampling,
      let r := setPressureOversampling (Bosch.os_code o) s in
      fst r = true
      /\ (_presEnabled (snd r) = true <-> o <> Bosch.OS_NONE)
      /\ Bosch.os_pres (tph_settings (snd r)) = Bosch.os_code o
      /\ (_tempEnabled (snd r), _humEnabled (snd r), _filterEnabled (snd r))
         = (_tempEnabled s, _humEnabled s, _filterEnabled s)
      /\ (Bosch.os_temp (tph_settings (snd r)), Bosch.os_hum (tph_settings (snd r)),
          Bosch.filter (tph_settings (snd r)))
         = (Bosch.os_temp (tph_settings s), Bosch.os_hum (tph_settings s),
            Bosch.filter (tph_settings s))
      /\ untouched_by_setters (snd r) = untouched_by_setters s)
  /\ (forall arg : Z,
        (forall o, Bosch.os_code o <> C.uint8 arg) ->
        setTemperatureOversampling arg s = (false, s)
        /\ setHumidityOversampling arg s = (false, s)
        /\ setPressureOversampling arg s = (false, s))
  /\ (forall f : Bosch.filter_size,
      let r := setIIRFilterSize (Bosch.filter_code f) s in
      fst r = true
      /\ (_filterEnabled (snd r) = true <-> f <> Bosch.FILTER_SIZE_0)
      /\ Bosch.filter (tph_settings (snd r)) = Bosch.filter_code f
      /\ (_tempEnabled (snd r), _humEnabled (snd r), _presEnabled (snd r))
         = (_tempEnabled s, _humEnabled s, _presEnabled s)
      /\ (Bosch.os_temp (tph_settings (snd r)), Bosch.os_hum (tph_settings (snd r)),
          Bosch.os_pres (tph_settings (snd r)))
         = (Bosch.os_temp (tph_settings s), Bosch.os_hum (tph_settings s),
            Bosch.os_pres (tph_settings s))
      /\ untouched_by_setters (snd r) = untouched_by_setters s)
  /\ (forall arg : Z,
        (forall f, Bosch.filter_code f <> C.uint8 arg) ->
        setIIRFilterSize arg s = (false, s))
  /\ (forall opt : Z,
        (fst (setTemperatureOversampling (Cli.getOversample opt) s) = true
         <-> In (C.uint8 opt) [0; 1; 2; 4; 8; 16])
        /\ (fst (setHumidityOversampling (Cli.getOversample opt) s) = true
            <-> In (C.uint8 opt) [0; 1; 2; 4; 8; 16])
        /\ (fst (setPressureOversampling (Cli.getOversample opt) s) = true
            <-> In (C.uint8 opt) [0; 1; 2; 4; 8; 16])
        /\ (fst (setIIRFilterSize (Cli.getfilter opt) s) = true
            <-> In (C.uint8 opt) [0; 1; 3; 7; 15; 31; 63; 127]))
  /\ (forall o : Bosch.oversampling,
        Cli.getOversample (Bosch.os_factor o) = Bosch.os_code o)
  /\ (forall f : Bosch.filter_size,
        Cli.getfilter (Bosch.filter_samples f) = Bosch.filter_code f).
Proof.
  split.
  { intros o. cbv zeta. rewrite setTemperatureOversampling_legal.
    destruct s as [t p hu g fe te he pe ge me [pm tph gs]].
    cbn. repeat split; try reflexivity;
      destruct o; cbn; try discriminate; try reflexivity; intros H; try discriminate;
      contradiction. }
  split.
  { intros o. cbv zeta. rewrite setHumidityOversampling_legal.
    destruct s as [t p hu g fe te he pe ge me [pm tph gs]].
    cbn. repeat split; try reflexivity;
      destruct o; cbn; try discriminate; try reflexivity; intros H; try discriminate;
      contradiction. }
  split.
  { intros o. cbv zeta. rewrite setPressureOversampling_legal.
    destruct s as [t p hu g fe te he pe ge me [pm tph gs]].
    cbn. repeat split; try reflexivity;
      destruct o; cbn; try discriminate; try reflexivity; intros H; try discriminate;
      contradiction. }
  split.
  { intros arg Hno. apply oversampling_illegal in Hno.
    unfold setTemperatureOversampling, setHumidityOversampling,
      setPressureOversampling.
    rewrite Hno. auto. }
  split.
  { intros f. cbv zeta. rewrite setIIRFilterSize_legal.
    destruct s as [t p hu g fe te he pe ge me [pm tph gs]].
    cbn. repeat split; try reflexivity;
      destruct f; cbn; try discriminate; try reflexivity; intros H; try discriminate;
      contradiction. }
  split.
  { intros arg Hno. apply filter_illegal in Hno.
    unfold setIIRFilterSize. rewrite Hno. reflexivity. }
  split.
  { intros opt.
    rewrite <- (getOversample_accepted opt), <- (getfilter_accepted opt).
    unfold setTemperatureOversampling, setHumidityOversampling,
      setPressureOversampling, setIIRFilterSize.
    rewrite uint8_getOversample, uint8_getfilter.
    destruct (Cli.getOversample opt >? Bosch.BME680_OS_16X);
      destruct (Cli.getfilter opt >? Bosch.BME680_FILTER_SIZE_127);
      repeat match goal with
        | |- context [if ?c then (true, _) else (true, _)] => destruct c
        end;
      cbn [fst]; repeat split; intros; congruence. }
  split; [intros o; destruct o; reflexivity | intros f; destruct f; reflexivity].
Qed.

(** ** The monitor's reading routine *)

Lemma feq_nan (x : FP.float) : FP.feq x FP.NAN = false.
Proof. destruct x; reflexivity. Qed.

Section MonitorFacts.

Context {D : Bosch.defs} {M : libm}.

(** readGas returns the cached gas resistance, converted. *)
Lemma readGas_returns_cached {W : Type} (h : env W) (w : W) (s : rasp_BME680) :
  let r := run h (readGas s) w in
  fst (result r) = FP.uint32_of_float (gas_resistance (snd (result r))).
Proof.
  cbv zeta. unfold readGas. rewrite run_bind.
  destruct (run h (performReading s) w) as [[[b s1] w1] tr1]. reflexivity.
Qed.

(** The reads of read_BME680 and its result. *)
Lemma read_BME680_reads
  {W : Type} (h : env W) (w : W) (mm : Cli.measure) (s : rasp_BME680) :
  let r := run h (Monitor.read_BME680 mm s) w in
  let q := result (run h (Monitor.four_reads s) w) in
  let mm' := snd (fst (result r)) in
  (fst (fst (result r)) = false <-> snd (fst q) = 0)
  /\ snd (fst q) = FP.uint32_of_float (gas_resistance (snd q))
  /\ Cli.tempC (Cli.bme mm') = fst (fst (fst (fst q)))
  /\ Cli.humid (Cli.bme mm') = snd (fst (fst (fst q)))
  /\ Cli.pressure (Cli.bme mm') = snd (fst (fst q))
  /\ Cli.gas_resistance (Cli.bme mm') = snd (fst q).
Proof.
  cbv zeta.
  unfold Monitor.read_BME680, Monitor.four_reads.
  rewrite !run_bind.
  destruct (run h (readTemperature s) w) as [[[t s1] w1] tr1].
  cbn [Cli.tempC Cli.bme Cli.set_bme Cli.set_tempC]. rewrite feq_nan.
  rewrite !run_bind.
  destruct (run h (readHumidity s1) w1) as [[[hu s2] w2] tr2].
  cbn [Cli.humid Cli.bme Cli.set_bme Cli.set_humid]. rewrite feq_nan.
  rewrite !run_bind.
  destruct (run h (readPressure s2) w2) as [[[p s3] w3] tr3].
  cbn [Cli.pressure Cli.bme Cli.set_bme Cli.set_pressure]. rewrite feq_nan.
  rewrite !run_bind.
  pose proof (readGas_returns_cached h w3 s3) as Hcached. cbv zeta in Hcached.
  destruct (run h (readGas s3) w3) as [[[g s4] w4] tr4].
  cbn [result fst snd] in Hcached.
  cbn [Cli.gas_resistance Cli.bme Cli.set_bme Cli.set_gas_resistance run].
  destruct (Z.eqb_spec g 0) as [Hg | Hg].
  - cbn. repeat split; auto.
  - rewrite run_bind.
    destruct (run h (readAltitude _ s4) w4) as [[[a s5] w5] tr5].
    cbn. repeat split; auto; intros; try discriminate; contradiction.
Qed.

(** An iteration of the measurement loop whose reading failed ends the
    process with EXIT_FAILURE, after the sensor reset and the bus close and
    without output. *)
Lemma main_loop_exits_on_failed_read
  {W : Type} (h : env W) (w : W) (mm : Cli.measure) (s : rasp_BME680)
  (fuel : nat) (lloop : Z) :
  0 < lloop ->
  fst (fst (result (run h (Monitor.read_BME680 mm s) w))) = false ->
  let r := run h (Monitor.main_loop_from (S fuel) lloop mm s) w in
  fst (fst (result r)) = Monitor.Exited Monitor.EXIT_FAILURE
  /\ calls (trace r)
     = calls (trace (run h (Monitor.read_BME680 mm s) w))
         ++ [call_soft_reset; call_TWI_close].
Proof.
  intros Hl Hfalse. cbv zeta. cbn [Monitor.main_loop_from].
  rewrite (proj2 (Z.gtb_lt lloop 0) Hl). rewrite run_bind.
  destruct (run h (Monitor.read_BME680 mm s) w) as [[[[ok mm1] s1] w1] tr1].
  cbn [result fst snd trace] in Hfalse |- *. subst ok. cbn [negb].
  unfold Monitor.closeout. cbn [bind trigger run].
  destruct (h _ (bme680_soft_reset _) w1) as [[rslt dev] w2].
  cbn [bind trigger run].
  destruct (h _ TWI_close w2) as [[] w3].
  cbn [run fst snd app trace]. split; [reflexivity |].
  rewrite calls_app. reflexivity.
Qed.

(** C10: comparing a float with NAN by [==] is never true, so the three
    guards of read_BME680 never fire: every run performs the four reads
    (temperature, humidity, pressure, gas), stores what they returned in the
    monitor's variables, NaN included, and returns false exactly when
    readGas returned 0, that is, when the cached gas resistance converts to
    0 (as it does after a fetch with an unstable heater).  In the
    measurement loop such a reading ends the process: closeout(EXIT_FAILURE)
    resets the sensor, closes the bus and exits, and nothing is output. *)
Theorem read_BME680_fails_iff_gas_zero
  {W : Type} (h : env W) (w : W) (mm : Cli.measure) (s : rasp_BME680) :
  let r := run h (Monitor.read_BME680 mm s) w in
  let q := result (run h (Monitor.four_reads s) w) in
  let mm' := snd (fst (result r)) in
  (forall x : FP.float, FP.feq x FP.NAN = false)
  /\ (fst (fst (result r)) = false <-> snd (fst q) = 0)
  /\ snd (fst q) = FP.uint32_of_float (gas_resistance (snd q))
  /\ Cli.tempC (Cli.bme mm') = fst (fst (fst (fst q)))
  /\ Cli.humid (Cli.bme mm') = snd (fst (fst (fst q)))
  /\ Cli.pressure (Cli.bme mm') = snd (fst (fst q))
  /\ Cli.gas_resistance (Cli.bme mm') = snd (fst q)
  /\ (forall (fuel : nat) (lloop : Z),
        0 < lloop ->
        snd (fst q) = 0 ->
        let l := run h (Monitor.main_loop_from (S fuel) lloop mm s) w in
        fst (fst (result l)) = Monitor.Exited Monitor.EXIT_FAILURE
        /\ calls (trace l) = calls (trace r) ++ [call_soft_reset; call_TWI_close]).
Proof.
  cbv zeta. split; [exact feq_nan |].
  destruct (read_BME680_reads h w mm s) as (Hiff & Hcached & Ht & Hh & Hp & Hg).
  cbv zeta in Hiff, Hcached, Ht, Hh, Hp, Hg.
  repeat (split; [assumption |]).
  intros fuel lloop Hl Hzero.
  apply main_loop_exits_on_failed_read; [exact Hl |].
  apply Hiff. exact Hzero.
Qed.

End MonitorFacts.

(** *** Closed instances *)

(** C1 at a concrete fetch with driver 3.5.9: the driver answers with
    success and a status byte of 0, which does not carry the new-data flag
    0x80; performReading returns true but does not take the branch "NO new
    fields": temperature, humidity and pressure hold the sample's values
    (21.5, 45.0, 101325.0), not NaN. *)
Theorem performReading_misses_absent_new_data_flag :
  let w := healthy (sample 0x00 2150 50000) [1000; 1001] in
  let r := run mock_env (performReading (D := Bosch.v3_5_9) configured) w in
  let s' := snd (result r) in
  sensor_data_answer (trace r) = Some (0, sample 0x00 2150 50000)
  /\ Z.land (C.uint8 (Bosch.status (sample 0x00 2150 50000)))
            (Bosch.BME680_NEW_DATA_MSK (defs := Bosch.v3_5_9)) = 0
  /\ fst (result r) = true
  /\ temperature s' = S754_finite false 11272192 (-19)
  /\ humidity s' = S754_finite false 11796480 (-18)
  /\ pressure s' = S754_finite false 12969600 (-7)
  /\ temperature s' <> FP.NAN /\ humidity s' <> FP.NAN /\ pressure s' <> FP.NAN.
Proof.
  cbv zeta.
  assert (Hrun : readings (snd (result (run mock_env
                   (performReading (D := Bosch.v3_5_9) configured)
                   (healthy (sample 0x00 2150 50000) [1000; 1001]))))
                 = (S754_finite false 11272192 (-19), S754_finite false 11796480 (-18),
                    S754_finite false 12969600 (-7), S754_zero false))
    by (vm_compute; reflexivity).
  apply readings_eq_tuple in Hrun. destruct Hrun as (Ht & Hh & Hp & _).
  rewrite Ht, Hh, Hp.
  repeat split; try discriminate; vm_compute; reflexivity.
Qed.

(** C6, the counterexample: after a fetch that stored 50 kOhm the heater is
    switched off; the next fetch succeeds with a sample of 23.00 C and
    60 kOhm.  Temperature becomes 23.0 while [gas_resistance] still holds
    the 50 kOhm of the earlier sample: some channels were updated and one
    was not. *)
Lemma performReading_partial_update :
  ~ all_or_none (D := Bosch.v3_5_9) mock_env
      (healthy (sample 0x90 2300 60000) [6000; 6001]) gas_switched_off.
Proof.
  unfold all_or_none. cbv zeta.
  intros [_ [Hnone | (rslt & data & Hanswer & Hall)]].
  - unfold none_updated in Hnone. vm_compute in Hnone. discriminate Hnone.
  - vm_compute in Hanswer. injection Hanswer as _ <-.
    destruct Hall as (_ & _ & _ & [Hgas | Hgas]);
      vm_compute in Hgas; discriminate Hgas.
Qed.

(** A wall clock that was set back between the trigger and the fetch: the
    clock reads 4000000000 ms when the trigger computes the deadline
    4000000190 and 1000 ms when performReading reads it again.  The
    remaining time is 3999999190 ms and its double does not fit the
    [uint32_t] argument of delay_ms: the delay asked for is
    3705031084 ms. *)
Example performReading_wait_wraps :
  ~ sleeps_twice_remaining (D := Bosch.v3_5_9) mock_env
      (healthy (sample 0x90 2150 50000) [4000000000; 1000]) configured.
Proof.
  unfold sleeps_twice_remaining. cbv zeta. intros H.
  assert (Hd : fst (result (run mock_env (beginReading (D := Bosch.v3_5_9) configured)
                              (healthy (sample 0x90 2150 50000) [4000000000; 1000])))
               <> 0)
    by (vm_compute; discriminate).
  specialize (H Hd). vm_compute in H. discriminate H.
Qed.

(** C7 at an ordinary fetch: the trigger reads the clock at 1000 ms and
    sets the deadline 1190, the fetch reads 1001 ms and asks for a delay of
    378 ms. *)
Lemma performReading_waits_twice_the_remaining_time_witness :
  delays (trace (run mock_env (performReading (D := Bosch.v3_5_9) configured)
                   (healthy (sample 0x90 2150 50000) [1000; 1001])))
  = [2 * (1190 - 1001)].
Proof.
  refine (proj1 (proj1 (performReading_waits_twice_the_remaining_time
                   (D := Bosch.v3_5_9) mock_env
                   (healthy (sample 0x90 2150 50000) [1000; 1001]) configured 1000 190
                   _ _ _) _)).
  - vm_compute. discriminate.
  - vm_compute. reflexivity.
  - vm_compute. discriminate.
  - vm_compute. reflexivity.
Defined.

(** C2 at a fetch with the heater-stable bit (status 0x90): the 50 kOhm of
    the sample are stored. *)
Lemma performReading_heater_gate_witness :
  gas_resistance
    (snd (result (run mock_env (performReading (D := Bosch.v3_5_9) configured)
                    (healthy (sample 0x90 2150 50000) [1000; 1001]))))
  = FP.float_of_Z 50000.
Proof.
  refine (proj1 (proj2 (proj2 (performReading_heater_gate (D := Bosch.v3_5_9) mock_env
                   (healthy (sample 0x90 2150 50000) [1000; 1001]) configured
                   0 (sample 0x90 2150 50000) eq_refl eq_refl _ eq_refl)) _)).
  - vm_compute. discriminate.
  - vm_compute. discriminate.
Defined.

(** C9 at a fetch after the heater was switched off: the earlier 50 kOhm
    stay. *)
Lemma performReading_gas_disabled_witness :
  gas_resistance
    (snd (result (run mock_env (performReading (D := Bosch.v3_5_9) gas_switched_off)
                    (healthy (sample 0x90 2300 60000) [6000; 6001]))))
  = gas_resistance gas_switched_off.
Proof.
  refine (proj1 (proj2 (performReading_gas_disabled_keeps_gas_resistance
                   (D := Bosch.v3_5_9) mock_env
                   (healthy (sample 0x90 2300 60000) [6000; 6001]) gas_switched_off
                   0 (sample 0x90 2300 60000) eq_refl eq_refl _ eq_refl))).
  vm_compute. discriminate.
Defined.

(** The monitor with a stable heater but temperature, humidity and pressure
    switched off: read_BME680 returns true although the three readings are
    NaN. *)
Example read_BME680_passes_nan :
  let r := run mock_env (Monitor.read_BME680 (D := Bosch.v3_5_9) (M := libm_stub) mm_init thp_off)
             (healthy (sample 0x90 2150 50000) [1000; 1001]) in
  fst (fst (result r)) = true
  /\ Cli.tempC (Cli.bme (snd (fst (result r)))) = FP.NAN
  /\ Cli.humid (Cli.bme (snd (fst (result r)))) = FP.NAN
  /\ Cli.pressure (Cli.bme (snd (fst (result r)))) = FP.NAN
  /\ Cli.gas_resistance (Cli.bme (snd (fst (result r)))) = 50000.
Proof. cbv zeta. vm_compute. repeat split; reflexivity. Qed.

(** The monitor when the heater is not yet stable (status 0x80): valid
    temperature, humidity and pressure, yet read_BME680 returns false. *)
Example read_BME680_unstable_heater :
  let r := run mock_env (Monitor.read_BME680 (D := Bosch.v3_5_9) (M := libm_stub) mm_init configured)
             (healthy (sample 0x80 2150 50000) [1000; 1001]) in
  fst (fst (result r)) = false
  /\ Cli.tempC (Cli.bme (snd (fst (result r)))) = S754_finite false 11272192 (-19)
  /\ Cli.gas_resistance (Cli.bme (snd (fst (result r)))) = 0.
Proof. cbv zeta. vm_compute. repeat split; reflexivity. Qed.

(** ** beginReading: the other outcomes of a trigger *)

Lemma uint8_land (x : Z) : C.uint8 x = Z.land x (Z.ones 8).
Proof. unfold C.uint8. rewrite Z.land_ones by lia. reflexivity. Qed.

Lemma uint8_lor (a b : Z) : C.uint8 (Z.lor a b) = Z.lor (C.uint8 a) (C.uint8 b).
Proof. rewrite !uint8_land. apply Z.land_lor_distr_l. Qed.

Lemma uint8_idem (a : Z) : C.uint8 (C.uint8 a) = C.uint8 a.
Proof. unfold C.uint8. apply Z.mod_mod. lia. Qed.

Section BeginReadingOutcomes.

Context {D : Bosch.defs}.

(** The byte that the five [|=] statements of beginReading build is
    [required_settings]: truncating after each [|=] or once at the end
    gives the same byte. *)
Lemma required_settings_chain (s0 : rasp_BME680) :
  (let set_required_settings := 0 in
   let set_required_settings :=
     if _tempEnabled s0 then C.uint8 (Z.lor set_required_settings Bosch.BME680_OST_SEL)
     else set_required_settings in
   let set_required_settings :=
     if _humEnabled s0 then C.uint8 (Z.lor set_required_settings Bosch.BME680_OSH_SEL)
     else set_required_settings in
   let set_required_settings :=
     if _presEnabled s0 then C.uint8 (Z.lor set_required_settings Bosch.BME680_OSP_SEL)
     else set_required_settings in
   let set_required_settings :=
     if _filterEnabled s0 then C.uint8 (Z.lor set_required_settings Bosch.BME680_FILTER_SEL)
     else set_required_settings in
   let set_required_settings :=
     if _gasEnabled s0 then C.uint8 (Z.lor set_required_settings Bosch.BME680_GAS_SENSOR_SEL)
     else set_required_settings in
   set_required_settings) = required_settings s0.
Proof.
  cbv zeta. unfold required_settings.
  destruct (_tempEnabled s0), (_humEnabled s0), (_presEnabled s0), (_filterEnabled s0),
    (_gasEnabled s0);
    rewrite ?uint8_lor, ?uint8_idem; change (C.uint8 0) with 0;
    rewrite ?Z.lor_0_l, ?Z.lor_0_r, ?Z.lor_assoc; reflexivity.
Qed.

(** The run of a trigger with no cycle in progress, case by case. *)
Lemma beginReading_fresh_run {W : Type} (h : env W) (w : W) (s : rasp_BME680) :
  _meas_end s = 0 ->
  let s0 := set_gas_sensor (Bosch.set_power_mode Bosch.BME680_FORCED_MODE (gas_sensor s)) s in
  let e1 := bme680_set_sensor_settings (required_settings s) (gas_sensor s0) in
  let a1 := h _ e1 w in
  let e2 := bme680_set_sensor_mode (snd (fst a1)) in
  let a2 := h _ e2 (snd a1) in
  let e3 := bme680_get_profile_dur (snd (fst a2)) in
  let a3 := h _ e3 (snd a2) in
  let a4 := h _ millis (snd a3) in
  let d := C.ulong (C.ulong (fst a4) + C.uint16 (fst a3)) in
  run h (beginReading s) w
  = if negb (C.int8 (fst (fst a1)) =? Bosch.BME680_OK) then
      ((0, set_gas_sensor (snd (fst a1)) s0), snd a1, [Obs e1 (fst a1)])
    else if negb (C.int8 (fst (fst a2)) =? Bosch.BME680_OK) then
      ((0, set_gas_sensor (snd (fst a2)) (set_gas_sensor (snd (fst a1)) s0)), snd a2,
       [Obs e1 (fst a1); Obs e2 (fst a2)])
    else
      ((d, set_meas_end d
             (set_gas_sensor (snd (fst a2)) (set_gas_sensor (snd (fst a1)) s0))),
       snd a4,
       [Obs e1 (fst a1); Obs e2 (fst a2); Obs e3 (fst a3); Obs millis (fst a4)]).
Proof.
  intros Hz. cbv zeta.
  pose proof (required_settings_chain
                (set_gas_sensor (Bosch.set_power_mode Bosch.BME680_FORCED_MODE (gas_sensor s)) s))
    as Hsel.
  cbv zeta in Hsel.
  change (required_settings (set_gas_sensor ?d s)) with (required_settings s) in Hsel.
  unfold beginReading.
  rewrite (proj2 (truthy_false_iff _) Hz). cbv zeta. rewrite Hsel.
  cbn [bind trigger run].
  destruct (h _ (bme680_set_sensor_settings _ _) w) as [[r1 d1] w1].
  cbn [fst snd].
  destruct (negb (C.int8 r1 =? Bosch.BME680_OK)); [reflexivity |].
  cbn [bind trigger run set_gas_sensor gas_sensor].
  destruct (h _ (bme680_set_sensor_mode d1) w1) as [[r2 d2] w2].
  cbn [fst snd].
  destruct (negb (C.int8 r2 =? Bosch.BME680_OK)); [reflexivity |].
  cbn [bind trigger run set_gas_sensor gas_sensor].
  destruct (h _ (bme680_get_profile_dur d2) w2) as [dur w3].
  cbn [fst snd].
  destruct (h _ millis w3) as [t w4].
  reflexivity.
Qed.

Lemma int8_ok_negb (rslt : Z) :
  negb (C.int8 rslt =? Bosch.BME680_OK) = false <-> C.int8 rslt = Bosch.BME680_OK.
Proof. rewrite negb_false_iff. apply Z.eqb_eq. Qed.

Lemma int8_fail_negb (rslt : Z) :
  negb (C.int8 rslt =? Bosch.BME680_OK) = true <-> C.int8 rslt <> Bosch.BME680_OK.
Proof. rewrite negb_true_iff. apply Z.eqb_neq. Qed.

(** X1: when bme680_set_sensor_mode fails during beginReading, the call
    returns 0 and stores no deadline.  The settings had been applied (with
    the selection byte of the enabled channels) and the mode call was the
    last call: no duration is queried and the clock is not read.  The cached
    readings and the enable flags are as before, and performReading on the
    same state returns false after these two calls, without waiting and
    without asking for field data. *)
Theorem beginReading_mode_failure
  {W : Type} (h : env W) (w : W) (s : rasp_BME680) (rslt : Z)
  (Hanswer : mode_answer (trace (run h (beginReading s) w)) = Some rslt)
  (Hfail : C.int8 rslt <> Bosch.BME680_OK) :
  let r := run h (beginReading s) w in
  fst (result r) = 0
  /\ _meas_end (snd (result r)) = 0
  /\ calls (trace r)
     = [call_set_sensor_settings (required_settings s); call_set_sensor_mode]
  /\ clock_readings (trace r) = []
  /\ readings (snd (result r)) = readings s
  /\ flags (snd (result r)) = flags s
  /\ result (run h (performReading s) w) = (false, snd (result r))
  /\ trace (run h (performReading s) w) = trace r.
Proof.
  cbv zeta.
  destruct (Z.eq_dec (_meas_end s) 0) as [Hz | Hnz].
  2:{ rewrite (beginReading_in_progress s Hnz) in Hanswer. discriminate Hanswer. }
  unfold performReading. rewrite run_bind.
  pose proof (beginReading_fresh_run h w s Hz) as Hrun. cbv zeta in Hrun.
  rewrite Hrun in Hanswer |- *. clear Hrun.
  destruct (h _ (bme680_set_sensor_settings _ _) w) as [[r1 d1] w1].
  cbn [fst snd] in Hanswer |- *.
  destruct (negb (C.int8 r1 =? Bosch.BME680_OK)); [discriminate Hanswer |].
  destruct (h _ (bme680_set_sensor_mode d1) w1) as [[r2 d2] w2].
  cbn [fst snd] in Hanswer |- *.
  destruct (negb (C.int8 r2 =? Bosch.BME680_OK)) eqn:Hr2.
  - cbn. rewrite Hz. repeat split; reflexivity.
  - apply int8_ok_negb in Hr2. cbn in Hanswer. injection Hanswer as <-. contradiction.
Qed.

(** X2: a trigger with no cycle in progress whose settings call and mode
    call both succeed makes exactly four calls: the settings with the
    selection byte of the enabled channels and the device structure in
    forced mode, the mode, the duration query and one clock reading.  It
    returns and stores as deadline the clock reading plus the 16-bit
    duration, reduced modulo 2^32.  When that sum is 0 modulo 2^32 the
    stored deadline is the value that means "no cycle": performReading then
    returns false right after the trigger, without delay and without asking
    for field data, although the conversion was started. *)
Theorem beginReading_starts_cycle
  {W : Type} (h : env W) (w : W) (s : rasp_BME680) (rslt1 rslt2 : Z)
  (Hidle : _meas_end s = 0)
  (Hsettings : settings_answer (trace (run h (beginReading s) w)) = Some rslt1)
  (Hok1 : C.int8 rslt1 = Bosch.BME680_OK)
  (Hmode : mode_answer (trace (run h (beginReading s) w)) = Some rslt2)
  (Hok2 : C.int8 rslt2 = Bosch.BME680_OK) :
  let r := run h (beginReading s) w in
  exists t dur,
    calls (trace r)
    = [call_set_sensor_settings (required_settings s); call_set_sensor_mode;
       call_get_profile_dur; call_millis]
    /\ hd_error (flat_map power_mode_of (trace r)) = Some Bosch.BME680_FORCED_MODE
    /\ profile_durations (trace r) = [dur]
    /\ clock_readings (trace r) = [t]
    /\ fst (result r) = (C.ulong t + C.uint16 dur) mod 2 ^ 32
    /\ _meas_end (snd (result r)) = fst (result r)
    /\ (fst (result r) = 0 ->
        result (run h (performReading s) w) = (false, snd (result r))
        /\ trace (run h (performReading s) w) = trace r).
Proof.
  cbv zeta.
  unfold performReading. rewrite run_bind.
  pose proof (beginReading_fresh_run h w s Hidle) as Hrun. cbv zeta in Hrun.
  rewrite Hrun in Hsettings, Hmode |- *. clear Hrun.
  destruct (h _ (bme680_set_sensor_settings _ _) w) as [[r1 d1] w1].
  cbn [fst snd] in Hsettings, Hmode |- *.
  destruct (negb (C.int8 r1 =? Bosch.BME680_OK)) eqn:Hr1.
  { apply int8_fail_negb in Hr1. cbn in Hsettings. injection Hsettings as <-.
    contradiction. }
  destruct (h _ (bme680_set_sensor_mode d1) w1) as [[r2 d2] w2].
  cbn [fst snd] in Hsettings, Hmode |- *.
  destruct (negb (C.int8 r2 =? Bosch.BME680_OK)) eqn:Hr2.
  { apply int8_fail_negb in Hr2. cbn in Hmode. injection Hmode as <-. contradiction. }
  destruct (h _ (bme680_get_profile_dur d2) w2) as [dur w3].
  cbn [fst snd].
  destruct (h _ millis w3) as [t w4].
  cbn [fst snd].
  exists t, dur. cbn [result trace fst snd].
  repeat (split; [reflexivity |]).
  intros Hzero. rewrite Hzero. cbn [Z.eqb run]. rewrite app_nil_r. split; reflexivity.
Qed.

End BeginReadingOutcomes.

(** X1 on the device whose mode call fails: the trigger returns 0 after
    the settings call and the mode call. *)
Lemma beginReading_mode_failure_witness :
  fst (result (run mock_env (beginReading (D := Bosch.v3_5_9) configured) mode_fail)) = 0
  /\ calls (trace (run mock_env (beginReading (D := Bosch.v3_5_9) configured) mode_fail))
     = [call_set_sensor_settings (required_settings (D := Bosch.v3_5_9) configured);
        call_set_sensor_mode].
Proof.
  pose proof (beginReading_mode_failure (D := Bosch.v3_5_9)
                mock_env mode_fail configured (-2) eq_refl) as H.
  cbv zeta in H.
  assert (Hne : C.int8 (-2) <> Bosch.BME680_OK (defs := Bosch.v3_5_9)).
  { intros Heq. vm_compute in Heq. discriminate Heq. }
  destruct (H Hne) as (H1 & _ & H3 & _).
  exact (conj H1 H3).
Defined.

(** X2 on the healthy device: clock 1000 ms, duration 190 ms, deadline
    1190. *)
Lemma beginReading_starts_cycle_witness :
  exists t dur,
    calls (trace (run mock_env (beginReading (D := Bosch.v3_5_9) configured)
                    (healthy (sample 0x90 2150 50000) [1000; 1001])))
    = [call_set_sensor_settings (required_settings (D := Bosch.v3_5_9) configured);
       call_set_sensor_mode; call_get_profile_dur; call_millis]
    /\ fst (result (run mock_env (beginReading (D := Bosch.v3_5_9) configured)
                      (healthy (sample 0x90 2150 50000) [1000; 1001])))
       = (C.ulong t + C.uint16 dur) mod 2 ^ 32.
Proof.
  destruct (beginReading_starts_cycle (D := Bosch.v3_5_9) mock_env
              (healthy (sample 0x90 2150 50000) [1000; 1001]) configured 0 0
              eq_refl eq_refl eq_refl eq_refl eq_refl)
    as (t & dur & H1 & _ & _ & _ & H5 & _).
  exists t, dur. exact (conj H1 H5).
Defined.

(** The deadline that wraps to 0: the clock reads 2^32 - 190 ms and the
    conversion takes 190 ms.  All driver calls succeed, yet performReading
    returns false and no field data is asked for. *)
Example performReading_deadline_wraps_to_zero :
  let w := healthy (sample 0x90 2150 50000) [4294967106; 4294967107] in
  let r := run mock_env (performReading (D := Bosch.v3_5_9) configured) w in
  fst (result r) = false
  /\ calls (trace r)
     = [call_set_sensor_settings 223; call_set_sensor_mode; call_get_profile_dur;
        call_millis].
Proof. cbv zeta. vm_compute. split; reflexivity. Qed.

(** ** The state after a fetch and the read functions *)

Section AfterAFetch.

Context {D : Bosch.defs}.

(** Storing a sample changes neither the deadline, nor the enable flags,
    nor the device structure. *)
Lemma conclude_frame (rslt : Z) (data : Bosch.bme680_field_data) (s : rasp_BME680) :
  _meas_end (snd (conclude rslt data s)) = _meas_end s
  /\ flags (snd (conclude rslt data s)) = flags s
  /\ gas_sensor (snd (conclude rslt data s)) = gas_sensor s.
Proof.
  unfold conclude.
  destruct (negb (C.int8 rslt =? Bosch.BME680_OK)); [cbn; auto |].
  destruct (no_new_fields data); [cbn; auto |].
  cbn [snd]. unfold store_fields, flags.
  destruct (_tempEnabled s) eqn:Ht; cbn;
    destruct (_humEnabled s) eqn:Hh; cbn;
    destruct (_presEnabled s) eqn:Hp; cbn;
    destruct (_gasEnabled s) eqn:Hg; cbn;
    try destruct (heater_stable data); cbn; rewrite ?Ht, ?Hh, ?Hp, ?Hg; auto.
Qed.

(** X3: whatever performReading returns, it leaves no cycle in progress:
    the stored deadline is 0 afterwards, also when the trigger or the field
    data call failed, so the next trigger starts afresh by applying the
    settings.  The five enable flags are those from before the call. *)
Theorem performReading_leaves_idle {W : Type} (h : env W) (w : W) (s : rasp_BME680) :
  let r := run h (performReading s) w in
  _meas_end (snd (result r)) = 0
  /\ flags (snd (result r)) = flags s
  /\ (forall (W' : Type) (h' : env W') (w' : W'),
        exists sel,
          hd_error (calls (trace (run h' (beginReading (snd (result r))) w')))
          = Some (call_set_sensor_settings sel)).
Proof.
  cbv zeta.
  assert (Hidle : _meas_end (snd (result (run h (performReading s) w))) = 0
                  /\ flags (snd (result (run h (performReading s) w))) = flags s).
  { pose proof (beginReading_frame h w s) as Hframe. cbv zeta in Hframe.
    destruct (performReading_fetch h w s)
      as [s1 w1 tr1 Hb | d s1 w1 tr1 now w2 rslt data dev w4 Hb Hd Hnow Hdata];
      rewrite Hb in Hframe; destruct Hframe as (_ & Hf & Hend & _);
      cbn [result trace fst snd] in *.
    - auto.
    - destruct (conclude_frame rslt data (set_gas_sensor dev (set_meas_end 0 s1)))
        as (He & Hfl & _).
      destruct (conclude rslt data _) as [b s2]. cbn [fst snd] in *.
      rewrite He, Hfl. split; [reflexivity | exact Hf]. }
  destruct Hidle as [Hend Hflags].
  split; [exact Hend |]. split; [exact Hflags |].
  intros W' h' w'. apply beginReading_fresh_applies_settings. exact Hend.
Qed.

(** A fetch that returns false leaves the four cached readings alone. *)
Lemma performReading_false_keeps_readings
  {W : Type} (h : env W) (w : W) (s : rasp_BME680) :
  fst (result (run h (performReading s) w)) = false ->
  readings (snd (result (run h (performReading s) w))) = readings s.
Proof.
  intros Hfalse.
  destruct (sensor_data_answer (trace (run h (performReading s) w)))
    as [[rslt data] |] eqn:Hanswer.
  - destruct (performReading_answered h w s rslt data Hanswer) as (s1 & Hr & _ & _ & Hres).
    rewrite Hres in Hfalse |- *. unfold conclude in *.
    destruct (negb (C.int8 rslt =? Bosch.BME680_OK)); [exact Hr |].
    destruct (no_new_fields data); discriminate Hfalse.
  - apply (performReading_unanswered h w s Hanswer).
Qed.

(** X4: the read functions discard the result of performReading.  When the
    fetch they make fails, readTemperature, readHumidity and readPressure
    return the value cached before the call and readGas returns the cached
    gas resistance converted to [uint32_t]: the caller gets an earlier
    reading and no sign of the failure. *)
Theorem reads_return_cached_values_on_failure
  {W : Type} (h : env W) (w : W) (s : rasp_BME680)
  (Hfailed : fst (result (run h (performReading s) w)) = false) :
  fst (result (run h (readTemperature s) w)) = temperature s
  /\ fst (result (run h (readHumidity s) w)) = humidity s
  /\ fst (result (run h (readPressure s) w)) = pressure s
  /\ fst (result (run h (readGas s) w)) = FP.uint32_of_float (gas_resistance s).
Proof.
  pose proof (performReading_false_keeps_readings h w s Hfailed) as Hkeep.
  apply readings_eq in Hkeep. destruct Hkeep as (Ht & Hh & Hp & Hg).
  unfold readTemperature, readHumidity, readPressure, readGas.
  rewrite !run_bind.
  destruct (run h (performReading s) w) as [[[ok s1] w1] tr1].
  cbn [result fst snd run] in *.
  rewrite Ht, Hh, Hp, Hg. repeat split; reflexivity.
Qed.

End AfterAFetch.

(** X4 after a first fetch stored 21.5 C and 50 kOhm: on the device whose
    settings call fails the reads return those values again. *)
Lemma reads_return_cached_values_on_failure_witness :
  fst (result (run mock_env (readTemperature (D := Bosch.v3_5_9) after_first_fetch)
                 settings_fail))
  = S754_finite false 11272192 (-19)
  /\ fst (result (run mock_env (readGas (D := Bosch.v3_5_9) after_first_fetch)
                    settings_fail))
     = 50000.
Proof.
  destruct (reads_return_cached_values_on_failure (D := Bosch.v3_5_9) mock_env
              settings_fail after_first_fetch eq_refl) as (Ht & _ & _ & Hg).
  split; [exact Ht | exact Hg].
Defined.

(** ** How the configuration calls compose *)

Ltac open_session s :=
  destruct s as [t p hu g fe te he pe ge me [pm [oh ot op fi] [rg ht hd]]].

Ltac setter_cases :=
  unfold setTemperatureOversampling, setHumidityOversampling,
    setPressureOversampling, setIIRFilterSize, setGasHeater;
  repeat match goal with
    | |- context [if ?c then _ else _] => destruct c
    end.

Section Configuration.

Context {D : Bosch.defs}.

(** X5: the five configuration calls are independent of one another.  A
    successful call of a setter makes an earlier call of the same setter
    without effect (the last value wins), and calls of two different
    setters commute: either order leaves the same object and the same
    results, whatever the arguments, accepted or not. *)
Theorem setters_are_independent (a b heaterTemp heaterTime : Z) :
  overrides (setTemperatureOversampling b) (setTemperatureOversampling a)
  /\ overrides (setHumidityOversampling b) (setHumidityOversampling a)
  /\ overrides (setPressureOversampling b) (setPressureOversampling a)
  /\ overrides (setIIRFilterSize b) (setIIRFilterSize a)
  /\ overrides (setGasHeater heaterTemp heaterTime) (setGasHeater a b)
  /\ commute (setTemperatureOversampling a) (setHumidityOversampling b)
  /\ commute (setTemperatureOversampling a) (setPressureOversampling b)
  /\ commute (setTemperatureOversampling a) (setIIRFilterSize b)
  /\ commute (setHumidityOversampling a) (setPressureOversampling b)
  /\ commute (setHumidityOversampling a) (setIIRFilterSize b)
  /\ commute (setPressureOversampling a) (setIIRFilterSize b)
  /\ commute (setGasHeater heaterTemp heaterTime) (setTemperatureOversampling a)
  /\ commute (setGasHeater heaterTemp heaterTime) (setHumidityOversampling a)
  /\ commute (setGasHeater heaterTemp heaterTime) (setPressureOversampling a)
  /\ commute (setGasHeater heaterTemp heaterTime) (setIIRFilterSize a).
Proof.
  unfold overrides, commute.
  repeat match goal with |- _ /\ _ => split end;
    intros s; open_session s;
    setter_cases; cbn; intros; repeat split; try discriminate; reflexivity.
Qed.

(** begin()'s defaults leave the cached readings and the deadline alone
    and set the power mode. *)
Lemma begin_defaults_frame (s : rasp_BME680) :
  readings (begin_defaults s) = readings s
  /\ _meas_end (begin_defaults s) = _meas_end s
  /\ Bosch.power_mode (gas_sensor (begin_defaults s)) = Bosch.BME680_FORCED_MODE.
Proof. open_session s. repeat split; reflexivity. Qed.

(** X6: begin() returns true exactly when TWI.begin returned 0 and
    bme680_init returned BME680_OK.  It then enables all five channels with
    the same configuration whatever the object held before: oversampling
    8x for temperature, 2x for humidity, 4x for pressure, filter size 3,
    heater 320 C for 150 ms with gas measurement on, forced mode.  When the
    bus fails to start the object is untouched, and a failed call leaves the
    enable flags alone.  In every case the cached readings and the stored
    deadline are kept: begin() does not end a cycle in progress. *)
Theorem begin_configures_all_channels (twi_begin : Z)
  (bme680_init : Bosch.bme680_dev -> Z * Bosch.bme680_dev) (s : rasp_BME680) :
  let r := begin twi_begin bme680_init s in
  let s' := snd r in
  (fst r = true
   <-> twi_begin = 0 /\ C.int8 (fst (bme680_init (gas_sensor s))) = Bosch.BME680_OK)
  /\ readings s' = readings s
  /\ _meas_end s' = _meas_end s
  /\ (twi_begin <> 0 -> s' = s)
  /\ (fst r = false -> flags s' = flags s)
  /\ (fst r = true ->
      flags s' = (true, true, true, true, true)
      /\ Bosch.tph_sett (gas_sensor s')
         = {| Bosch.os_hum := Bosch.BME680_OS_2X; Bosch.os_temp := Bosch.BME680_OS_8X;
              Bosch.os_pres := Bosch.BME680_OS_4X;
              Bosch.filter := Bosch.BME680_FILTER_SIZE_3 |}
      /\ Bosch.gas_sett (gas_sensor s')
         = {| Bosch.run_gas := Bosch.BME680_ENABLE_GAS_MEAS;
              Bosch.heatr_temp := 320; Bosch.heatr_dur := 150 |}
      /\ Bosch.power_mode (gas_sensor s') = Bosch.BME680_FORCED_MODE).
Proof.
  cbv zeta. unfold begin.
  destruct (C.truthy twi_begin) eqn:Htwi.
  - apply truthy_true_iff in Htwi. cbn [fst snd].
    repeat split; try reflexivity; try discriminate.
    intros [H _]. contradiction.
  - apply truthy_false_iff in Htwi. subst twi_begin.
    destruct (bme680_init (gas_sensor s)) as [rslt dev]. cbn [fst snd].
    destruct (Z.eqb_spec (C.int8 rslt) Bosch.BME680_OK) as [Hok | Hne]; cbn [negb fst snd].
    + open_session s. repeat split; try reflexivity; try discriminate; try contradiction; auto.
    + repeat split; try reflexivity; try discriminate; try contradiction.
      intros [_ H]. contradiction.
Qed.

End Configuration.

(** ** The dew point at a humidity that is not positive *)

(** The sign of a rounded result is the sign handed to the rounding. *)
Lemma binary_round_aux_sign (prec emax : Z) (sx : bool) (mx ex : Z) (lx : location) :
  match binary_round_aux prec emax sx mx ex lx with
  | S754_zero s => s = sx
  | S754_finite s _ _ => s = sx
  | S754_infinity s => s = sx
  | S754_nan => True
  end.
Proof.
  unfold binary_round_aux.
  destruct (shr_fexp prec emax mx ex lx) as [mrs' e'].
  destruct (shr_fexp prec emax _ e' loc_Exact) as [mrs'' e''].
  destruct (shr_m mrs'') as [| m | m]; [reflexivity | | exact I].
  destruct (e'' <=? emax - prec); reflexivity.
Qed.

(** A negative finite value divided by a positive finite one is negative,
    whatever the rounding does (a negative zero included), or NaN. *)
Lemma SFdiv_negative_finite (prec emax : Z) (m : positive) (e : Z) (m' : positive) (e' : Z) :
  match SFdiv prec emax (S754_finite true m e) (S754_finite false m' e') with
  | S754_zero s => s = true
  | S754_finite s _ _ => s = true
  | S754_infinity s => s = true
  | S754_nan => True
  end.
Proof.
  unfold SFdiv.
  destruct (SFdiv_core_binary prec emax (Zpos m) e (Zpos m') e') as [[mz ez] lz].
  apply (binary_round_aux_sign prec emax (xorb true false)).
Qed.

Section DewPoint.

Context {M : libm}.

Lemma log_of_nonpositive (hum : FP.float) :
  log_special_values ->
  SFleb hum (S754_zero false) = true ->
  neg_inf_or_nan (log (FP.fdiv hum (FP.float_of_Z 100))).
Proof.
  intros (Hzero & Hneg & Hninf & Hnan) Hle.
  assert (H100 : FP.float_of_Z 100 = S754_finite false 13107200 (-17))
    by (vm_compute; reflexivity).
  rewrite H100. unfold FP.fdiv, neg_inf_or_nan.
  destruct hum as [s | s | | s m e].
  - cbn [SFdiv]. rewrite Hzero. left. reflexivity.
  - destruct s; [| discriminate Hle].
    cbn [SFdiv xorb]. rewrite Hninf. right. reflexivity.
  - discriminate Hle.
  - destruct s; [| discriminate Hle].
    pose proof (SFdiv_negative_finite FP.fprec FP.femax m e 13107200 (-17)) as Hs.
    destruct (SFdiv FP.fprec FP.femax (S754_finite true m e)
                (S754_finite false 13107200 (-17))) as [s | s | | s m1 e1];
      try subst s.
    + rewrite Hzero. left. reflexivity.
    + rewrite Hninf. right. reflexivity.
    + rewrite Hnan. right. reflexivity.
    + rewrite Hneg. right. reflexivity.
Qed.

Lemma dadd_neg_inf_or_nan (x y : FP.float) :
  neg_inf_or_nan x -> neg_inf_or_nan (FP.dadd x y).
Proof.
  unfold neg_inf_or_nan, FP.dadd. intros [-> | ->].
  - destruct y as [s | s | | s m e]; cbn; auto. destruct s; cbn; auto.
  - right. reflexivity.
Qed.

Lemma float_of_double_neg_inf_or_nan (x : FP.float) :
  neg_inf_or_nan x -> neg_inf_or_nan (FP.float_of_double x).
Proof. unfold neg_inf_or_nan. intros [-> | ->]; cbn; auto. Qed.

(** X7: with a [log] that has the special values of Annex F (minus
    infinity at zero, NaN at negative arguments and at NaN), calc_dewpoint
    returns NaN for every humidity that compares [<= 0] (zero of either
    sign, negative, minus infinity), whatever the temperature, NaN and the
    infinities included: [H] is minus infinity or NaN, and the quotient of
    minus infinity by plus infinity is NaN. *)
Theorem calc_dewpoint_nan_for_nonpositive_humidity (temp hum : FP.float)
  (Hlog : log_special_values)
  (Hhum : SFleb hum (S754_zero false) = true) :
  calc_dewpoint temp hum = FP.NAN.
Proof.
  unfold calc_dewpoint.
  pose proof (float_of_double_neg_inf_or_nan _
                (dadd_neg_inf_or_nan _
                   (FP.ddiv (FP.dmul (FP.dlit 17625 1000) temp)
                      (FP.dadd (FP.dlit 24312 100) temp))
                   (log_of_nonpositive hum Hlog Hhum))) as HH.
  set (H := FP.float_of_double _) in *.
  assert (Hc1 : exists m e, FP.dlit 24304 100 = S754_finite false m e)
    by (vm_compute; eauto).
  assert (Hc2 : exists m e, FP.dlit 17625 1000 = S754_finite false m e)
    by (vm_compute; eauto).
  destruct Hc1 as (m1 & e1 & ->). destruct Hc2 as (m2 & e2 & ->).
  destruct HH as [-> | ->]; reflexivity.
Qed.

Import QArith Qabs.

(** The two roundings of ln(1/2) lie within 10^-16 and within 10^-8 of
    -0.6931471805599453. *)
Lemma ln_half_values :
  exists a b, Magnus.value Magnus.ln_half_double = Some a
    /\ Magnus.value Magnus.ln_half_float = Some b
    /\ Magnus.within (1 # 10000000000000000) a (-6931471805599453 # 10000000000000000)
    /\ Magnus.within (1 # 100000000) b (-6931471805599453 # 10000000000000000).
Proof.
  eexists. eexists. split; [reflexivity |]. split; [reflexivity |].
  split; vm_compute; discriminate.
Qed.

(** calc_dewpoint at 20 C and 50 %, from the value of [log] at 1/2. *)
Lemma calc_dewpoint_at_reference (L : FP.float) :
  log Magnus.half = L ->
  calc_dewpoint (FP.float_of_Z 20) (FP.float_of_Z 50)
  = FP.float_of_double
      (FP.ddiv
         (FP.dmul (FP.dlit 24304 100)
            (FP.float_of_double
               (FP.dadd L (FP.ddiv (FP.dmul (FP.dlit 17625 1000) (FP.float_of_Z 20))
                             (FP.dadd (FP.dlit 24312 100) (FP.float_of_Z 20))))))
         (FP.dsub (FP.dlit 17625 1000)
            (FP.float_of_double
               (FP.dadd L (FP.ddiv (FP.dmul (FP.dlit 17625 1000) (FP.float_of_Z 20))
                             (FP.dadd (FP.dlit 24312 100) (FP.float_of_Z 20))))))).
Proof. intros <-. reflexivity. Qed.

(** C8: calc_dewpoint is the Magnus approximation
    H = ln(hum/100) + (17.625*temp)/(243.12+temp),
    dewPoint = 243.04*H / (17.625-H), evaluated in the arithmetic of the
    target, for every temperature and humidity.  With a [log] that is
    correctly rounded at 1/2, the result at 20 C and 50 % is a finite number
    within 0.00001 of the formula in exact arithmetic around that logarithm
    and within 0.1 of 9.26.  With a [log] that has the special values of
    Annex F, the result is NaN for every humidity that compares [<= 0]. *)
Theorem calc_dewpoint_magnus
  (Hspecial : log_special_values) (Hhalf : Magnus.log_rounds_half) :
  (forall temp hum : FP.float,
      calc_dewpoint temp hum = Magnus.dewPoint Magnus.machine temp hum)
  /\ (exists L td : Q,
        Magnus.value (log Magnus.half) = Some L
        /\ Magnus.value (calc_dewpoint (FP.float_of_Z 20) (FP.float_of_Z 50)) = Some td
        /\ Magnus.within (1 # 100000) td
             (Magnus.dewPoint (Magnus.exact (fun _ => L)) (inject_Z 20) (inject_Z 50))
        /\ Magnus.within (1 # 10) td (926 # 100))
  /\ (forall temp hum : FP.float,
        SFleb hum (S754_zero false) = true -> calc_dewpoint temp hum = FP.NAN).
Proof.
  split; [reflexivity |]. split.
  - destruct Hhalf as [Hh | Hh]; rewrite (calc_dewpoint_at_reference _ Hh), Hh.
    + eexists. eexists. split; [reflexivity |]. split; [vm_compute; reflexivity |].
      split; vm_compute; discriminate.
    + eexists. eexists. split; [reflexivity |]. split; [vm_compute; reflexivity |].
      split; vm_compute; discriminate.
  - intros temp hum Hhum.
    unfold calc_dewpoint.
    pose proof (float_of_double_neg_inf_or_nan _
                  (dadd_neg_inf_or_nan _
                     (FP.ddiv (FP.dmul (FP.dlit 17625 1000) temp)
                        (FP.dadd (FP.dlit 24312 100) temp))
                     (log_of_nonpositive hum Hspecial Hhum))) as HH.
    set (H := FP.float_of_double _) in *.
    assert (Hc1 : exists m e, FP.dlit 24304 100 = S754_finite false m e)
      by (vm_compute; eauto).
    assert (Hc2 : exists m e, FP.dlit 17625 1000 = S754_finite false m e)
      by (vm_compute; eauto).
    destruct Hc1 as (m1 & e1 & ->). destruct Hc2 as (m2 & e2 & ->).
    destruct HH as [-> | ->]; reflexivity.
Qed.

End DewPoint.

(** X7 at 20 C and a humidity of 0, with the libm double. *)
Lemma calc_dewpoint_nan_for_nonpositive_humidity_witness :
  calc_dewpoint (M := libm_stub) (FP.float_of_Z 20) (S754_zero false) = FP.NAN.
Proof.
  apply (calc_dewpoint_nan_for_nonpositive_humidity (M := libm_stub)).
  - unfold log_special_values. repeat split; reflexivity.
  - reflexivity.
Defined.

(** C8 with the libm double: at 20 C and 50 % calc_dewpoint returns
    9704625 * 2^-20 = 9.25505... *)
Lemma calc_dewpoint_magnus_witness :
  log_special_values (M := libm_half)
  /\ Magnus.log_rounds_half (M := libm_half)
  /\ exists L td : QArith_base.Q,
       Magnus.value (log (libm := libm_half) Magnus.half) = Some L
       /\ Magnus.value (calc_dewpoint (M := libm_half) (FP.float_of_Z 20) (FP.float_of_Z 50))
          = Some td
       /\ Magnus.within (QArith_base.Qmake 1 100000) td
            (Magnus.dewPoint (Magnus.exact (fun _ => L))
               (QArith_base.inject_Z 20) (QArith_base.inject_Z 50))
       /\ Magnus.within (QArith_base.Qmake 1 10) td (QArith_base.Qmake 926 100).
Proof.
  assert (H1 : log_special_values (M := libm_half))
    by (unfold log_special_values; repeat split; reflexivity).
  assert (H2 : Magnus.log_rounds_half (M := libm_half)) by (left; reflexivity).
  split; [exact H1 |]. split; [exact H2 |].
  exact (proj1 (proj2 (calc_dewpoint_magnus (M := libm_half) H1 H2))).
Defined.

(** ** The clock and the delay routine *)

(** The C quotient by 1000 of a difference of microseconds. *)
Lemma quot_1000_bounds (a : Z) :
  -1000000 < a < 1000000 ->
  (0 <= a -> Z.quot a 1000 = a / 1000)
  /\ a - 999 <= 1000 * Z.quot a 1000 <= a + 999
  /\ -999 <= Z.quot a 1000 <= 999
  /\ (0 <= a -> 1000 * Z.quot a 1000 <= a)
  /\ (a < 0 -> a <= 1000 * Z.quot a 1000 <= 0).
Proof.
  intros Ha.
  destruct (Z.le_gt_cases 0 a) as [Hpos | Hneg].
  - rewrite Z.quot_div_nonneg by lia.
    pose proof (Z.div_mod a 1000 ltac:(lia)) as Hdm.
    pose proof (Z.mod_pos_bound a 1000 ltac:(lia)) as Hm.
    repeat split; try lia.
  - replace a with (- (- a)) by lia.
    rewrite Z.quot_opp_l by lia.
    rewrite Z.quot_div_nonneg by lia.
    pose proof (Z.div_mod (- a) 1000 ltac:(lia)) as Hdm.
    pose proof (Z.mod_pos_bound (- a) 1000 ltac:(lia)) as Hm.
    repeat split; try lia.
Qed.

Lemma quot_1000_monotone (a b : Z) : a <= b -> Z.quot a 1000 <= Z.quot b 1000.
Proof. intros H. apply Z.quot_le_mono; lia. Qed.

(** The value of millis() before the conversion wraps it. *)
Lemma millis_value (tv tv_s : Clock.timeval) :
  Clock.normalized tv -> Clock.normalized tv_s ->
  0 <= Clock.elapsed_usec tv tv_s ->
  Clock.tv_sec tv - Clock.tv_sec tv_s <= 2147482 ->
  0 <= Clock.tv_sec tv - Clock.tv_sec tv_s
  /\ Clock.millis tv tv_s
     = (Clock.tv_sec tv - Clock.tv_sec tv_s) * 1000
       + Z.quot (Clock.tv_usec tv - Clock.tv_usec tv_s) 1000
  /\ 0 <= Clock.millis tv tv_s <= 2147482999.
Proof.
  unfold Clock.normalized, Clock.elapsed_usec, Clock.millis.
  intros Hn Hs He Hr.
  pose proof (quot_1000_bounds (Clock.tv_usec tv - Clock.tv_usec tv_s) ltac:(lia))
    as (_ & Hq & Hq' & _).
  assert (Hsec : 0 <= Clock.tv_sec tv - Clock.tv_sec tv_s) by lia.
  split; [exact Hsec |].
  assert (Hnn : 0 <= (Clock.tv_sec tv - Clock.tv_sec tv_s) * 1000
                     + Z.quot (Clock.tv_usec tv - Clock.tv_usec tv_s) 1000) by lia.
  cbv zeta. unfold C.ulong, C.ULONG_BITS. change (2 ^ 32) with 4294967296.
  rewrite Z.mod_small by lia. split; [reflexivity | lia].
Qed.

(** X8: for a clock reading [tv] not before the start reading [tv_s] and
    less than 2147483 seconds (24.8 days) after it, both readings with
    their microseconds below one second, the arithmetic of millis() stays
    within [long] and its result is the elapsed time in milliseconds,
    rounded down when the microseconds of [tv] are not below those of
    [tv_s] and never more than 999 microseconds away from the elapsed time
    otherwise.  Over such readings millis() is monotone: a later reading
    never gives a smaller value. *)
Theorem millis_tracks_elapsed_time (tv tv_s : Clock.timeval)
  (Hnow : Clock.normalized tv) (Hstart : Clock.normalized tv_s)
  (Hafter : 0 <= Clock.elapsed_usec tv tv_s)
  (Hrange : Clock.tv_sec tv - Clock.tv_sec tv_s <= 2147482) :
  Clock.in_long ((Clock.tv_sec tv - Clock.tv_sec tv_s) * 1000)
  /\ Clock.in_long ((Clock.tv_sec tv - Clock.tv_sec tv_s) * 1000
                    + Z.quot (Clock.tv_usec tv - Clock.tv_usec tv_s) 1000)
  /\ (Clock.tv_usec tv_s <= Clock.tv_usec tv ->
      Clock.millis tv tv_s = Clock.elapsed_usec tv tv_s / 1000)
  /\ Clock.elapsed_usec tv tv_s - 999 <= 1000 * Clock.millis tv tv_s
     <= Clock.elapsed_usec tv tv_s + 999
  /\ (forall tv' : Clock.timeval,
        Clock.normalized tv' ->
        Clock.tv_sec tv' - Clock.tv_sec tv_s <= 2147482 ->
        Clock.elapsed_usec tv tv_s <= Clock.elapsed_usec tv' tv_s ->
        Clock.millis tv tv_s <= Clock.millis tv' tv_s).
Proof.
  destruct (millis_value tv tv_s Hnow Hstart Hafter Hrange) as (Hsec & Hval & Hb).
  pose proof Hnow as Hn. pose proof Hstart as Hs.
  unfold Clock.normalized in Hn, Hs.
  pose proof (quot_1000_bounds (Clock.tv_usec tv - Clock.tv_usec tv_s) ltac:(lia))
    as (Hfloor & Hq & Hq' & Hq3 & Hq4).
  unfold Clock.in_long, Clock.LONG_MIN, Clock.LONG_MAX.
  change (2 ^ 31) with 2147483648.
  split; [lia |]. split; [lia |]. split.
  { intros Hle. rewrite Hval, Hfloor by lia. unfold Clock.elapsed_usec.
    replace ((Clock.tv_sec tv - Clock.tv_sec tv_s) * 1000000
             + (Clock.tv_usec tv - Clock.tv_usec tv_s))
      with ((Clock.tv_usec tv - Clock.tv_usec tv_s)
            + (Clock.tv_sec tv - Clock.tv_sec tv_s) * 1000 * 1000) by lia.
    rewrite Z.div_add by lia. lia. }
  split.
  { rewrite Hval. unfold Clock.elapsed_usec. lia. }
  intros tv' Hn' Hr' Hle.
  assert (Hafter' : 0 <= Clock.elapsed_usec tv' tv_s) by lia.
  destruct (millis_value tv' tv_s Hn' Hstart Hafter' Hr') as (Hsec' & Hval' & Hb').
  rewrite Hval, Hval'.
  unfold Clock.normalized in Hn'. unfold Clock.elapsed_usec in Hle.
  pose proof (quot_1000_bounds (Clock.tv_usec tv' - Clock.tv_usec tv_s) ltac:(lia))
    as (_ & Hq2 & Hq2' & Hq5 & Hq6).
  destruct (Z.eq_dec (Clock.tv_sec tv) (Clock.tv_sec tv')) as [Heq | Hne].
  - rewrite Heq in *.
    pose proof (quot_1000_monotone (Clock.tv_usec tv - Clock.tv_usec tv_s)
                  (Clock.tv_usec tv' - Clock.tv_usec tv_s) ltac:(lia)).
    lia.
  - assert (Clock.tv_sec tv < Clock.tv_sec tv') by lia.
    destruct (Z.le_gt_cases (Clock.tv_sec tv + 2) (Clock.tv_sec tv')); [lia |].
    assert (Hs1 : Clock.tv_sec tv' = Clock.tv_sec tv + 1) by lia.
    rewrite Hs1 in *.
    destruct (Z.le_gt_cases 0 (Clock.tv_usec tv - Clock.tv_usec tv_s));
      destruct (Z.le_gt_cases 0 (Clock.tv_usec tv' - Clock.tv_usec tv_s)); lia.
Qed.

(** X8 for a start at 100.999500 s and a reading at 101.000100 s: 600
    microseconds have passed and millis() gives 1. *)
Lemma millis_tracks_elapsed_time_witness :
  600 - 999
  <= 1000 * Clock.millis {| Clock.tv_sec := 101; Clock.tv_usec := 100 |}
                         {| Clock.tv_sec := 100; Clock.tv_usec := 999500 |}
  <= 600 + 999.
Proof.
  refine (proj1 (proj2 (proj2 (proj2
            (millis_tracks_elapsed_time
               {| Clock.tv_sec := 101; Clock.tv_usec := 100 |}
               {| Clock.tv_sec := 100; Clock.tv_usec := 999500 |} _ _ _ _))))).
  - unfold Clock.normalized. cbn. lia.
  - unfold Clock.normalized. cbn. lia.
  - unfold Clock.elapsed_usec. cbn. lia.
  - cbn. lia.
Defined.

(** X9: for every argument, the [sleeper] that delay_msec hands to
    nanosleep is a valid timespec (its nanoseconds lie below one second, as
    nanosleep demands) that amounts to exactly the requested milliseconds,
    and the product that gives the nanoseconds fits [long]. *)
Theorem delay_msec_timespec_exact (ms : Z) :
  let sleeper := Clock.delay_msec ms in
  0 <= Clock.sleeper_tv_nsec sleeper <= 999999999
  /\ Clock.in_long (Clock.sleeper_tv_nsec sleeper)
  /\ 0 <= Clock.sleeper_tv_sec sleeper <= 4294967
  /\ Clock.sleeper_tv_sec sleeper * 1000000000 + Clock.sleeper_tv_nsec sleeper
     = C.uint32 ms * 1000000.
Proof.
  cbv zeta. unfold Clock.delay_msec, Clock.in_long, Clock.LONG_MIN, Clock.LONG_MAX.
  cbn [Clock.sleeper_tv_sec Clock.sleeper_tv_nsec].
  change (2 ^ 31) with 2147483648.
  assert (Hr : 0 <= C.uint32 ms < 2 ^ 32) by (unfold C.uint32; apply Z.mod_pos_bound; lia).
  change (2 ^ 32) with 4294967296 in Hr.
  set (m := C.uint32 ms) in *.
  pose proof (Z.div_mod m 1000 ltac:(lia)) as Hdm.
  pose proof (Z.mod_pos_bound m 1000 ltac:(lia)) as Hm.
  assert (0 <= m / 1000 <= 4294967).
  { split; [apply Z.div_pos; lia |].
    assert (m / 1000 < 4294968) by (apply Z.div_lt_upper_bound; lia). lia. }
  lia.
Qed.

(** ** The bus callbacks *)

Lemma Forall_removelast_cons {A : Type} (P : A -> Prop) (a : A) (l : list A) :
  (l <> [] -> P a) -> Forall P (removelast l) -> Forall P (removelast (a :: l)).
Proof.
  intros Ha Hl. destruct l as [| b l]; [constructor |].
  cbn [removelast]. constructor; [apply Ha; discriminate | exact Hl].
Qed.

Lemma last_cons_default {A : Type} (l : list A) :
  forall a d : A, last (a :: l) d = last l a.
Proof.
  induction l as [| x l IH]; intros a d; [reflexivity |].
  change (last (a :: x :: l) d) with (last (x :: l) d).
  rewrite (IH x d), (IH x a). reflexivity.
Qed.

(** The loop of i2c_read with [retry] retries left. *)
Lemma i2c_read_loop_spec {B : Type} (h : I2C.bus B) (retry : nat) :
  forall (addr : Z) (reg_data : list Z) (len : Z) (b : B),
  let r := I2C.run h (I2C.i2c_read_loop retry addr reg_data len) b in
  let ws := I2C.write_answers (snd r) in
  let rs := I2C.read_answers (snd r) in
  (fst (fst (fst r)) = 0 \/ fst (fst (fst r)) = 1)
  /\ (fst (fst (fst r)) = 0 <-> In I2C.I2C_OK rs)
  /\ (List.length rs <= S retry)%nat
  /\ (List.length ws = List.length rs \/ List.length ws = S (List.length rs))
  /\ Forall (eq I2C.I2C_OK) (removelast ws)
  /\ Forall I2C.failed (removelast rs)
  /\ (List.length ws = S (List.length rs) -> I2C.failed (last ws I2C.I2C_OK))
  /\ snd (fst (fst r)) = last (I2C.read_buffers (snd r)) reg_data
  /\ I2C.sent (snd r) = repeat ([addr], 1) (List.length ws)
  /\ I2C.slaves (snd r) = [].
Proof.
  induction retry as [| retry IH]; intros addr reg_data len b; cbv zeta;
    cbn [I2C.i2c_read_loop I2C.bind I2C.trigger I2C.run].
  - destruct (h _ (I2C.TWI_i2c_write [addr] 1) b) as [st b1].
    destruct st; cbn [I2C.is_ok negb I2C.bind I2C.run];
      try (cbn; unfold I2C.failed; repeat split; auto; try lia; try discriminate;
           intros H; try discriminate; try contradiction; fail).
    destruct (h _ (I2C.TWI_i2c_read reg_data len) b1) as [[result buf] b2].
    destruct result; cbn; unfold I2C.failed;
      repeat split; auto; try lia; try discriminate;
      try (intros [H | []]; discriminate);
      try (constructor; [reflexivity | constructor]).
  - destruct (h _ (I2C.TWI_i2c_write [addr] 1) b) as [st b1].
    destruct st; cbn [I2C.is_ok negb I2C.bind I2C.run];
      try (cbn; unfold I2C.failed; repeat split; auto; try lia; try discriminate;
           intros H; try discriminate; try contradiction; fail).
    destruct (h _ (I2C.TWI_i2c_read reg_data len) b1) as [[result buf] b2].
    destruct result;
      try (cbn; unfold I2C.failed;
           repeat split; auto; try lia; try discriminate;
           try (constructor; [reflexivity | constructor]); fail).
    all: specialize (IH addr buf len b2); cbv zeta in IH;
      destruct (I2C.run h (I2C.i2c_read_loop retry addr buf len) b2) as [[[rslt dat] b3] tr];
      cbn [fst snd] in IH |- *;
      destruct IH as (H01 & Hiff & Hlen & Hws & Hwok & Hrfail & Hlast & Hbuf & Hsent & Hsl);
      unfold I2C.write_answers, I2C.read_answers, I2C.read_buffers, I2C.sent, I2C.slaves in *;
      cbn [flat_map I2C.write_status_of I2C.read_status_of I2C.read_buffer_of
             I2C.sent_of I2C.slave_of app fst snd List.length];
      (split; [exact H01 |]);
      (split; [rewrite Hiff; cbn [In]; split;
               [intros H; right; exact H | intros [H | H]; [discriminate H | exact H]] |]);
      (split; [lia |]);
      (split; [lia |]);
      (split; [apply Forall_removelast_cons; [reflexivity | exact Hwok] |]);
      (split; [apply Forall_removelast_cons; [unfold I2C.failed; discriminate | exact Hrfail] |]).
    all: split.
    all: try (intros Hl; assert (Hl' : List.length (flat_map I2C.write_status_of tr)
                              = S (List.length (flat_map I2C.read_status_of tr))) by lia;
         specialize (Hlast Hl');
         destruct (flat_map I2C.write_status_of tr) eqn:Hw; [discriminate Hl' | exact Hlast]).
    all: split.
    all: try (rewrite Hbuf; symmetry; apply last_cons_default).
    all: split; [cbn [repeat]; f_equal; exact Hsent | exact Hsl].
Qed.

(** The loop of i2c_write with [retry] retries left. *)
Lemma i2c_write_loop_spec {B : Type} (h : I2C.bus B) (retry : nat) :
  forall (tmp : list Z) (len : Z) (b : B),
  let r := I2C.run h (I2C.i2c_write_loop retry tmp len) b in
  let ws := I2C.write_answers (snd r) in
  (fst (fst r) = 0 \/ fst (fst r) = 1)
  /\ (fst (fst r) = 0 <-> In I2C.I2C_OK ws)
  /\ (1 <= List.length ws <= S retry)%nat
  /\ Forall I2C.failed (removelast ws)
  /\ I2C.sent (snd r) = repeat (tmp, len) (List.length ws)
  /\ I2C.read_answers (snd r) = []
  /\ I2C.slaves (snd r) = [].
Proof.
  induction retry as [| retry IH]; intros tmp len b; cbv zeta;
    cbn [I2C.i2c_write_loop I2C.bind I2C.trigger I2C.run];
    destruct (h _ (I2C.TWI_i2c_write tmp len) b) as [result b1].
  - destruct result; cbn; unfold I2C.failed;
      repeat split; auto; try lia; try discriminate;
      intros [H | []]; discriminate.
  - destruct result;
      try (cbn; unfold I2C.failed; repeat split; auto; try lia; fail).
    all: specialize (IH tmp len b1); cbv zeta in IH;
      destruct (I2C.run h (I2C.i2c_write_loop retry tmp len) b1) as [[rslt b3] tr];
      cbn [fst snd] in IH |- *;
      destruct IH as (H01 & Hiff & Hlen & Hfail & Hsent & Hrd & Hsl);
      unfold I2C.write_answers, I2C.read_answers, I2C.sent, I2C.slaves in *;
      cbn [flat_map I2C.write_status_of I2C.read_status_of
             I2C.sent_of I2C.slave_of app fst snd List.length];
      (split; [exact H01 |]);
      (split; [rewrite Hiff; cbn [In]; split;
               [intros H; right; exact H | intros [H | H]; [discriminate H | exact H]] |]);
      (split; [lia |]);
      (split; [apply Forall_removelast_cons;
               [unfold I2C.failed; discriminate | exact Hfail] |]);
      (split; [cbn [repeat]; f_equal; exact Hsent |]);
      split; [exact Hrd | exact Hsl].
Qed.

(** The loop of i2c_read gives up only after a register write failed or
    after the first read and every retry failed; a read that fails with a
    retry left is followed by another round. *)
Lemma i2c_read_loop_gives_up {B : Type} (h : I2C.bus B) (retry : nat) :
  forall (addr : Z) (reg_data : list Z) (len : Z) (b : B),
  let r := I2C.run h (I2C.i2c_read_loop retry addr reg_data len) b in
  let ws := I2C.write_answers (snd r) in
  let rs := I2C.read_answers (snd r) in
  (Forall (eq I2C.I2C_OK) ws -> ~ In I2C.I2C_OK rs -> List.length rs = S retry)
  /\ (List.length ws = List.length rs -> Forall (eq I2C.I2C_OK) ws).
Proof.
  induction retry as [| retry IH]; intros addr reg_data len b; cbv zeta;
    cbn [I2C.i2c_read_loop I2C.bind I2C.trigger I2C.run].
  - destruct (h _ (I2C.TWI_i2c_write [addr] 1) b) as [st b1].
    destruct st; cbn [I2C.is_ok negb I2C.bind I2C.run];
      try (cbn; split; [intros Hw; inversion Hw; discriminate | discriminate]).
    destruct (h _ (I2C.TWI_i2c_read reg_data len) b1) as [[result buf] b2].
    destruct result; cbn; (split; [intros _ Hn; try reflexivity; exfalso; apply Hn; auto
                                  | intros _; repeat constructor]).
  - destruct (h _ (I2C.TWI_i2c_write [addr] 1) b) as [st b1].
    destruct st; cbn [I2C.is_ok negb I2C.bind I2C.run];
      try (cbn; split; [intros Hw; inversion Hw; discriminate | discriminate]).
    destruct (h _ (I2C.TWI_i2c_read reg_data len) b1) as [[result buf] b2].
    destruct result;
      try (cbn; split; [intros _ Hn; exfalso; apply Hn; auto
                       | intros _; repeat constructor]; fail).
    all: specialize (IH addr buf len b2); cbv zeta in IH;
      destruct (I2C.run h (I2C.i2c_read_loop retry addr buf len) b2) as [[[rslt dat] b3] tr];
      cbn [fst snd] in IH |- *;
      destruct IH as [Hup Hok];
      unfold I2C.write_answers, I2C.read_answers in *;
      cbn [flat_map I2C.write_status_of I2C.read_status_of app fst snd List.length In];
      (split; [intros Hw Hn; f_equal; apply Hup;
               [inversion Hw; assumption | intros Hin; apply Hn; right; exact Hin]
              | intros Hl; constructor; [reflexivity | apply Hok; lia]]).
Qed.

(** X10: i2c_read returns 0 or 1 and nothing else.  It selects the slave
    address once, then makes at most four rounds (the first and three
    retries); each round writes the register address as one byte and, if
    that write succeeded, reads.  It returns 0 exactly when a read was
    answered I2C_OK, which then is the last call.  A read that fails is
    retried: when no register write failed and no read was answered I2C_OK,
    four reads were made before it returned 1.  A register write that fails
    is not retried: it ends the call with 1.  The buffer holds what the last
    read left in it. *)
Theorem i2c_read_retries {B : Type} (h : I2C.bus B) (b : B)
  (I2C_Address dev_id reg_addr : Z) (reg_data : list Z) (len : Z) :
  let r := I2C.run h (I2C.i2c_read I2C_Address dev_id reg_addr reg_data len) b in
  let rslt := fst (fst (fst r)) in
  let ws := I2C.write_answers (snd r) in
  let rs := I2C.read_answers (snd r) in
  (rslt = 0 \/ rslt = 1)
  /\ I2C.slaves (snd r) = [I2C_Address]
  /\ (rslt = 0 <-> In I2C.I2C_OK rs)
  /\ (List.length rs <= 4)%nat
  /\ (Forall (eq I2C.I2C_OK) ws -> ~ In I2C.I2C_OK rs -> List.length rs = 4%nat)
  /\ (List.length ws = List.length rs \/ List.length ws = S (List.length rs))
  /\ (List.length ws = List.length rs -> Forall (eq I2C.I2C_OK) ws)
  /\ Forall (eq I2C.I2C_OK) (removelast ws)
  /\ Forall I2C.failed (removelast rs)
  /\ (List.length ws = S (List.length rs) -> I2C.failed (last ws I2C.I2C_OK))
  /\ I2C.sent (snd r) = repeat ([C.uint8 reg_addr], 1) (List.length ws)
  /\ snd (fst (fst r)) = last (I2C.read_buffers (snd r)) reg_data.
Proof.
  cbv zeta. unfold I2C.i2c_read.
  cbn [I2C.bind I2C.trigger I2C.run].
  destruct (h _ (I2C.TWI_setSlave I2C_Address) b) as [[] b1].
  pose proof (i2c_read_loop_spec h 3 (C.uint8 reg_addr) reg_data (C.uint16 len) b1) as H.
  pose proof (i2c_read_loop_gives_up h 3 (C.uint8 reg_addr) reg_data (C.uint16 len) b1)
    as Hup.
  cbv zeta in H, Hup.
  destruct (I2C.run h (I2C.i2c_read_loop 3 (C.uint8 reg_addr) reg_data (C.uint16 len)) b1)
    as [[[rslt dat] b2] tr].
  cbn [fst snd] in H, Hup |- *.
  destruct H as (H01 & Hiff & Hlen & Hws & Hwok & Hrfail & Hlast & Hbuf & Hsent & Hsl).
  destruct Hup as [Hfour Hallok].
  unfold I2C.write_answers, I2C.read_answers, I2C.read_buffers, I2C.sent, I2C.slaves in *.
  cbn [flat_map I2C.write_status_of I2C.read_status_of I2C.read_buffer_of
         I2C.sent_of I2C.slave_of app].
  rewrite Hsl. repeat (split; [assumption || reflexivity |]). exact Hbuf.
Qed.

(** X11: i2c_write refuses a length above BME680_TMP_BUFFER_LENGTH with 1
    before it touches the bus.  Otherwise it selects the slave address once
    and sends one and the same buffer, the register address followed by the
    data bytes, at least once and at most four times (three retries); it
    never reads.  It returns 0 exactly when a write was answered I2C_OK,
    which then is the last call, and 1 otherwise.  With a buffer length
    below 256 and [len] data bytes present, the length it passes is the
    length of that buffer, at most BME680_TMP_BUFFER_LENGTH + 1, the size
    of [tmp]. *)
Theorem i2c_write_retries {B : Type} (h : I2C.bus B) (b : B)
  (BME680_TMP_BUFFER_LENGTH I2C_Address dev_id reg_addr : Z)
  (reg_data : list Z) (len : Z) :
  let r := I2C.run h (I2C.i2c_write BME680_TMP_BUFFER_LENGTH I2C_Address
                        dev_id reg_addr reg_data len) b in
  let rslt := fst (fst r) in
  let ws := I2C.write_answers (snd r) in
  let tmp := C.uint8 reg_addr :: firstn (Z.to_nat (C.uint16 len)) reg_data in
  (BME680_TMP_BUFFER_LENGTH < C.uint16 len -> r = (1, b, []))
  /\ (C.uint16 len <= BME680_TMP_BUFFER_LENGTH ->
      (rslt = 0 \/ rslt = 1)
      /\ I2C.slaves (snd r) = [I2C_Address]
      /\ (rslt = 0 <-> In I2C.I2C_OK ws)
      /\ (1 <= List.length ws <= 4)%nat
      /\ Forall I2C.failed (removelast ws)
      /\ I2C.sent (snd r) = repeat (tmp, C.uint8 (C.uint16 len) + 1) (List.length ws)
      /\ I2C.read_answers (snd r) = []
      /\ (BME680_TMP_BUFFER_LENGTH < 256 ->
          C.uint16 len <= Z.of_nat (List.length reg_data) ->
          C.uint8 (C.uint16 len) + 1 = Z.of_nat (List.length tmp)
          /\ Z.of_nat (List.length tmp) <= BME680_TMP_BUFFER_LENGTH + 1)).
Proof.
  cbv zeta. unfold I2C.i2c_write. split.
  - intros Hbig. rewrite (proj2 (Z.gtb_lt _ _) Hbig). reflexivity.
  - intros Hfit.
    destruct (Z.gtb_spec (C.uint16 len) BME680_TMP_BUFFER_LENGTH) as [Hgt | _]; [lia |].
    cbn [I2C.bind I2C.trigger I2C.run].
    destruct (h _ (I2C.TWI_setSlave I2C_Address) b) as [[] b1].
    pose proof (i2c_write_loop_spec h 3
                  (C.uint8 reg_addr :: firstn (Z.to_nat (C.uint16 len)) reg_data)
                  (C.uint8 (C.uint16 len) + 1) b1) as H.
    cbv zeta in H.
    destruct (I2C.run h (I2C.i2c_write_loop 3 _ _) b1) as [[rslt b2] tr].
    cbn [fst snd] in H |- *.
    destruct H as (H01 & Hiff & Hlen & Hfail & Hsent & Hrd & Hsl).
    unfold I2C.write_answers, I2C.read_answers, I2C.sent, I2C.slaves in *.
    cbn [flat_map I2C.write_status_of I2C.read_status_of
           I2C.sent_of I2C.slave_of app].
    rewrite Hsl. repeat (split; [assumption || reflexivity |]).
    intros Hsmall Hdata.
    pose proof (uint16_range len) as Hr.
    cbn [List.length]. rewrite length_firstn.
    unfold C.uint8. rewrite Z.mod_small by lia. lia.
Qed.

(** A sensor that does not acknowledge four reads in a row: i2c_read gives
    up with 1 after four register writes and four reads. *)
Example i2c_read_gives_up_after_four_reads :
  let b := {| I2C.write_script := [];
              I2C.read_script := [I2C.I2C_SDA_NACK; I2C.I2C_SDA_NACK; I2C.I2C_SDA_NACK;
                                  I2C.I2C_SDA_NACK; I2C.I2C_OK];
              I2C.data := [0x61] |} in
  let r := I2C.run I2C.scripted_bus (I2C.i2c_read 0x77 0x77 0xD0 [0] 1) b in
  fst (fst (fst r)) = 1
  /\ I2C.read_answers (snd r)
     = [I2C.I2C_SDA_NACK; I2C.I2C_SDA_NACK; I2C.I2C_SDA_NACK; I2C.I2C_SDA_NACK]
  /\ I2C.sent (snd r) = [([0xD0], 1); ([0xD0], 1); ([0xD0], 1); ([0xD0], 1)].
Proof. cbv zeta. vm_compute. repeat split; reflexivity. Qed.

(** The third read is acknowledged: i2c_read returns 0 with its bytes. *)
Example i2c_read_succeeds_on_a_retry :
  let b := {| I2C.write_script := [];
              I2C.read_script := [I2C.I2C_SCL_CLKSTR; I2C.I2C_SDA_DATA];
              I2C.data := [0x61] |} in
  let r := I2C.run I2C.scripted_bus (I2C.i2c_read 0x77 0x77 0xD0 [0] 1) b in
  fst (fst r) = (0, [0x61])
  /\ I2C.read_answers (snd r) = [I2C.I2C_SCL_CLKSTR; I2C.I2C_SDA_DATA; I2C.I2C_OK].
Proof. cbv zeta. vm_compute. repeat split; reflexivity. Qed.

(** ** Coloured console output *)

Lemma string_length_append (a b : String.string) :
  String.length (String.append a b) = (String.length a + String.length b)%nat.
Proof. induction a as [| c a IH]; cbn; [reflexivity | rewrite IH; reflexivity]. Qed.

(** X12: the string that p_printf builds in [col] always fits, with its
    terminator, the block of strlen(format) + 20 bytes allocated for it.
    With NoColor set, or for a level other than RED, GREEN, YELLOW and BLUE,
    it is the format itself; otherwise it is the format between the escape
    sequence of the colour and the reset sequence. *)
Theorem p_printf_fits_its_buffer (NoColor : bool) (level : Z) (format : String.string) :
  let col := Color.p_printf NoColor level format in
  Z.of_nat (String.length col) + 1 <= Color.col_size format
  /\ (NoColor = true -> col = format)
  /\ (level < Color.RED \/ Color.BLUE < level -> col = format)
  /\ (NoColor = false ->
      (level = Color.RED -> col = Color.sprintf_s Color.REDSTR format)
      /\ (level = Color.GREEN -> col = Color.sprintf_s Color.GRNSTR format)
      /\ (level = Color.YELLOW -> col = Color.sprintf_s Color.YLWSTR format)
      /\ (level = Color.BLUE -> col = Color.sprintf_s Color.BLUSTR format)).
Proof.
  cbv zeta. unfold Color.p_printf, Color.col_size.
  split.
  - destruct NoColor; [cbn; lia |].
    repeat match goal with
      | |- context [if ?x =? ?k then _ else _] => destruct (x =? k)
      end;
      unfold Color.sprintf_s; rewrite ?string_length_append; cbn; lia.
  - split; [intros ->; reflexivity |].
    split.
    + unfold Color.RED, Color.BLUE, Color.GREEN, Color.YELLOW, Color.WHITE.
      intros Hout. destruct NoColor; [reflexivity |].
      repeat match goal with
        | |- context [if ?x =? ?k then _ else _] => destruct (Z.eqb_spec x k)
        end; try lia; reflexivity.
    + intros ->. repeat split; intros ->; reflexivity.
Qed.

(** ** The monitor: one reading *)

Lemma sleeps_app (l1 l2 : list obs) : sleeps (l1 ++ l2) = sleeps l1 ++ sleeps l2.
Proof. apply flat_map_app. Qed.

Lemma outputs_app (l1 l2 : list obs) : outputs (l1 ++ l2) = outputs l1 ++ outputs l2.
Proof. apply flat_map_app. Qed.

Section OneReading.

Context {D : Bosch.defs} {M : libm}.

Lemma run_fetches_0 {W : Type} (h : env W) (w : W) (s : rasp_BME680) :
  run h (fetches 0 s) w = (s, w, []).
Proof. reflexivity. Qed.

Lemma run_fetches_S {W : Type} (h : env W) (w : W) (n : nat) (s : rasp_BME680) :
  run h (fetches (S n) s) w
  = let '(r1, w1, tr1) := run h (performReading s) w in
    let '(s2, w2, tr2) := run h (fetches n (snd r1)) w1 in
    (s2, w2, tr1 ++ tr2).
Proof.
  cbn [fetches]. rewrite run_bind.
  destruct (run h (performReading s) w) as [[[ok s1] w1] tr1]. reflexivity.
Qed.

Lemma readTemperature_run {W : Type} (h : env W) (w : W) (s : rasp_BME680) :
  run h (readTemperature s) w
  = let '(r1, w1, tr1) := run h (performReading s) w in
    ((temperature (snd r1), snd r1), w1, tr1).
Proof.
  unfold readTemperature. rewrite run_bind.
  destruct (run h (performReading s) w) as [[[ok s1] w1] tr1].
  cbn [run snd]. rewrite app_nil_r. reflexivity.
Qed.

Lemma readHumidity_run {W : Type} (h : env W) (w : W) (s : rasp_BME680) :
  run h (readHumidity s) w
  = let '(r1, w1, tr1) := run h (performReading s) w in
    ((humidity (snd r1), snd r1), w1, tr1).
Proof.
  unfold readHumidity. rewrite run_bind.
  destruct (run h (performReading s) w) as [[[ok s1] w1] tr1].
  cbn [run snd]. rewrite app_nil_r. reflexivity.
Qed.

Lemma readPressure_run {W : Type} (h : env W) (w : W) (s : rasp_BME680) :
  run h (readPressure s) w
  = let '(r1, w1, tr1) := run h (performReading s) w in
    ((pressure (snd r1), snd r1), w1, tr1).
Proof.
  unfold readPressure. rewrite run_bind.
  destruct (run h (performReading s) w) as [[[ok s1] w1] tr1].
  cbn [run snd]. rewrite app_nil_r. reflexivity.
Qed.

Lemma readGas_run {W : Type} (h : env W) (w : W) (s : rasp_BME680) :
  run h (readGas s) w
  = let '(r1, w1, tr1) := run h (performReading s) w in
    ((FP.uint32_of_float (gas_resistance (snd r1)), snd r1), w1, tr1).
Proof.
  unfold readGas. rewrite run_bind.
  destruct (run h (performReading s) w) as [[[ok s1] w1] tr1].
  cbn [run snd]. rewrite app_nil_r. reflexivity.
Qed.

Lemma readAltitude_run {W : Type} (h : env W) (w : W) (s : rasp_BME680)
  (seaLevel : FP.float) :
  run h (readAltitude seaLevel s) w
  = let '(r1, w1, tr1) := run h (performReading s) w in
    ((altitude (pressure (snd r1)) seaLevel, snd r1), w1, tr1).
Proof.
  unfold readAltitude. rewrite run_bind, readPressure_run.
  destruct (run h (performReading s) w) as [[[ok s1] w1] tr1].
  cbn [run snd]. rewrite app_nil_r. reflexivity.
Qed.

(** read_BME680 in terms of successive fetches from the state and the
    environment it starts in. *)
Lemma read_BME680_run {W : Type} (h : env W) (w : W) (mm : Cli.measure) (s : rasp_BME680) :
  let f1 := run h (fetches 1 s) w in
  let f2 := run h (fetches 2 s) w in
  let f3 := run h (fetches 3 s) w in
  let f4 := run h (fetches 4 s) w in
  let f5 := run h (fetches 5 s) w in
  let t := temperature (result f1) in
  let hu := humidity (result f2) in
  let p := pressure (result f3) in
  let g := FP.uint32_of_float (gas_resistance (result f4)) in
  let b4 := Cli.set_gas_resistance g
              (Cli.set_pressure p (Cli.set_humid hu (Cli.set_tempC t (Cli.bme mm)))) in
  run h (Monitor.read_BME680 mm s) w
  = if g =? 0 then ((false, Cli.set_bme b4 mm, result f4), world f4, trace f4)
    else
      ((true,
        Cli.set_bme
          (Cli.set_dewpoint (calc_dewpoint t hu)
             (Cli.set_height (altitude (pressure (result f5)) (Cli.sealevel (Cli.bme mm)))
                b4)) mm,
        result f5), world f5, trace f5).
Proof.
  cbv zeta. unfold Monitor.read_BME680.
  rewrite ?run_fetches_S, run_bind, readTemperature_run.
  destruct (run h (performReading s) w) as [[[ok1 s1] w1] tr1].
  cbv beta iota. cbn [fst snd]. rewrite ?run_fetches_0.
  cbn [Cli.tempC Cli.bme Cli.set_bme Cli.set_tempC]. rewrite feq_nan.
  rewrite ?run_fetches_S, run_bind, readHumidity_run.
  destruct (run h (performReading s1) w1) as [[[ok2 s2] w2] tr2].
  cbv beta iota. cbn [fst snd]. rewrite ?run_fetches_0.
  cbn [Cli.humid Cli.bme Cli.set_bme Cli.set_humid]. rewrite feq_nan.
  rewrite ?run_fetches_S, run_bind, readPressure_run.
  destruct (run h (performReading s2) w2) as [[[ok3 s3] w3] tr3].
  cbv beta iota. cbn [fst snd]. rewrite ?run_fetches_0.
  cbn [Cli.pressure Cli.bme Cli.set_bme Cli.set_pressure]. rewrite feq_nan.
  rewrite ?run_fetches_S, run_bind, readGas_run.
  destruct (run h (performReading s3) w3) as [[[ok4 s4] w4] tr4].
  cbv beta iota. cbn [fst snd]. rewrite ?run_fetches_0.
  cbn [Cli.gas_resistance Cli.bme Cli.set_bme Cli.set_gas_resistance result world trace
         fst snd].
  destruct (FP.uint32_of_float (gas_resistance s4) =? 0).
  - cbn [run]. rewrite ?app_nil_r, <- ?app_assoc. reflexivity.
  - rewrite ?run_fetches_S, run_bind, readAltitude_run.
    destruct (run h (performReading s4) w4) as [[[ok5 s5] w5] tr5].
    cbv beta iota. cbn [fst snd run]. rewrite ?run_fetches_0.
    cbn [result world trace fst snd].
    rewrite ?app_nil_r, <- ?app_assoc. reflexivity.
Qed.

(** X13: one call of read_BME680 is four fetches in a row, and a fifth
    one when it returns true: its calls, the environment and the session it
    leaves are those of that many calls of performReading.  The values of
    one output line therefore stem from different samples: the temperature
    is the one cached after the first fetch, the humidity after the second,
    the pressure after the third and the gas resistance after the
    fourth. *)
Theorem read_BME680_fetches_each_value
  {W : Type} (h : env W) (w : W) (mm : Cli.measure) (s : rasp_BME680) :
  let r := run h (Monitor.read_BME680 mm s) w in
  let ok := fst (fst (result r)) in
  let f := run h (fetches (if ok then 5 else 4) s) w in
  let b := Cli.bme (snd (fst (result r))) in
  trace r = trace f
  /\ world r = world f
  /\ snd (result r) = result f
  /\ Cli.tempC b = temperature (result (run h (fetches 1 s) w))
  /\ Cli.humid b = humidity (result (run h (fetches 2 s) w))
  /\ Cli.pressure b = pressure (result (run h (fetches 3 s) w))
  /\ Cli.gas_resistance b
     = FP.uint32_of_float (gas_resistance (result (run h (fetches 4 s) w))).
Proof.
  cbv zeta. pose proof (read_BME680_run h w mm s) as Hrun. cbv zeta in Hrun.
  rewrite Hrun.
  destruct (FP.uint32_of_float (gas_resistance (result (run h (fetches 4 s) w))) =? 0);
    cbn; repeat split; reflexivity.
Qed.

(** X14: read_BME680 never changes the option part of the monitor's
    variables (verbosity, loop count and delay, oversampling, filter and
    heater options, sea level).  When it returns true, the height is the
    altitude formula on the pressure cached after the fifth fetch, not on
    the pressure it stored for output, and the dew point is calc_dewpoint on
    the temperature and humidity it stored.  When it returns false, height
    and dew point keep the values of the previous reading. *)
Theorem read_BME680_derived_values
  {W : Type} (h : env W) (w : W) (mm : Cli.measure) (s : rasp_BME680) :
  let r := run h (Monitor.read_BME680 mm s) w in
  let ok := fst (fst (result r)) in
  let b := Cli.bme (snd (fst (result r))) in
  options (snd (fst (result r))) = options mm
  /\ (ok = true ->
      Cli.height b
      = altitude (pressure (result (run h (fetches 5 s) w))) (Cli.sealevel (Cli.bme mm))
      /\ Cli.dewpoint b = calc_dewpoint (Cli.tempC b) (Cli.humid b))
  /\ (ok = false ->
      Cli.height b = Cli.height (Cli.bme mm)
      /\ Cli.dewpoint b = Cli.dewpoint (Cli.bme mm)).
Proof.
  cbv zeta. pose proof (read_BME680_run h w mm s) as Hrun. cbv zeta in Hrun.
  rewrite Hrun.
  destruct (FP.uint32_of_float (gas_resistance (result (run h (fetches 4 s) w))) =? 0);
    cbn; repeat split; try reflexivity; intros; try discriminate; reflexivity.
Qed.

(** *** The measurement loop *)

Lemma quiet_app (l1 l2 : list obs) : quiet l1 -> quiet l2 -> quiet (l1 ++ l2).
Proof.
  unfold quiet. intros [H1 H2] [H3 H4].
  rewrite sleeps_app, outputs_app, H1, H2, H3, H4. auto.
Qed.

Lemma quiet_delays (l : list Z) : quiet (map delay_obs l).
Proof. induction l as [| ms l IH]; [split; reflexivity | exact IH]. Qed.

Lemma beginReading_quiet {W : Type} (h : env W) (w : W) (s : rasp_BME680) :
  quiet (trace (run h (beginReading s) w)).
Proof.
  unfold beginReading.
  destruct (C.truthy (_meas_end s)).
  - split; reflexivity.
  - cbn [bind trigger run].
    destruct (h _ _ w) as [[rslt dev] w1].
    destruct (negb (C.int8 rslt =? Bosch.BME680_OK)); [split; reflexivity |].
    cbn [bind trigger run].
    destruct (h _ _ w1) as [[rslt2 dev2] w2].
    destruct (negb (C.int8 rslt2 =? Bosch.BME680_OK)); [split; reflexivity |].
    cbn [bind trigger run].
    destruct (h _ _ w2) as [dur w3].
    destruct (h _ _ w3) as [t w4].
    split; reflexivity.
Qed.

Lemma performReading_quiet {W : Type} (h : env W) (w : W) (s : rasp_BME680) :
  quiet (trace (run h (performReading s) w)).
Proof.
  pose proof (beginReading_quiet h w s) as Hq.
  destruct (performReading_fetch h w s)
    as [s1 w1 tr1 Hb | d s1 w1 tr1 now w2 rslt data dev w4 Hb Hd Hnow Hdata];
    rewrite Hb in Hq; cbn [trace snd] in *.
  - exact Hq.
  - apply quiet_app; [exact Hq |].
    change (Obs millis now :: ?l) with ([Obs millis now] ++ l).
    apply quiet_app; [split; reflexivity |].
    apply quiet_app; [apply quiet_delays | split; reflexivity].
Qed.

Lemma fetches_quiet {W : Type} (h : env W) (n : nat) :
  forall (w : W) (s : rasp_BME680), quiet (trace (run h (fetches n s) w)).
Proof.
  induction n as [| n IH]; intros w s; [split; reflexivity |].
  rewrite run_fetches_S.
  pose proof (performReading_quiet h w s) as Hq.
  destruct (run h (performReading s) w) as [[[ok s1] w1] tr1].
  specialize (IH w1 s1).
  cbn [snd] in *.
  destruct (run h (fetches n s1) w1) as [[s2 w2] tr2].
  cbn [trace snd] in *. apply quiet_app; assumption.
Qed.

Lemma read_BME680_quiet {W : Type} (h : env W) (w : W) (mm : Cli.measure)
  (s : rasp_BME680) :
  quiet (trace (run h (Monitor.read_BME680 mm s) w))
  /\ options (snd (fst (result (run h (Monitor.read_BME680 mm s) w)))) = options mm.
Proof.
  pose proof (read_BME680_run h w mm s) as Hrun. cbv zeta in Hrun. rewrite Hrun.
  destruct (FP.uint32_of_float (gas_resistance (result (run h (fetches 4 s) w))) =? 0);
    cbn [trace snd result fst]; (split; [apply fetches_quiet | reflexivity]).
Qed.

Lemma options_loop (mm mm' : Cli.measure) :
  options mm' = options mm ->
  Cli.loop mm' = Cli.loop mm /\ Cli.loop_delay mm' = Cli.loop_delay mm.
Proof. unfold options. intros H. injection H as H1 H2 H3. auto. Qed.

Lemma closeout_run {W : Type} (h : env W) (w : W) (val : Z) (s : rasp_BME680) :
  exists s' w',
    run h (Monitor.closeout val s) w
    = ((val, s'), w',
       [Obs (bme680_soft_reset (gas_sensor s)) (fst (h _ (bme680_soft_reset (gas_sensor s)) w));
        Obs TWI_close tt]).
Proof.
  unfold Monitor.closeout. cbn [bind trigger run].
  destruct (h _ (bme680_soft_reset _) w) as [[rslt dev] w1].
  cbn [bind trigger run].
  destruct (h _ TWI_close w1) as [[] w2].
  cbn [run fst]. eauto.
Qed.

Lemma next_round_options {W : Type} (h : env W) (st : loop_state) :
  options (fst (fst (next_round h st))) = options (fst (fst st)).
Proof.
  destruct st as [[mm s] w]. unfold next_round, after_reading.
  cbn [fst snd]. apply read_BME680_quiet.
Qed.

(** One iteration of the loop, from the reading and the output of its
    round. *)
Lemma main_loop_from_round {W : Type} (h : env W) (fuel : nat) (lloop : Z)
  (mm : Cli.measure) (s : rasp_BME680) (w : W) :
  0 < lloop ->
  let st := (mm, s, w) in
  let r := run h (Monitor.main_loop_from (S fuel) lloop mm s) w in
  (goes_round h st = true ->
   exists tr out,
     quiet tr
     /\ r = (let '(mm1, s1, w1) := next_round h st in
             let '(x, w2, tr2) :=
               run h (Monitor.main_loop_from fuel
                        (if Cli.loop mm >? 0 then C.uint16 (lloop - 1) else lloop)
                        mm1 s1) w1 in
             (x, w2, tr ++ Obs (do_output_values out) true
                        :: Obs (sleep (Cli.loop_delay mm)) tt :: tr2)))
  /\ (goes_round h st = false ->
      fst (fst (result r)) = Monitor.Exited Monitor.EXIT_FAILURE
      /\ sleeps (trace r) = []
      /\ List.length (outputs (trace r)) = (if reading_ok h st then 1 else 0)%nat
      /\ exists tr, calls (trace r) = tr ++ [call_soft_reset; call_TWI_close]).
Proof.
  intros Hl. cbv zeta. unfold goes_round, output_ok, next_round, after_reading, reading_ok.
  cbn [Monitor.main_loop_from].
  rewrite (proj2 (Z.gtb_lt lloop 0) Hl). rewrite run_bind.
  destruct (read_BME680_quiet h w mm s) as [Hq Hopt].
  destruct (run h (Monitor.read_BME680 mm s) w) as [[[[ok mm1] s1] w1] tr1].
  cbn [result trace world fst snd] in Hq, Hopt |- *.
  destruct (options_loop mm mm1 Hopt) as [Hloop Hdelay].
  destruct ok; cbn [negb andb].
  - cbn [bind trigger run].
    destruct (h _ (do_output_values mm1) w1) as [okout w2].
    cbn [fst snd].
    destruct okout; cbn [negb].
    + split; [intros _ | discriminate].
      cbn [bind trigger run].
      destruct (h _ (sleep _) w2) as [[] w3]. cbn [snd].
      rewrite Hloop, Hdelay.
      exists tr1, mm1. split; [exact Hq |].
      destruct (run h _ w3) as [[x w4] tr2]. reflexivity.
    + split; [discriminate | intros _]. rewrite run_bind.
      destruct (closeout_run h w2 Monitor.EXIT_FAILURE s1) as (s2 & w3 & Hc).
      rewrite Hc. cbn [run result trace fst snd]. destruct Hq as [Hs Ho].
      rewrite sleeps_app, outputs_app, Hs, Ho.
      split; [reflexivity |]. split; [reflexivity |]. split; [reflexivity |].
      exists (calls tr1 ++ [call_do_output_values]).
      unfold calls. rewrite map_app, <- app_assoc. reflexivity.
  - split; [discriminate | intros _]. rewrite run_bind.
    destruct (closeout_run h w1 Monitor.EXIT_FAILURE s1) as (s2 & w3 & Hc).
    rewrite Hc. cbn [run result trace fst snd]. destruct Hq as [Hs Ho].
    rewrite sleeps_app, outputs_app, Hs, Ho.
    split; [reflexivity |]. split; [reflexivity |]. split; [reflexivity |].
    exists (calls tr1).
    unfold calls. rewrite map_app. reflexivity.
Qed.

(** The loop from [lloop] rounds to go, in terms of the rounds: [count]
    tells whether the rounds are counted. *)
Lemma main_loop_from_rounds {W : Type} (h : env W) (fuel : nat) :
  forall (lloop : Z) (mm : Cli.measure) (s : rasp_BME680) (w : W) (n : nat),
    0 < lloop ->
    (if Cli.loop mm >? 0 then 0 < lloop < 2 ^ 16 /\ n = Z.to_nat lloop /\ (n <= fuel)%nat
     else n = fuel) ->
    let st := (mm, s, w) in
    let r := run h (Monitor.main_loop_from fuel lloop mm s) w in
    let out := fst (fst (result r)) in
    ((forall k, (k < n)%nat -> goes_round h (round_start h k st) = true) ->
     out = (if Cli.loop mm >? 0 then Monitor.Finished else Monitor.Unfinished)
     /\ final_state r = round_start h n st
     /\ sleeps (trace r) = repeat (Cli.loop_delay mm) n
     /\ List.length (outputs (trace r)) = n)
    /\ (forall k, (k < n)%nat ->
        (forall j, (j < k)%nat -> goes_round h (round_start h j st) = true) ->
        goes_round h (round_start h k st) = false ->
        out = Monitor.Exited Monitor.EXIT_FAILURE
        /\ sleeps (trace r) = repeat (Cli.loop_delay mm) k
        /\ List.length (outputs (trace r))
           = (if reading_ok h (round_start h k st) then S k else k)
        /\ exists tr, calls (trace r) = tr ++ [call_soft_reset; call_TWI_close]).
Proof.
  induction fuel as [| fuel IH]; intros lloop mm s w n Hpos Hn; cbv zeta.
  - assert (n = 0%nat) as ->.
    { destruct (Cli.loop mm >? 0); [destruct Hn as (_ & _ & Hle); lia | exact Hn]. }
    split; [| intros k Hk; lia].
    intros _. cbn [Monitor.main_loop_from].
    rewrite (proj2 (Z.gtb_lt lloop 0) Hpos).
    destruct (Z.gtb_spec (Cli.loop mm) 0) as [Hc | Hc].
    + destruct Hn as (Hr & Hz & _). lia.
    + cbn. auto.
  - destruct (main_loop_from_round h fuel lloop mm s w Hpos) as [Hgo Hstop].
    cbv zeta in Hgo, Hstop.
    destruct n as [| n].
    { destruct (Z.gtb_spec (Cli.loop mm) 0) as [Hc | Hc];
        [destruct Hn as (Hr & Hz & _); lia | discriminate Hn]. }
    split.
    + intros Hall.
      destruct (Hgo (Hall 0%nat ltac:(lia))) as (tr & o & Hq & Hrun).
      rewrite Hrun. clear Hrun.
      pose proof (next_round_options h (mm, s, w)) as Hopt. cbn [fst] in Hopt.
      destruct (next_round h (mm, s, w)) as [[mm1 s1] w1] eqn:Hnext.
      cbn [fst] in Hopt. destruct (options_loop mm mm1 Hopt) as [Hl1 Hd1].
      specialize (IH (if Cli.loop mm >? 0 then C.uint16 (lloop - 1) else lloop) mm1 s1 w1 n).
      cbv zeta in IH. rewrite Hl1, Hd1 in IH.
      destruct (Z.gtb_spec (Cli.loop mm) 0) as [Hc | Hc].
      * destruct Hn as (Hr & Hz & Hle).
        assert (Hdec : C.uint16 (lloop - 1) = lloop - 1)
          by (unfold C.uint16; apply Z.mod_small; lia).
        rewrite Hdec in *.
        destruct n as [| n'].
        { assert (lloop = 1) by lia. subst lloop. cbn [Z.sub Z.add Z.opp Z.pos_sub].
          change (1 - 1) with 0. destruct fuel; cbn [Monitor.main_loop_from Z.gtb Z.compare run];
          cbn [result trace world fst snd final_state round_start];
          destruct Hq as [Hqs Hqo];
          rewrite sleeps_app, outputs_app, Hqs, Hqo; cbn; auto. }
        destruct (IH ltac:(lia) ltac:(repeat split; lia)) as [IHall _].
        destruct (run h (Monitor.main_loop_from fuel (lloop - 1) mm1 s1) w1)
          as [[[[out mm2] s2] w2] tr2].
        cbn [result trace world fst snd final_state] in IHall |- *.
        destruct IHall as (Hout & Hfin & Hsl & Hou).
        { intros k Hk. specialize (Hall (S k) ltac:(lia)).
          cbn [round_start] in Hall. rewrite Hnext in Hall. exact Hall. }
        destruct Hq as [Hqs Hqo].
        rewrite sleeps_app, outputs_app, Hqs, Hqo.
        cbn [app sleeps outputs flat_map sleep_of output_of round_start].
        change (flat_map sleep_of tr2) with (sleeps tr2).
        change (flat_map output_of tr2) with (outputs tr2).
        cbn [List.length]. rewrite Hnext, Hsl, Hou. cbn [repeat]. auto.
      * assert (n = fuel) by lia. subst n.
        destruct (IH Hpos eq_refl) as [IHall _].
        destruct (run h (Monitor.main_loop_from fuel lloop mm1 s1) w1)
          as [[[[out mm2] s2] w2] tr2].
        cbn [result trace world fst snd final_state] in IHall |- *.
        destruct IHall as (Hout & Hfin & Hsl & Hou).
        { intros k Hk. specialize (Hall (S k) ltac:(lia)).
          cbn [round_start] in Hall. rewrite Hnext in Hall. exact Hall. }
        destruct Hq as [Hqs Hqo].
        rewrite sleeps_app, outputs_app, Hqs, Hqo.
        cbn [app sleeps outputs flat_map sleep_of output_of round_start].
        change (flat_map sleep_of tr2) with (sleeps tr2).
        change (flat_map output_of tr2) with (outputs tr2).
        cbn [List.length]. rewrite Hnext, Hsl, Hou. cbn [repeat]. auto.
    + intros k Hk Hbefore Hfail.
      destruct k as [| k].
      { cbn [round_start] in Hfail |- *. exact (Hstop Hfail). }
      destruct (Hgo (Hbefore 0%nat ltac:(lia))) as (tr & o & Hq & Hrun).
      rewrite Hrun. clear Hrun.
      pose proof (next_round_options h (mm, s, w)) as Hopt. cbn [fst] in Hopt.
      destruct (next_round h (mm, s, w)) as [[mm1 s1] w1] eqn:Hnext.
      cbn [fst] in Hopt. destruct (options_loop mm mm1 Hopt) as [Hl1 Hd1].
      specialize (IH (if Cli.loop mm >? 0 then C.uint16 (lloop - 1) else lloop) mm1 s1 w1 n).
      cbv zeta in IH. rewrite Hl1, Hd1 in IH.
      assert (IH' : 0 < (if Cli.loop mm >? 0 then C.uint16 (lloop - 1) else lloop)
                    /\ (if Cli.loop mm >? 0
                        then 0 < (if Cli.loop mm >? 0 then C.uint16 (lloop - 1) else lloop)
                                 < 2 ^ 16
                             /\ n = Z.to_nat (if Cli.loop mm >? 0 then C.uint16 (lloop - 1)
                                              else lloop)
                             /\ (n <= fuel)%nat
                        else n = fuel)).
      { destruct (Z.gtb_spec (Cli.loop mm) 0) as [Hc | Hc].
        - destruct Hn as (Hr & Hz & Hle).
          assert (Hdec : C.uint16 (lloop - 1) = lloop - 1)
            by (unfold C.uint16; apply Z.mod_small; lia).
          rewrite Hdec. repeat split; lia.
        - split; [exact Hpos | lia]. }
      destruct IH' as [Hp' Hn'].
      destruct (IH Hp' Hn') as [_ IHstop].
      specialize (IHstop k ltac:(lia)).
      cbn [round_start] in Hfail, Hbefore |- *.
      destruct (run h (Monitor.main_loop_from fuel _ mm1 s1) w1)
        as [[[[out mm2] s2] w2] tr2].
      cbn [result trace world fst snd final_state] in IHstop |- *.
      destruct IHstop as (Hout & Hsl & Hou & trc & Hcalls).
      { intros j Hj. specialize (Hbefore (S j) ltac:(lia)).
        cbn [round_start] in Hbefore. rewrite Hnext in Hbefore. exact Hbefore. }
      { rewrite Hnext in Hfail. exact Hfail. }
      destruct Hq as [Hqs Hqo].
      rewrite sleeps_app, outputs_app, Hqs, Hqo.
      cbn [app sleeps outputs flat_map sleep_of output_of].
      change (flat_map sleep_of tr2) with (sleeps tr2).
      change (flat_map output_of tr2) with (outputs tr2).
      cbn [List.length]. rewrite Hnext, Hsl, Hou. cbn [repeat].
      split; [exact Hout |]. split; [reflexivity |].
      split; [destruct (reading_ok h (round_start h k (mm1, s1, w1))); reflexivity |].
      exists (calls tr ++ call_do_output_values :: call_sleep (Cli.loop_delay mm) :: trc).
      unfold calls in *. rewrite map_app. cbn [map call_of].
      rewrite Hcalls, <- app_assoc. reflexivity.
Qed.

(** Among the first [n] rounds either all go round, or there is a first
    one that does not. *)
Lemma first_round_that_stops (p : nat -> bool) (n : nat) :
  (forall k, (k < n)%nat -> p k = true)
  \/ (exists k, (k < n)%nat /\ (forall j, (j < k)%nat -> p j = true) /\ p k = false).
Proof.
  induction n as [| n [Hall | (k & Hk & Hbefore & Hstop)]].
  - left. intros k Hk. lia.
  - destruct (p n) eqn:Hn.
    + left. intros k Hk. destruct (Nat.eq_dec k n) as [-> | Hne]; [exact Hn |].
      apply Hall. lia.
    + right. exists n. split; [lia |]. split; [| exact Hn].
      intros j Hj. apply Hall. exact Hj.
  - right. exists k. split; [lia |]. split; assumption.
Qed.

(** X15: with a loop count n between 1 and 65535, main_loop ends within n
    rounds in every environment.  It returns exactly when in each of the n
    rounds the reading and the output succeed; it then leaves what n rounds
    leave, after n outputs and n sleeps of the loop delay.  Otherwise the
    first round whose reading returns false or whose output returns false
    ends the process with EXIT_FAILURE: after the sleeps of the rounds
    before it, without an output when the reading failed, and with the
    sensor reset and the bus close as its last calls.  The process exits for
    no other reason. *)
Theorem main_loop_runs_the_requested_count
  {W : Type} (h : env W) (w : W) (fuel : nat) (mm : Cli.measure) (s : rasp_BME680)
  (Hcount : 0 < Cli.loop mm < 2 ^ 16)
  (Hfuel : (Z.to_nat (Cli.loop mm) <= fuel)%nat) :
  let r := run h (Monitor.main_loop fuel mm s) w in
  let out := fst (fst (result r)) in
  let n := Z.to_nat (Cli.loop mm) in
  let st := (mm, s, w) in
  out <> Monitor.Unfinished
  /\ (out = Monitor.Finished
      <-> forall k, (k < n)%nat -> goes_round h (round_start h k st) = true)
  /\ (out = Monitor.Finished ->
      final_state r = round_start h n st
      /\ sleeps (trace r) = repeat (Cli.loop_delay mm) n
      /\ List.length (outputs (trace r)) = n)
  /\ (forall k, (k < n)%nat ->
      (forall j, (j < k)%nat -> goes_round h (round_start h j st) = true) ->
      goes_round h (round_start h k st) = false ->
      out = Monitor.Exited Monitor.EXIT_FAILURE
      /\ sleeps (trace r) = repeat (Cli.loop_delay mm) k
      /\ List.length (outputs (trace r))
         = (if reading_ok h (round_start h k st) then S k else k)
      /\ exists tr, calls (trace r) = tr ++ [call_soft_reset; call_TWI_close])
  /\ (forall val, out = Monitor.Exited val ->
      val = Monitor.EXIT_FAILURE
      /\ exists k, (k < n)%nat
           /\ (forall j, (j < k)%nat -> goes_round h (round_start h j st) = true)
           /\ goes_round h (round_start h k st) = false).
Proof.
  cbv zeta. unfold Monitor.main_loop.
  pose proof (main_loop_from_rounds h fuel (C.uint16 (Cli.loop mm)) mm s w
                (Z.to_nat (Cli.loop mm))) as H.
  cbv zeta in H.
  rewrite (proj2 (Z.gtb_lt _ _) (proj1 Hcount)) in H |- *.
  assert (Hu : C.uint16 (Cli.loop mm) = Cli.loop mm)
    by (unfold C.uint16; apply Z.mod_small; lia).
  rewrite Hu in H |- *.
  destruct (H ltac:(lia) ltac:(repeat split; lia)) as [Hall Hstop]. clear H.
  set (r := run h (Monitor.main_loop_from fuel (Cli.loop mm) mm s) w) in *.
  destruct (first_round_that_stops
              (fun k => goes_round h (round_start h k (mm, s, w)))
              (Z.to_nat (Cli.loop mm)))
    as [Hgo | (k & Hk & Hbefore & Hfail)].
  - destruct (Hall Hgo) as (Hout & Hfin & Hsl & Hou).
    split; [rewrite Hout; discriminate |].
    split; [split; [intros _; exact Hgo | intros _; exact Hout] |].
    split; [intros _; auto |].
    split; [exact Hstop |].
    intros val Hval. rewrite Hout in Hval. discriminate Hval.
  - destruct (Hstop k Hk Hbefore Hfail) as (Hout & Hsl & Hou & Hcalls).
    split; [rewrite Hout; discriminate |].
    split.
    { split; [intros Hf; rewrite Hout in Hf; discriminate Hf |].
      intros Hgo. rewrite (Hgo k Hk) in Hfail. discriminate Hfail. }
    split; [intros Hf; rewrite Hout in Hf; discriminate Hf |].
    split; [exact Hstop |].
    intros val Hval. rewrite Hout in Hval. injection Hval as <-.
    split; [reflexivity |]. exists k. auto.
Qed.

(** X16: with the loop count 0 (the default, "endless") main_loop never
    returns to its caller.  However many rounds the model is given, the
    loop is still going after them exactly when in each of them the reading
    and the output succeeded, with one output and one sleep of the loop delay
    per round; otherwise the first round whose reading or output returns
    false ended the process with EXIT_FAILURE, and the process exits for no
    other reason.  The closeout(EXIT_SUCCESS) after main_loop is reached
    only with a loop count. *)
Theorem main_loop_is_endless_without_a_count
  {W : Type} (h : env W) (w : W) (fuel : nat) (mm : Cli.measure) (s : rasp_BME680)
  (Hnone : Cli.loop mm = 0) :
  let r := run h (Monitor.main_loop fuel mm s) w in
  let out := fst (fst (result r)) in
  let st := (mm, s, w) in
  out <> Monitor.Finished
  /\ (out = Monitor.Unfinished
      <-> forall k, (k < fuel)%nat -> goes_round h (round_start h k st) = true)
  /\ (out = Monitor.Unfinished ->
      final_state r = round_start h fuel st
      /\ sleeps (trace r) = repeat (Cli.loop_delay mm) fuel
      /\ List.length (outputs (trace r)) = fuel)
  /\ (forall k, (k < fuel)%nat ->
      (forall j, (j < k)%nat -> goes_round h (round_start h j st) = true) ->
      goes_round h (round_start h k st) = false ->
      out = Monitor.Exited Monitor.EXIT_FAILURE
      /\ sleeps (trace r) = repeat (Cli.loop_delay mm) k
      /\ List.length (outputs (trace r))
         = (if reading_ok h (round_start h k st) then S k else k)
      /\ exists tr, calls (trace r) = tr ++ [call_soft_reset; call_TWI_close])
  /\ (forall val, out = Monitor.Exited val ->
      val = Monitor.EXIT_FAILURE
      /\ exists k, (k < fuel)%nat
           /\ (forall j, (j < k)%nat -> goes_round h (round_start h j st) = true)
           /\ goes_round h (round_start h k st) = false).
Proof.
  cbv zeta. unfold Monitor.main_loop.
  pose proof (main_loop_from_rounds h fuel 1 mm s w fuel) as H.
  cbv zeta in H.
  rewrite Hnone in H |- *. cbn [Z.gtb Z.compare] in H |- *.
  destruct (H ltac:(lia) eq_refl) as [Hall Hstop]. clear H.
  set (r := run h (Monitor.main_loop_from fuel 1 mm s) w) in *.
  destruct (first_round_that_stops
              (fun k => goes_round h (round_start h k (mm, s, w))) fuel)
    as [Hgo | (k & Hk & Hbefore & Hfail)].
  - destruct (Hall Hgo) as (Hout & Hfin & Hsl & Hou).
    split; [rewrite Hout; discriminate |].
    split; [split; [intros _; exact Hgo | intros _; exact Hout] |].
    split; [intros _; auto |].
    split; [exact Hstop |].
    intros val Hval. rewrite Hout in Hval. discriminate Hval.
  - destruct (Hstop k Hk Hbefore Hfail) as (Hout & Hsl & Hou & Hcalls).
    split; [rewrite Hout; discriminate |].
    split.
    { split; [intros Hf; rewrite Hout in Hf; discriminate Hf |].
      intros Hgo. rewrite (Hgo k Hk) in Hfail. discriminate Hfail. }
    split; [intros Hf; rewrite Hout in Hf; discriminate Hf |].
    split; [exact Hstop |].
    intros val Hval. rewrite Hout in Hval. injection Hval as <-.
    split; [reflexivity |]. exists k. auto.
Qed.

End OneReading.

(** X15 with the loop count 2 on the healthy device. *)
Lemma main_loop_runs_the_requested_count_witness :
  fst (fst (result (run mock_env
                      (Monitor.main_loop (D := Bosch.v3_5_9) (M := libm_stub) 2
                         (with_loop 2 mm_init) configured)
                      (healthy (sample 0x90 2150 50000) [1000; 1001]))))
  <> Monitor.Unfinished.
Proof.
  refine (proj1 (main_loop_runs_the_requested_count (D := Bosch.v3_5_9) (M := libm_stub)
                   mock_env (healthy (sample 0x90 2150 50000) [1000; 1001]) 2
                   (with_loop 2 mm_init) configured _ _)).
  - cbn. lia.
  - cbn. lia.
Defined.

(** X16 with the monitor's defaults on the healthy device. *)
Lemma main_loop_is_endless_without_a_count_witness :
  fst (fst (result (run mock_env
                      (Monitor.main_loop (D := Bosch.v3_5_9) (M := libm_stub) 3
                         mm_init configured)
                      (healthy (sample 0x90 2150 50000) [1000; 1001]))))
  <> Monitor.Finished.
Proof.
  exact (proj1 (main_loop_is_endless_without_a_count (D := Bosch.v3_5_9) (M := libm_stub)
                  mock_env (healthy (sample 0x90 2150 50000) [1000; 1001]) 3
                  mm_init configured eq_refl)).
Defined.

(** Two rounds on the healthy device: two outputs, two sleeps of 5 s, and
    main_loop returns. *)
Example main_loop_two_rounds :
  let r := run mock_env
             (Monitor.main_loop (D := Bosch.v3_5_9) (M := libm_stub) 2
                (with_loop 2 mm_init) configured)
             (healthy (sample 0x90 2150 50000) [1000; 1001]) in
  fst (fst (result r)) = Monitor.Finished /\ sleeps (trace r) = [5; 5].
Proof. cbv zeta. vm_compute. split; reflexivity. Qed.

(** ** The monitor: startup *)

Lemma getOversample_zero (opt : Z) :
  In (C.uint8 opt) os_options ->
  (Cli.getOversample opt =? Bosch.BME680_OS_NONE) = (C.uint8 opt =? 0).
Proof.
  unfold os_options, Cli.getOversample. cbn [In].
  intros [H | [H | [H | [H | [H | [H | []]]]]]]; rewrite <- H; reflexivity.
Qed.

Lemma getfilter_zero (opt : Z) :
  In (C.uint8 opt) filter_options ->
  (Cli.getfilter opt =? Bosch.BME680_FILTER_SIZE_0) = (C.uint8 opt =? 0).
Proof.
  unfold filter_options, Cli.getfilter. cbn [In].
  intros [H | [H | [H | [H | [H | [H | [H | [H | []]]]]]]]]; rewrite <- H; reflexivity.
Qed.

Lemma os_option_dec (opt : Z) :
  (In (C.uint8 opt) os_options /\ (Cli.getOversample opt >? Bosch.BME680_OS_16X) = false)
  \/ (~ In (C.uint8 opt) os_options /\ (Cli.getOversample opt >? Bosch.BME680_OS_16X) = true).
Proof.
  pose proof (getOversample_accepted opt) as Hiff. fold os_options in Hiff.
  destruct (Cli.getOversample opt >? Bosch.BME680_OS_16X).
  - right. split; [| reflexivity]. intros Hin. apply Hiff in Hin. discriminate Hin.
  - left. split; [apply Hiff; reflexivity | reflexivity].
Qed.

Lemma filter_option_dec (opt : Z) :
  (In (C.uint8 opt) filter_options
   /\ (Cli.getfilter opt >? Bosch.BME680_FILTER_SIZE_127) = false)
  \/ (~ In (C.uint8 opt) filter_options
      /\ (Cli.getfilter opt >? Bosch.BME680_FILTER_SIZE_127) = true).
Proof.
  pose proof (getfilter_accepted opt) as Hiff. fold filter_options in Hiff.
  destruct (Cli.getfilter opt >? Bosch.BME680_FILTER_SIZE_127).
  - right. split; [| reflexivity]. intros Hin. apply Hiff in Hin. discriminate Hin.
  - left. split; [apply Hiff; reflexivity | reflexivity].
Qed.

Lemma setHumidityOversampling_option (opt : Z) (s : rasp_BME680) :
  fst (setHumidityOversampling (Cli.getOversample opt) s) = true
  <-> In (C.uint8 opt) os_options.
Proof.
  unfold setHumidityOversampling. rewrite uint8_getOversample.
  destruct (os_option_dec opt) as [[Hin ->] | [Hin ->]].
  - destruct (_ =? _); cbn [fst]; tauto.
  - cbn [fst]. split; [discriminate | contradiction].
Qed.

Lemma setTemperatureOversampling_option (opt : Z) (s : rasp_BME680) :
  fst (setTemperatureOversampling (Cli.getOversample opt) s) = true
  <-> In (C.uint8 opt) os_options.
Proof.
  unfold setTemperatureOversampling. rewrite uint8_getOversample.
  destruct (os_option_dec opt) as [[Hin ->] | [Hin ->]].
  - destruct (_ =? _); cbn [fst]; tauto.
  - cbn [fst]. split; [discriminate | contradiction].
Qed.

Lemma setPressureOversampling_option (opt : Z) (s : rasp_BME680) :
  fst (setPressureOversampling (Cli.getOversample opt) s) = true
  <-> In (C.uint8 opt) os_options.
Proof.
  unfold setPressureOversampling. rewrite uint8_getOversample.
  destruct (os_option_dec opt) as [[Hin ->] | [Hin ->]].
  - destruct (_ =? _); cbn [fst]; tauto.
  - cbn [fst]. split; [discriminate | contradiction].
Qed.

Lemma setIIRFilterSize_option (opt : Z) (s : rasp_BME680) :
  fst (setIIRFilterSize (Cli.getfilter opt) s) = true
  <-> In (C.uint8 opt) filter_options.
Proof.
  unfold setIIRFilterSize. rewrite uint8_getfilter.
  destruct (filter_option_dec opt) as [[Hin ->] | [Hin ->]].
  - destruct (_ =? _); cbn [fst]; tauto.
  - cbn [fst]. split; [discriminate | contradiction].
Qed.

Lemma not_true_false (b : bool) (P : Prop) : (b = true <-> P) -> b = false -> ~ P.
Proof. intros Hiff Hb HP. apply Hiff in HP. congruence. Qed.

Section Startup.

Context {D : Bosch.defs}.

Lemma setGasHeater_succeeds (heaterTemp heaterTime : Z) (s : rasp_BME680) :
  fst (setGasHeater heaterTemp heaterTime s) = true.
Proof. unfold setGasHeater. destruct (_ || _); reflexivity. Qed.

(** The object after the five setter calls of init_hardware, when the four
    option values are valid. *)
Lemma five_setters (b : Cli.bmeval) (s : rasp_BME680) :
  valid_options b ->
  let s1 := snd (setHumidityOversampling (Cli.getOversample (Cli.overSampleH b)) s) in
  let s2 := snd (setTemperatureOversampling (Cli.getOversample (Cli.overSampleT b)) s1) in
  let s3 := snd (setPressureOversampling (Cli.getOversample (Cli.overSampleP b)) s2) in
  let s4 := snd (setIIRFilterSize (Cli.getfilter (Cli.filter b)) s3) in
  let s5 := snd (setGasHeater (Cli.heaterT b) (Cli.heaterM b) s4) in
  configured_by b s s5.
Proof.
  intros (HH & HT & HP & HF). cbv zeta.
  unfold setHumidityOversampling, setTemperatureOversampling, setPressureOversampling,
    setIIRFilterSize, setGasHeater, configured_by.
  rewrite !uint8_getOversample, uint8_getfilter.
  destruct (os_option_dec (Cli.overSampleH b)) as [[_ ->] | [Hn _]]; [| contradiction].
  destruct (os_option_dec (Cli.overSampleT b)) as [[_ ->] | [Hn _]]; [| contradiction].
  destruct (os_option_dec (Cli.overSampleP b)) as [[_ ->] | [Hn _]]; [| contradiction].
  destruct (filter_option_dec (Cli.filter b)) as [[_ ->] | [Hn _]]; [| contradiction].
  rewrite !getOversample_zero, getfilter_zero by assumption.
  open_session s.
  destruct (C.uint8 (Cli.overSampleH b) =? 0), (C.uint8 (Cli.overSampleT b) =? 0),
    (C.uint8 (Cli.overSampleP b) =? 0), (C.uint8 (Cli.filter b) =? 0),
    ((C.uint16 (Cli.heaterT b) =? 0) || (C.uint16 (Cli.heaterM b) =? 0));
    repeat split; reflexivity.
Qed.

Lemma closeout_calls {W : Type} (h : env W) (w : W) (val : Z) (s : rasp_BME680) :
  fst (result (run h (Monitor.closeout val s) w)) = val
  /\ calls (trace (run h (Monitor.closeout val s) w)) = [call_soft_reset; call_TWI_close].
Proof.
  unfold Monitor.closeout. cbn [bind trigger run].
  destruct (h _ (bme680_soft_reset _) w) as [[rslt dev] w1].
  cbn [bind trigger run].
  destruct (h _ TWI_close w1) as [[] w2].
  split; reflexivity.
Qed.

Lemma exit_after_closeout {W : Type} (h : env W) (w : W) (s : rasp_BME680) :
  let r := run h (bind (Monitor.closeout Monitor.EXIT_FAILURE s)
                    (fun x => let '(val, s) := x in Ret (Some val, s))) w in
  fst (result r) = Some Monitor.EXIT_FAILURE
  /\ calls (trace r) = [call_soft_reset; call_TWI_close].
Proof.
  cbv zeta. rewrite run_bind.
  destruct (closeout_calls h w Monitor.EXIT_FAILURE s) as [Hval Hcalls].
  destruct (run h (Monitor.closeout Monitor.EXIT_FAILURE s) w) as [[[val s1] w1] tr1].
  cbn [result trace fst snd run] in *. rewrite app_nil_r, Hval. auto.
Qed.

Ltac exit_after_closeout_at h w s :=
  let Hval := fresh "Hval" in
  let Hcalls := fresh "Hcalls" in
  destruct (exit_after_closeout h w s) as [Hval Hcalls];
  cbv zeta in Hval, Hcalls;
  split; [split; [intros Hnone; rewrite Hnone in Hval; discriminate Hval
                 | intros (HH & HT & HP & HF); contradiction] |];
  split; [intros val Hv; rewrite Hv in Hval; injection Hval as ->; reflexivity |];
  split; [intros _; exact Hcalls |];
  intros Hnone; rewrite Hnone in Hval; discriminate Hval.

(** The setter calls of init_hardware, once begin() has succeeded and left
    the object [s0]. *)
Lemma init_hardware_settings {W : Type} (h : env W) (w : W) (b : Cli.bmeval)
  (s0 : rasp_BME680) :
  let r :=
    run h
      (let '(ok, s) := setHumidityOversampling (Cli.getOversample (Cli.overSampleH b)) s0 in
       if Bool.eqb ok false then
         bind (Monitor.closeout Monitor.EXIT_FAILURE s)
           (fun x => let '(val, s) := x in Ret (Some val, s))
       else
         let '(ok, s) :=
           setTemperatureOversampling (Cli.getOversample (Cli.overSampleT b)) s in
         if Bool.eqb ok false then
           bind (Monitor.closeout Monitor.EXIT_FAILURE s)
             (fun x => let '(val, s) := x in Ret (Some val, s))
         else
           let '(ok, s) :=
             setPressureOversampling (Cli.getOversample (Cli.overSampleP b)) s in
           if Bool.eqb ok false then
             bind (Monitor.closeout Monitor.EXIT_FAILURE s)
               (fun x => let '(val, s) := x in Ret (Some val, s))
           else
             let '(ok, s) := setIIRFilterSize (Cli.getfilter (Cli.filter b)) s in
             if Bool.eqb ok false then
               bind (Monitor.closeout Monitor.EXIT_FAILURE s)
                 (fun x => let '(val, s) := x in Ret (Some val, s))
             else
               let '(ok, s) := setGasHeater (Cli.heaterT b) (Cli.heaterM b) s in
               if Bool.eqb ok false then
                 bind (Monitor.closeout Monitor.EXIT_FAILURE s)
                   (fun x => let '(val, s) := x in Ret (Some val, s))
               else Ret (None, s)) w in
  (fst (result r) = None <-> valid_options b)
  /\ (forall val, fst (result r) = Some val -> val = Monitor.EXIT_FAILURE)
  /\ (~ valid_options b -> calls (trace r) = [call_soft_reset; call_TWI_close])
  /\ (fst (result r) = None -> trace r = [] /\ configured_by b s0 (snd (result r))).
Proof.
  cbv zeta. unfold valid_options.
  pose proof (five_setters b s0) as Hfive. cbv zeta in Hfive. unfold valid_options in Hfive.
  pose proof (setHumidityOversampling_option (Cli.overSampleH b) s0) as H1.
  destruct (setHumidityOversampling (Cli.getOversample (Cli.overSampleH b)) s0)
    as [ok1 s1].
  cbn [fst snd] in H1, Hfive.
  destruct ok1; cbn [Bool.eqb].
  2: { pose proof (not_true_false _ _ H1 eq_refl). exit_after_closeout_at h w s1. }
  pose proof (setTemperatureOversampling_option (Cli.overSampleT b) s1) as H2.
  destruct (setTemperatureOversampling (Cli.getOversample (Cli.overSampleT b)) s1)
    as [ok2 s2].
  cbn [fst snd] in H2, Hfive.
  destruct ok2; cbn [Bool.eqb].
  2: { pose proof (not_true_false _ _ H2 eq_refl). exit_after_closeout_at h w s2. }
  pose proof (setPressureOversampling_option (Cli.overSampleP b) s2) as H3.
  destruct (setPressureOversampling (Cli.getOversample (Cli.overSampleP b)) s2)
    as [ok3 s3].
  cbn [fst snd] in H3, Hfive.
  destruct ok3; cbn [Bool.eqb].
  2: { pose proof (not_true_false _ _ H3 eq_refl). exit_after_closeout_at h w s3. }
  pose proof (setIIRFilterSize_option (Cli.filter b) s3) as H4.
  destruct (setIIRFilterSize (Cli.getfilter (Cli.filter b)) s3) as [ok4 s4].
  cbn [fst snd] in H4, Hfive.
  destruct ok4; cbn [Bool.eqb].
  2: { pose proof (not_true_false _ _ H4 eq_refl). exit_after_closeout_at h w s4. }
  pose proof (setGasHeater_succeeds (Cli.heaterT b) (Cli.heaterM b) s4) as H5.
  destruct (setGasHeater (Cli.heaterT b) (Cli.heaterM b) s4) as [ok5 s5].
  cbn [fst snd] in H5, Hfive. subst ok5. cbn [Bool.eqb run result trace fst snd].
  assert (Hvalid : In (C.uint8 (Cli.overSampleH b)) os_options
                   /\ In (C.uint8 (Cli.overSampleT b)) os_options
                   /\ In (C.uint8 (Cli.overSampleP b)) os_options
                   /\ In (C.uint8 (Cli.filter b)) filter_options)
    by (repeat split; [apply H1 | apply H2 | apply H3 | apply H4]; reflexivity).
  split; [split; [intros _; exact Hvalid | reflexivity] |].
  split; [discriminate |].
  split; [intros Hno; contradiction |].
  intros _. split; [reflexivity | exact (Hfive Hvalid)].
Qed.

(** X17: init_hardware returns to its caller exactly when the process may
    use the bus (software I2C, or user id 0 for hardware I2C), begin()
    succeeds and the four option values are ones the tables getOversample
    and getfilter know; in every other case the process exits with
    EXIT_FAILURE.  Without permission it exits before anything is touched;
    when begin() fails it exits without resetting the sensor or closing the
    bus; on a rejected option value it exits through closeout, which resets
    the sensor and closes the bus.  When it returns, no driver call was
    made by the setters and the object carries the options: the defaults of
    begin() are all replaced (oversampling, filter, heater profile and the
    five enable flags follow the option values alone), while the power mode,
    the cached readings and the deadline are those begin() left.  The test
    of setGasHeater's result never fires. *)
Theorem init_hardware_accepts_valid_options
  {W : Type} (h : env W) (w : W) (hard_I2C : bool) (I2Csettings : Setup.bmeI2C_p)
  (geteuid twi_begin : Z) (bme680_init : Bosch.bme680_dev -> Z * Bosch.bme680_dev)
  (mm : Cli.measure) (s : rasp_BME680) :
  let r := run h (Setup.init_hardware hard_I2C I2Csettings geteuid twi_begin
                    bme680_init mm s) w in
  let permitted :=
    negb (Bool.eqb (Setup.I2C_interface I2Csettings) hard_I2C) || (geteuid =? 0) in
  let begun := begin twi_begin bme680_init s in
  (fst (result r) = None
   <-> permitted = true /\ fst begun = true /\ valid_options (Cli.bme mm))
  /\ (forall val, fst (result r) = Some val -> val = Monitor.EXIT_FAILURE)
  /\ (permitted = false -> r = ((Some Monitor.EXIT_FAILURE, s), w, []))
  /\ (permitted = true -> fst begun = false ->
      r = ((Some Monitor.EXIT_FAILURE, snd begun), w, []))
  /\ (permitted = true -> fst begun = true -> ~ valid_options (Cli.bme mm) ->
      calls (trace r) = [call_soft_reset; call_TWI_close])
  /\ (fst (result r) = None ->
      trace r = [] /\ configured_by (Cli.bme mm) (snd begun) (snd (result r))).
Proof.
  cbv zeta. unfold Setup.init_hardware.
  assert (Hperm : Bool.eqb (Setup.I2C_interface I2Csettings) hard_I2C && negb (geteuid =? 0)
                  = negb (negb (Bool.eqb (Setup.I2C_interface I2Csettings) hard_I2C)
                          || (geteuid =? 0)))
    by (destruct (Bool.eqb _ _), (geteuid =? 0); reflexivity).
  rewrite Hperm. clear Hperm.
  destruct (negb (Bool.eqb (Setup.I2C_interface I2Csettings) hard_I2C) || (geteuid =? 0));
    cbn [negb].
  2: { cbn [run result trace fst snd].
       split; [split; [discriminate | intros [Hp _]; discriminate Hp] |].
       split; [intros val Hv; injection Hv as <-; reflexivity |].
       split; [reflexivity |].
       split; [discriminate |]. split; [discriminate | discriminate]. }
  destruct (begin twi_begin bme680_init s) as [ok s0]. cbn [fst snd].
  destruct ok; cbn [Bool.eqb negb].
  2: { cbn [run result trace fst snd].
       split; [split; [discriminate | intros (_ & Hp & _); discriminate Hp] |].
       split; [intros val Hv; injection Hv as <-; reflexivity |].
       split; [discriminate |].
       split; [reflexivity |]. split; [intros _ Hb; discriminate Hb | discriminate]. }
  pose proof (init_hardware_settings h w (Cli.bme mm) s0) as Hset. cbv zeta in Hset.
  destruct Hset as (Hiff & Hval & Hexit & Hdone).
  split; [rewrite Hiff; tauto |].
  split; [exact Hval |].
  split; [discriminate |].
  split; [intros _ Hb; discriminate Hb |].
  split; [intros _ _; exact Hexit | exact Hdone].
Qed.

(** X18: the option values that init_variables sets are accepted.
    Whatever the variables and the object held before, init_hardware on
    them returns to its caller as soon as the process may use the bus and
    begin() succeeds, and leaves all five channels enabled: oversampling
    16x for temperature, 8x for humidity and pressure, filter size 7 and
    the heater at 300 C for 150 ms.  The defaults also leave the loop count
    at 0 and the loop delay at 5 seconds. *)
Theorem default_options_start_the_sensor
  {W : Type} (h : env W) (w : W) (hard_I2C soft_I2C : bool)
  (I2Csettings : Setup.bmeI2C_p) (mm0 : Cli.measure)
  (geteuid twi_begin : Z) (bme680_init : Bosch.bme680_dev -> Z * Bosch.bme680_dev)
  (s : rasp_BME680) :
  let init := Setup.init_variables soft_I2C I2Csettings mm0 in
  let r := run h (Setup.init_hardware hard_I2C (fst init) geteuid twi_begin
                    bme680_init (snd init) s) w in
  let s' := snd (result r) in
  valid_options (Cli.bme (snd init))
  /\ Cli.loop (snd init) = 0
  /\ Cli.loop_delay (snd init) = 5
  /\ (negb (Bool.eqb soft_I2C hard_I2C) || (geteuid =? 0) = true ->
      fst (begin twi_begin bme680_init s) = true ->
      fst (result r) = None
      /\ flags s' = (true, true, true, true, true)
      /\ Bosch.tph_sett (gas_sensor s')
         = {| Bosch.os_hum := Bosch.BME680_OS_8X; Bosch.os_temp := Bosch.BME680_OS_16X;
              Bosch.os_pres := Bosch.BME680_OS_8X;
              Bosch.filter := Bosch.BME680_FILTER_SIZE_7 |}
      /\ Bosch.gas_sett (gas_sensor s')
         = {| Bosch.run_gas := Bosch.BME680_ENABLE_GAS_MEAS;
              Bosch.heatr_temp := 300; Bosch.heatr_dur := 150 |}).
Proof.
  cbv zeta.
  assert (Hvalid : valid_options (Cli.bme (snd (Setup.init_variables soft_I2C I2Csettings mm0)))).
  { unfold valid_options, os_options, filter_options. cbn. tauto. }
  split; [exact Hvalid |]. split; [reflexivity |]. split; [reflexivity |].
  intros Hperm Hbegun.
  pose proof (init_hardware_settings h w
                (Cli.bme (snd (Setup.init_variables soft_I2C I2Csettings mm0)))
                (snd (begin twi_begin bme680_init s))) as Hset.
  cbv zeta in Hset. destruct Hset as (Hiff & _ & _ & Hdone).
  unfold Setup.init_hardware.
  assert (Hp : Bool.eqb (Setup.I2C_interface (fst (Setup.init_variables soft_I2C I2Csettings mm0)))
                 hard_I2C && negb (geteuid =? 0) = false).
  { cbn [Setup.init_variables fst Setup.I2C_interface].
    destruct (Bool.eqb soft_I2C hard_I2C), (geteuid =? 0); try reflexivity.
    discriminate Hperm. }
  rewrite Hp.
  destruct (begin twi_begin bme680_init s) as [ok s0]. cbn [fst snd] in *. subst ok.
  cbn [Bool.eqb negb].
  split; [apply Hiff; exact Hvalid |].
  destruct (Hdone (proj2 Hiff Hvalid)) as (_ & Htph & Hgas & Hflags & _).
  split; [exact Hflags |]. split; [exact Htph | exact Hgas].
Qed.

End Startup.

(** ** The monitor: the output line *)

Section OutputFacts.

Import Strings.Ascii Strings.String.

Variable fmt_2_2f : FP.float -> string.
Variables fmt_u fmt_d : Z -> string.
Variable time_stamp : string.

Lemma string_append_assoc (a b c : string) : ((a ++ b) ++ c = a ++ (b ++ c))%string.
Proof. induction a as [| x a IH]; cbn; [reflexivity | rewrite IH; reflexivity]. Qed.

Lemma string_append_nil_r (a : string) : (a ++ EmptyString = a)%string.
Proof. induction a as [| x a IH]; cbn; [reflexivity | rewrite IH; reflexivity]. Qed.

Lemma last_text_cons (b : Cli.bmeval) (i : Output.item) (l : list Output.item)
  (tm : string) :
  Output.last_text fmt_2_2f fmt_d time_stamp b (i :: l) tm
  = Output.last_text fmt_2_2f fmt_d time_stamp b l
      (Output.item_text fmt_2_2f fmt_d time_stamp b i).
Proof.
  destruct l as [| j l]; [reflexivity |].
  unfold Output.last_text. f_equal.
Qed.

Lemma markup_text_known (c : ascii) (tm : string) :
  Output.is_markup c = true -> Ascii.eqb c Output.backslash = false ->
  Output.markup_text time_stamp c tm = Output.markup_text time_stamp c EmptyString.
Proof.
  unfold Output.is_markup, Output.markup_text. intros Hm Hb. rewrite Hb in Hm.
  destruct (Ascii.eqb c "t"); [reflexivity |].
  destruct (Ascii.eqb c "s"); [reflexivity |].
  destruct (Ascii.eqb c "n"); [reflexivity |].
  destruct (Ascii.eqb c ","); [reflexivity |].
  destruct (Ascii.eqb c ";"); [reflexivity |].
  destruct (Ascii.eqb c "l"); [reflexivity |].
  discriminate Hm.
Qed.

Lemma markup_text_unknown (c : ascii) (tm : string) :
  Output.is_markup c = false -> Output.markup_text time_stamp c tm = tm.
Proof.
  unfold Output.is_markup, Output.markup_text. intros Hm.
  destruct (Ascii.eqb c "t"); [discriminate Hm |].
  destruct (Ascii.eqb c "s"); [discriminate Hm |].
  destruct (Ascii.eqb c "n"); [discriminate Hm |].
  destruct (Ascii.eqb c ","); [discriminate Hm |].
  destruct (Ascii.eqb c ";"); [discriminate Hm |].
  destruct (Ascii.eqb c "l"); [discriminate Hm |].
  reflexivity.
Qed.

Lemma items_cons_inv (i : Output.item) (o : option (list Output.item)) (ts : list Output.item) :
  option_map (cons i) o = Some ts -> exists ts', o = Some ts' /\ ts = i :: ts'.
Proof.
  destruct o as [ts' |]; cbn; [| discriminate].
  intros H. injection H as <-. exists ts'. auto.
Qed.


Lemma nonempty_length (p : string) : p <> EmptyString -> Nat.eqb (String.length p) 0 = false.
Proof. destruct p; [contradiction | reflexivity]. Qed.


(** *** With the arrays *)

Lemma stored_some (size : Z) (t line : string) :
  Buffers.stored size t = Some line <-> line = t /\ Z.of_nat (String.length t) < size.
Proof.
  unfold Buffers.stored, Buffers.has_room.
  destruct (Z.ltb_spec (Z.of_nat (String.length t)) size) as [Hlt | Hge].
  - split; [intros H; injection H as <-; auto | intros [-> _]; reflexivity].
  - split; [discriminate | intros [_ H]; lia].
Qed.

Lemma stored_none (size : Z) (t : string) :
  Buffers.stored size t = None <-> size <= Z.of_nat (String.length t).
Proof.
  unfold Buffers.stored, Buffers.has_room.
  destruct (Z.ltb_spec (Z.of_nat (String.length t)) size) as [Hlt | Hge].
  - split; [discriminate | lia].
  - split; [intros _; exact Hge | reflexivity].
Qed.

(** add_to_buf when the line stays below MAXBUF characters. *)
Lemma add_to_buf_fits (buf buf1 : string) :
  Z.of_nat (String.length buf) + Z.of_nat (String.length buf1) < Output.MAXBUF ->
  Buffers.add_to_buf buf buf1 = Some (buf ++ buf1)%string.
Proof.
  intros H. unfold Buffers.add_to_buf.
  destruct (Z.gtb_spec (Z.of_nat (String.length buf) + Z.of_nat (String.length buf1))
              Output.MAXBUF) as [Hgt | Hle]; [lia |].
  apply stored_some. rewrite string_length_append. split; [reflexivity | lia].
Qed.

(** add_to_buf when the line reaches exactly MAXBUF characters. *)
Lemma add_to_buf_overrun (buf buf1 : string) :
  Z.of_nat (String.length buf) + Z.of_nat (String.length buf1) = Output.MAXBUF ->
  Buffers.add_to_buf buf buf1 = None.
Proof.
  intros H. unfold Buffers.add_to_buf.
  destruct (Z.gtb_spec (Z.of_nat (String.length buf) + Z.of_nat (String.length buf1))
              Output.MAXBUF) as [Hgt | Hle]; [lia |].
  apply stored_none. rewrite string_length_append. lia.
Qed.

(** What add_to_buf leaves has room in [buf] when what it found had. *)
Lemma add_to_buf_room (buf buf1 line : string) :
  Z.of_nat (String.length buf) < Output.MAXBUF ->
  Buffers.add_to_buf buf buf1 = Some line ->
  Z.of_nat (String.length line) < Output.MAXBUF.
Proof.
  intros Hbuf. unfold Buffers.add_to_buf.
  destruct (_ >? _).
  - intros H. injection H as <-. exact Hbuf.
  - intros H. apply stored_some in H. destruct H as [-> H]. exact H.
Qed.

Lemma add_all_app (l1 l2 : list string) :
  forall buf, Buffers.add_all (l1 ++ l2) buf
              = Buffers.bind (Buffers.add_all l1 buf) (Buffers.add_all l2).
Proof.
  induction l1 as [| t l1 IH]; intros buf; [reflexivity |].
  cbn [app Buffers.add_all]. destruct (Buffers.add_to_buf buf t) as [buf' |]; cbn [Buffers.bind];
    [apply IH | reflexivity].
Qed.

Lemma add_all_room (l : list string) :
  forall buf line,
    Z.of_nat (String.length buf) < Output.MAXBUF ->
    Buffers.add_all l buf = Some line ->
    Z.of_nat (String.length line) < Output.MAXBUF.
Proof.
  induction l as [| t l IH]; intros buf line Hbuf H.
  - injection H as <-. exact Hbuf.
  - cbn [Buffers.add_all] in H.
    destruct (Buffers.add_to_buf buf t) as [buf' |] eqn:Hadd; [| discriminate H].
    cbn [Buffers.bind] in H.
    exact (IH buf' line (add_to_buf_room buf t buf' Hbuf Hadd) H).
Qed.

Lemma texts_concat (b : Cli.bmeval) (ts : list Output.item) :
  Output.texts fmt_2_2f fmt_d time_stamp b ts
  = Buffers.concat_texts (map (Output.item_text fmt_2_2f fmt_d time_stamp b) ts).
Proof. induction ts as [| i ts IH]; [reflexivity | cbn; rewrite IH; reflexivity]. Qed.

(** Texts that together stay below MAXBUF characters are all added. *)
Lemma add_all_fits (l : list string) :
  forall buf,
    Z.of_nat (String.length buf) + Z.of_nat (String.length (Buffers.concat_texts l))
    < Output.MAXBUF ->
    Buffers.add_all l buf = Some (buf ++ Buffers.concat_texts l)%string.
Proof.
  induction l as [| t l IH]; intros buf H.
  - cbn. rewrite string_append_nil_r. reflexivity.
  - cbn [Buffers.concat_texts Buffers.add_all] in *. rewrite string_length_append in H.
    rewrite add_to_buf_fits by lia. cbn [Buffers.bind].
    rewrite IH by (rewrite string_length_append; lia).
    rewrite string_append_assoc. reflexivity.
Qed.

Lemma tm_after_cons (b : Cli.bmeval) (i : Output.item) (l : list Output.item)
  (tm : option string) :
  Buffers.tm_after fmt_2_2f fmt_d time_stamp b (i :: l) tm
  = Buffers.tm_after fmt_2_2f fmt_d time_stamp b l
      (Some (Output.item_text fmt_2_2f fmt_d time_stamp b i)).
Proof.
  unfold Buffers.tm_after. rewrite last_text_cons.
  destruct l as [| j l]; [reflexivity |].
  unfold Output.last_text. reflexivity.
Qed.

(** The loop over a prefix that reads as items: their texts are added one
    after the other. *)
Lemma format_loop_items_added (b : Cli.bmeval) (padded : bool) (n : nat) :
  forall pre ts rest tm buf,
    (String.length pre <= n)%nat ->
    Output.items pre = Some ts ->
    Buffers.texts_have_room fmt_2_2f fmt_d time_stamp b ts ->
    Buffers.format_loop fmt_2_2f fmt_u fmt_d time_stamp b padded (pre ++ rest) tm buf
    = Buffers.bind
        (Buffers.add_all (map (Output.item_text fmt_2_2f fmt_d time_stamp b) ts) buf)
        (Buffers.format_loop fmt_2_2f fmt_u fmt_d time_stamp b padded rest
           (Buffers.tm_after fmt_2_2f fmt_d time_stamp b ts tm)).
Proof.
  induction n as [| n IH]; intros pre ts rest tm buf Hn Hitems Hroom.
  - destruct pre; [| cbn in Hn; lia]. cbn in Hitems. injection Hitems as <-.
    reflexivity.
  - destruct pre as [| c p1].
    { cbn in Hitems. injection Hitems as <-. reflexivity. }
    cbn [String.length] in Hn.
    cbn [Output.items] in Hitems.
    change ((String c p1 ++ rest)%string) with (String c (p1 ++ rest)).
    cbn [Buffers.format_loop].
    destruct (Output.is_result c) eqn:Hres.
    { apply items_cons_inv in Hitems. destruct Hitems as (ts' & Hts' & ->).
      inversion Hroom as [| i l Hi Hl]; subst.
      cbn [Output.item_text] in Hi.
      unfold Buffers.stored at 1. rewrite Hi. cbn [Buffers.bind].
      cbn [map Buffers.add_all Output.item_text].
      destruct (Buffers.add_to_buf buf _) as [buf' |]; cbn [Buffers.bind]; [| reflexivity].
      rewrite (IH p1 ts' rest) by (try lia; assumption).
      rewrite tm_after_cons. reflexivity. }
    destruct (Ascii.eqb c Output.backslash) eqn:Hbs; [| discriminate Hitems].
    destruct p1 as [| c1 p2]; [discriminate Hitems |].
    cbn [String.length] in Hn.
    change ((String c1 p2 ++ rest)%string) with (String c1 (p2 ++ rest)).
    cbn [Buffers.format_loop].
    destruct (Ascii.eqb c1 Output.backslash) eqn:Hbs1.
    + destruct p2 as [| c2 p3]; [discriminate Hitems |].
      cbn [String.length] in Hn.
      change ((String c2 p3 ++ rest)%string) with (String c2 (p3 ++ rest)).
      cbn [Buffers.format_loop].
      apply items_cons_inv in Hitems. destruct Hitems as (ts' & Hts' & ->).
      inversion Hroom as [| i l Hi Hl]; subst.
      cbn [Output.item_text] in Hi.
      unfold Buffers.stored at 1. rewrite Hi. cbn [Buffers.bind].
      cbn [map Buffers.add_all Output.item_text].
      destruct (Buffers.add_to_buf buf _) as [buf' |]; cbn [Buffers.bind]; [| reflexivity].
      rewrite (IH p3 ts' rest) by (try lia; assumption).
      rewrite tm_after_cons. reflexivity.
    + destruct (Output.is_markup c1) eqn:Hm; [| discriminate Hitems].
      apply items_cons_inv in Hitems. destruct Hitems as (ts' & Hts' & ->).
      inversion Hroom as [| i l Hi Hl]; subst.
      cbn [Output.item_text] in Hi.
      unfold Buffers.stored at 1. rewrite Hi. cbn [Buffers.bind].
      cbn [map Buffers.add_all Output.item_text].
      destruct (Buffers.add_to_buf buf _) as [buf' |]; cbn [Buffers.bind]; [| reflexivity].
      rewrite (IH p2 ts' rest) by (try lia; assumption).
      rewrite tm_after_cons. reflexivity.
Qed.

(** What the loop leaves has room in [buf] when what it found had. *)
Lemma format_loop_room (b : Cli.bmeval) (padded : bool) (n : nat) :
  forall p tm buf line,
    (String.length p <= n)%nat ->
    Z.of_nat (String.length buf) < Output.MAXBUF ->
    Buffers.format_loop fmt_2_2f fmt_u fmt_d time_stamp b padded p tm buf = Some line ->
    Z.of_nat (String.length line) < Output.MAXBUF.
Proof.
  assert (Hbind : forall (o : option string) (f : string -> option string) line,
             Buffers.bind o f = Some line -> exists x, o = Some x /\ f x = Some line).
  { intros [x |] f line H; [exists x; auto | discriminate H]. }
  assert (Hend : forall buf line,
             Z.of_nat (String.length buf) < Output.MAXBUF ->
             (if padded then Buffers.add_to_buf buf Output.NL else None) = Some line ->
             Z.of_nat (String.length line) < Output.MAXBUF).
  { intros buf line Hb H. destruct padded; [| discriminate H].
    exact (add_to_buf_room _ _ _ Hb H). }
  induction n as [| n IH]; intros p tm buf line Hn Hbuf H.
  - destruct p; [| cbn in Hn; lia]. exact (add_to_buf_room _ _ _ Hbuf H).
  - destruct p as [| c p1]; [exact (add_to_buf_room _ _ _ Hbuf H) |].
    cbn [String.length] in Hn. cbn [Buffers.format_loop] in H.
    destruct (Output.is_result c).
    { apply Hbind in H. destruct H as (t & _ & H).
      apply Hbind in H. destruct H as (buf' & Hadd & H).
      apply (IH p1 (Some t) buf' line); [lia | exact (add_to_buf_room _ _ _ Hbuf Hadd) | exact H]. }
    destruct (Ascii.eqb c Output.backslash).
    2: { apply stored_some in H. destruct H as [-> H]. exact H. }
    destruct p1 as [| c1 p2].
    { apply Hbind in H. destruct H as (t & _ & H).
      apply Hbind in H. destruct H as (buf' & Hadd & H).
      exact (Hend buf' line (add_to_buf_room _ _ _ Hbuf Hadd) H). }
    cbn [String.length] in Hn.
    destruct (Ascii.eqb c1 Output.backslash).
    + destruct p2 as [| c2 p3].
      * apply Hbind in H. destruct H as (buf' & Hadd & H).
        exact (Hend buf' line (add_to_buf_room _ _ _ Hbuf Hadd) H).
      * cbn [String.length] in Hn.
        apply Hbind in H. destruct H as (t & _ & H).
        apply Hbind in H. destruct H as (buf' & Hadd & H).
        apply (IH p3 (Some t) buf' line); [lia | exact (add_to_buf_room _ _ _ Hbuf Hadd) | exact H].
    + apply Hbind in H. destruct H as (t & _ & H).
      apply Hbind in H. destruct H as (buf' & Hadd & H).
      apply (IH p2 (Some t) buf' line); [lia | exact (add_to_buf_room _ _ _ Hbuf Hadd) | exact H].
Qed.

Lemma held_copied (format : string) :
  Buffers.has_room Output.MAXBUF format = true ->
  Buffers.held (Buffers.Copied format) = Some format.
Proof. intros H. unfold Buffers.held, Buffers.stored. rewrite H. reflexivity. Qed.

(** format_output on a format that reads as items. *)
Lemma format_output_items (b : Cli.bmeval) (format : string) (ts : list Output.item) :
  format <> EmptyString ->
  Buffers.has_room Output.MAXBUF format = true ->
  Output.items format = Some ts ->
  Buffers.texts_have_room fmt_2_2f fmt_d time_stamp b ts ->
  Buffers.format_output fmt_2_2f fmt_u fmt_d time_stamp b (Buffers.Copied format)
  = Buffers.add_all
      (map (Output.item_text fmt_2_2f fmt_d time_stamp b) ts ++ [Output.NL]) EmptyString.
Proof.
  intros Hne Hfit Hitems Hroom.
  unfold Buffers.format_output. rewrite (held_copied format Hfit). cbn [Buffers.bind].
  rewrite (nonempty_length format Hne).
  rewrite <- (string_append_nil_r format) at 2.
  rewrite (format_loop_items_added b _ (String.length format) format ts EmptyString)
    by (try lia; assumption).
  rewrite add_all_app.
  destruct (Buffers.add_all _ EmptyString) as [buf |]; cbn [Buffers.bind]; [| reflexivity].
  cbn [Buffers.format_loop Buffers.add_all].
  destruct (Buffers.add_to_buf buf Output.NL); reflexivity.
Qed.

(** X20: for a format that fits mm->format and reads as a sequence of the
    items listed above format_output, with every text in the room of [tm],
    format_output is add_to_buf for the texts of the items in the order of
    the format and then for the newline, from an empty line.  add_to_buf
    appends a text when the line stays below MAXBUF characters, leaves the
    line as it is when the text would take it beyond MAXBUF characters, so
    that a later, shorter text is still added, and runs over [buf] with its
    terminator when the text takes the line to exactly MAXBUF characters.
    Whatever the format, a line that format_output leaves without going
    outside an array has room in [buf]. *)
Theorem format_output_adds_each_text (b : Cli.bmeval) (format : string)
  (ts : list Output.item)
  (Hrequested : format <> EmptyString)
  (Harray : Buffers.has_room Output.MAXBUF format = true)
  (Hitems : Output.items format = Some ts)
  (Hroom : Buffers.texts_have_room fmt_2_2f fmt_d time_stamp b ts) :
  Buffers.format_output fmt_2_2f fmt_u fmt_d time_stamp b (Buffers.Copied format)
  = Buffers.add_all
      (map (Output.item_text fmt_2_2f fmt_d time_stamp b) ts ++ [Output.NL]) EmptyString
  /\ (forall (buf text : string),
        Buffers.add_to_buf buf text
        = if Z.of_nat (String.length buf) + Z.of_nat (String.length text) <? Output.MAXBUF
          then Some (buf ++ text)%string
          else if Z.of_nat (String.length buf) + Z.of_nat (String.length text)
                  =? Output.MAXBUF
               then None
               else Some buf)
  /\ (forall (f : Buffers.format_array) (line : string),
        Buffers.format_output fmt_2_2f fmt_u fmt_d time_stamp b f = Some line ->
        Z.of_nat (String.length line) < Output.MAXBUF).
Proof.
  split; [exact (format_output_items b format ts Hrequested Harray Hitems Hroom) |].
  split.
  - intros buf text. unfold Buffers.add_to_buf, Buffers.stored, Buffers.has_room.
    rewrite string_length_append, Nat2Z.inj_add.
    destruct (Z.gtb_spec (Z.of_nat (String.length buf) + Z.of_nat (String.length text))
                Output.MAXBUF);
      destruct (Z.ltb_spec (Z.of_nat (String.length buf) + Z.of_nat (String.length text))
                  Output.MAXBUF);
      destruct (Z.eqb_spec (Z.of_nat (String.length buf) + Z.of_nat (String.length text))
                  Output.MAXBUF); try lia; reflexivity.
  - intros f line. unfold Buffers.format_output.
    destruct (Buffers.held f) as [fm |]; cbn [Buffers.bind]; [| discriminate].
    destruct (Nat.eqb (String.length fm) 0).
    + intros H. apply stored_some in H. destruct H as [-> H]. exact H.
    + apply (format_loop_room b _ (String.length fm)); [lia | cbn; unfold Output.MAXBUF; lia].
Qed.

(** X21: a format that fits mm->format and reads as a sequence of the
    items listed above format_output (a result letter; a backslash and one
    of [t s n , ; l]; two backslashes and any character), with every text in
    the room of [tm], gives the texts of these items in the order of the
    format followed by a newline when that line has room in [buf], fewer
    than MAXBUF characters.  When the line has exactly MAXBUF characters the
    test of add_to_buf lets it through and strcat writes the terminator
    behind [buf]. *)
Theorem format_output_line_or_overrun (b : Cli.bmeval) (format : string)
  (ts : list Output.item)
  (Hrequested : format <> EmptyString)
  (Harray : Buffers.has_room Output.MAXBUF format = true)
  (Hitems : Output.items format = Some ts)
  (Hroom : Buffers.texts_have_room fmt_2_2f fmt_d time_stamp b ts) :
  let line := (Output.texts fmt_2_2f fmt_d time_stamp b ts ++ Output.NL)%string in
  (Z.of_nat (String.length line) < Output.MAXBUF ->
   Buffers.format_output fmt_2_2f fmt_u fmt_d time_stamp b (Buffers.Copied format)
   = Some line)
  /\ (Z.of_nat (String.length line) = Output.MAXBUF ->
      Buffers.format_output fmt_2_2f fmt_u fmt_d time_stamp b (Buffers.Copied format)
      = None).
Proof.
  cbv zeta. rewrite string_length_append.
  rewrite (format_output_items b format ts Hrequested Harray Hitems Hroom), add_all_app.
  rewrite texts_concat.
  change (String.length Output.NL) with 1%nat.
  split; intros Hlen.
  - rewrite add_all_fits by (cbn [String.length]; lia). cbn [Buffers.bind Buffers.add_all].
    rewrite add_to_buf_fits by (cbn [String.length String.append]; cbn; lia).
    reflexivity.
  - rewrite add_all_fits by (cbn [String.length]; lia). cbn [Buffers.bind Buffers.add_all].
    rewrite add_to_buf_overrun by (cbn [String.length String.append]; cbn; lia).
    reflexivity.
Qed.

Lemma unknown_is_no_backslash (q : ascii) :
  Output.is_markup q = false -> Ascii.eqb q Output.backslash = false.
Proof.
  unfold Output.is_markup. intros H.
  destruct (Ascii.eqb q Output.backslash); [| reflexivity].
  rewrite !orb_true_r in H. discriminate H.
Qed.

Lemma add_to_buf_agrees (buf buf1 line : string) :
  Buffers.add_to_buf buf buf1 = Some line -> Output.add_to_buf buf buf1 = line.
Proof.
  unfold Buffers.add_to_buf, Output.add_to_buf.
  destruct (_ >? _); intros H.
  - injection H as <-. reflexivity.
  - apply stored_some in H. destruct H as [-> _]. reflexivity.
Qed.

(** Where the loop stays within its arrays, the strings are those of the
    loop on strings. *)
Lemma format_loop_within_arrays (b : Cli.bmeval) (padded : bool) (n : nat) :
  forall p tmo tm buf line,
    (String.length p <= n)%nat ->
    (forall t, tmo = Some t -> tm = t) ->
    Buffers.format_loop fmt_2_2f fmt_u fmt_d time_stamp b padded p tmo buf = Some line ->
    Output.format_loop fmt_2_2f fmt_u fmt_d time_stamp b p tm buf = line.
Proof.
  assert (Hbind : forall (o : option string) (f : string -> option string) line,
             Buffers.bind o f = Some line -> exists x, o = Some x /\ f x = Some line).
  { intros [x |] f line H; [exists x; auto | discriminate H]. }
  assert (Hend : forall buf line,
             (if padded then Buffers.add_to_buf buf Output.NL else None) = Some line ->
             Output.add_to_buf buf Output.NL = line).
  { intros buf line H. destruct padded; [| discriminate H].
    exact (add_to_buf_agrees _ _ _ H). }
  induction n as [| n IH]; intros p tmo tm buf line Hn Htm H.
  - destruct p; [| cbn in Hn; lia]. exact (add_to_buf_agrees _ _ _ H).
  - destruct p as [| c p1]; [exact (add_to_buf_agrees _ _ _ H) |].
    cbn [String.length] in Hn.
    cbn [Buffers.format_loop] in H. cbn [Output.format_loop].
    destruct (Output.is_result c).
    { apply Hbind in H. destruct H as (t & Ht & H).
      apply stored_some in Ht. destruct Ht as [-> _].
      apply Hbind in H. destruct H as (buf' & Hadd & H).
      rewrite (add_to_buf_agrees _ _ _ Hadd).
      apply (IH p1 (Some (Output.result_text fmt_2_2f fmt_d b c))); [lia | | exact H].
      intros t Ht. injection Ht as <-. reflexivity. }
    destruct (Ascii.eqb c Output.backslash).
    2: { apply stored_some in H. destruct H as [-> _]. reflexivity. }
    destruct p1 as [| c1 p2].
    { apply Hbind in H. destruct H as (t & Ht & H).
      apply Hbind in H. destruct H as (buf' & Hadd & H).
      rewrite (Htm t Ht), (add_to_buf_agrees _ _ _ Hadd).
      exact (Hend buf' line H). }
    cbn [String.length] in Hn.
    destruct (Ascii.eqb c1 Output.backslash) eqn:Hbs1.
    + destruct p2 as [| c2 p3].
      * apply Hbind in H. destruct H as (buf' & Hadd & H).
        rewrite (add_to_buf_agrees _ _ _ Hadd).
        exact (Hend buf' line H).
      * cbn [String.length] in Hn.
        apply Hbind in H. destruct H as (t & Ht & H).
        apply stored_some in Ht. destruct Ht as [-> _].
        apply Hbind in H. destruct H as (buf' & Hadd & H).
        rewrite (add_to_buf_agrees _ _ _ Hadd).
        apply (IH p3 (Some (String c2 EmptyString))); [lia | | exact H].
        intros t Ht. injection Ht as <-. reflexivity.
    + apply Hbind in H. destruct H as (t & Ht & H).
      apply Hbind in H. destruct H as (buf' & Hadd & H).
      assert (Htext : Output.markup_text time_stamp c1 tm = t).
      { destruct (Output.is_markup c1) eqn:Hm.
        - apply stored_some in Ht. destruct Ht as [-> _].
          apply markup_text_known; assumption.
        - rewrite (markup_text_unknown c1 tm Hm). exact (Htm t Ht). }
      rewrite Htext, (add_to_buf_agrees _ _ _ Hadd).
      apply (IH p2 (Some t)); [lia | | exact H].
      intros t' Ht'. injection Ht' as <-. reflexivity.
Qed.

(** Where format_output stays within its arrays, the line it leaves is the
    one the model on strings gives, whatever [tm] held on entry. *)
Lemma format_output_within_arrays (b : Cli.bmeval) (option line tm0 : string) :
  Buffers.format_output fmt_2_2f fmt_u fmt_d time_stamp b (Buffers.Copied option)
  = Some line ->
  Output.format_output fmt_2_2f fmt_u fmt_d time_stamp b option tm0 = line.
Proof.
  unfold Buffers.format_output, Output.format_output, Buffers.held.
  destruct (Buffers.stored Output.MAXBUF option) as [fm |] eqn:Hheld;
    cbn [Buffers.bind]; [| discriminate].
  apply stored_some in Hheld. destruct Hheld as [-> _].
  destruct (Nat.eqb (String.length option) 0).
  - intros H. apply stored_some in H. destruct H as [-> _]. reflexivity.
  - apply (format_loop_within_arrays b _ (String.length option)); [lia | discriminate].
Qed.

Lemma items_nil (pre : string) : Output.items pre = Some [] -> pre = EmptyString.
Proof.
  destruct pre as [| c p1]; [reflexivity |]. cbn [Output.items].
  destruct (Output.is_result c).
  { intros H. apply items_cons_inv in H. destruct H as (ts' & _ & H). discriminate H. }
  destruct (Ascii.eqb c Output.backslash); [| discriminate].
  destruct p1 as [| c1 p2]; [discriminate |].
  destruct (Ascii.eqb c1 Output.backslash).
  - destruct p2 as [| c2 p3]; [discriminate |].
    intros H. apply items_cons_inv in H. destruct H as (ts' & _ & H). discriminate H.
  - destruct (Output.is_markup c1); [| discriminate].
    intros H. apply items_cons_inv in H. destruct H as (ts' & _ & H). discriminate H.
Qed.

(** X22: a backslash at the end of a format that is followed by a
    character the markup does not name, or by nothing, is not reported as
    illegal.  No branch writes [tm]: after at least one item the text of the
    last item is added a second time and the line ends as usual, provided
    the line has room in [buf] and the format fits mm->format; after a
    backslash with nothing behind it the loop reads the character behind the
    format's terminator, which lies in the array only for a format of fewer
    than MAXBUF - 1 characters and is outside it for one of MAXBUF - 1.
    With no item before the backslash [tm] is read before anything was
    written to it. *)
Theorem format_output_trailing_backslash (b : Cli.bmeval) (pre : string)
  (ts : list Output.item) (q : ascii)
  (Hitems : Output.items pre = Some ts)
  (Hroom : Buffers.texts_have_room fmt_2_2f fmt_d time_stamp b ts)
  (Hunknown : Output.is_markup q = false) :
  let unknown := (pre ++ String Output.backslash (String q EmptyString))%string in
  let lone := (pre ++ String Output.backslash EmptyString)%string in
  let line := (Output.texts fmt_2_2f fmt_d time_stamp b ts
               ++ Output.last_text fmt_2_2f fmt_d time_stamp b ts EmptyString
               ++ Output.NL)%string in
  (ts <> [] -> Z.of_nat (String.length line) < Output.MAXBUF ->
   (Buffers.has_room Output.MAXBUF unknown = true ->
    Buffers.format_output fmt_2_2f fmt_u fmt_d time_stamp b (Buffers.Copied unknown)
    = Some line)
   /\ (Z.of_nat (String.length lone) + 1 < Output.MAXBUF ->
       Buffers.format_output fmt_2_2f fmt_u fmt_d time_stamp b (Buffers.Copied lone)
       = Some line)
   /\ (Z.of_nat (String.length lone) + 1 = Output.MAXBUF ->
       Buffers.format_output fmt_2_2f fmt_u fmt_d time_stamp b (Buffers.Copied lone)
       = None))
  /\ (ts = [] ->
      Buffers.format_output fmt_2_2f fmt_u fmt_d time_stamp b (Buffers.Copied unknown)
      = None
      /\ Buffers.format_output fmt_2_2f fmt_u fmt_d time_stamp b (Buffers.Copied lone)
         = None).
Proof.
  cbv zeta.
  pose proof (unknown_is_no_backslash q Hunknown) as Hq.
  assert (Hb : Output.is_result Output.backslash = false) by reflexivity.
  assert (Hloop : forall padded rest,
    Buffers.format_loop fmt_2_2f fmt_u fmt_d time_stamp b padded (pre ++ rest) None
      EmptyString
    = Buffers.bind
        (Buffers.add_all (map (Output.item_text fmt_2_2f fmt_d time_stamp b) ts)
           EmptyString)
        (Buffers.format_loop fmt_2_2f fmt_u fmt_d time_stamp b padded rest
           (Buffers.tm_after fmt_2_2f fmt_d time_stamp b ts None))).
  { intros padded rest.
    apply (format_loop_items_added b padded (String.length pre)); [lia | assumption ..]. }
  assert (Hout : forall format,
    format <> EmptyString ->
    Z.of_nat (String.length format) < Output.MAXBUF ->
    Buffers.format_output fmt_2_2f fmt_u fmt_d time_stamp b (Buffers.Copied format)
    = Buffers.format_loop fmt_2_2f fmt_u fmt_d time_stamp b
        (Z.of_nat (String.length format) + 1 <? Output.MAXBUF) format None EmptyString).
  { intros format Hne Hlen. unfold Buffers.format_output.
    rewrite held_copied by (unfold Buffers.has_room; apply Z.ltb_lt; exact Hlen).
    cbn [Buffers.bind]. rewrite (nonempty_length format Hne). reflexivity. }
  assert (Hne1 : (pre ++ String Output.backslash (String q EmptyString))%string
                 <> EmptyString) by (destruct pre; discriminate).
  assert (Hne2 : (pre ++ String Output.backslash EmptyString)%string <> EmptyString)
    by (destruct pre; discriminate).
  split.
  - intros Hts Hlen. rewrite !string_length_append in Hlen.
    change (String.length Output.NL) with 1%nat in Hlen.
    rewrite texts_concat in Hlen |- *.
    remember (Buffers.concat_texts (map (Output.item_text fmt_2_2f fmt_d time_stamp b) ts))
      as texts eqn:Htexts.
    set (last := Output.last_text _ _ _ _ _ _) in *.
    assert (Hall : Buffers.add_all (map (Output.item_text fmt_2_2f fmt_d time_stamp b) ts)
                     EmptyString = Some texts).
    { rewrite add_all_fits by (rewrite <- Htexts; cbn [String.length]; lia).
      rewrite Htexts. reflexivity. }
    assert (Htm : Buffers.tm_after fmt_2_2f fmt_d time_stamp b ts None = Some last).
    { unfold Buffers.tm_after. destruct ts; [contradiction | reflexivity]. }
    assert (Hadd : Buffers.add_to_buf texts last = Some (texts ++ last)%string)
      by (apply add_to_buf_fits; lia).
    assert (Hnl : Buffers.add_to_buf (texts ++ last) Output.NL
                  = Some (texts ++ last ++ Output.NL)%string).
    { rewrite add_to_buf_fits
        by (rewrite string_length_append; change (String.length Output.NL) with 1%nat; lia).
      rewrite string_append_assoc. reflexivity. }
    split; [| split].
    + intros Harr. unfold Buffers.has_room in Harr. apply Z.ltb_lt in Harr.
      rewrite (Hout _ Hne1 Harr), Hloop, Hall, Htm. cbn [Buffers.bind Buffers.format_loop].
      rewrite Hb, Ascii.eqb_refl, Hq, Hunknown. cbn [Buffers.bind].
      rewrite Hadd. cbn [Buffers.bind Buffers.format_loop]. exact Hnl.
    + intros Hpad.
      rewrite (Hout _ Hne2 ltac:(lia)), Hloop, Hall, Htm.
      cbn [Buffers.bind Buffers.format_loop].
      rewrite Hb, Ascii.eqb_refl. cbn [Buffers.bind].
      rewrite Hadd. cbn [Buffers.bind].
      rewrite (proj2 (Z.ltb_lt _ _) Hpad). exact Hnl.
    + intros Hpad.
      rewrite (Hout _ Hne2 ltac:(lia)), Hloop, Hall, Htm.
      cbn [Buffers.bind Buffers.format_loop].
      rewrite Hb, Ascii.eqb_refl. cbn [Buffers.bind].
      rewrite Hadd. cbn [Buffers.bind].
      destruct (Z.ltb_spec (Z.of_nat (String.length
                  (pre ++ String Output.backslash EmptyString)) + 1) Output.MAXBUF);
        [lia | reflexivity].
  - intros ->. rewrite (items_nil pre Hitems). cbn [append].
    unfold Buffers.format_output, Buffers.held, Buffers.stored, Buffers.has_room.
    cbn [String.length Nat.eqb Z.of_nat Pos.of_succ_nat Pos.succ Z.ltb Z.compare
           Pos.compare Pos.compare_cont Output.MAXBUF Buffers.bind Buffers.format_loop].
    rewrite Hb, Ascii.eqb_refl, Hq, Hunknown. cbn [Buffers.bind].
    split; reflexivity.
Qed.

End OutputFacts.

Section OutputInstances.

Import Strings.Ascii Strings.String.

(** X20 on a format with two results and a tab. *)
Lemma format_output_adds_each_text_witness :
  let format := String "T" (String Output.backslash (String "t" (String "H" EmptyString))) in
  Buffers.format_output Printer.fixed_2_2f Printer.fixed_int Printer.fixed_int
    Printer.fixed_stamp (Cli.bme mm_init) (Buffers.Copied format)
  = Buffers.add_all [" Temp: 25.00"; Output.TAB; " Humidity: 25.00"; Output.NL]%string
      EmptyString.
Proof.
  cbv zeta.
  refine (proj1 (format_output_adds_each_text Printer.fixed_2_2f Printer.fixed_int
                   Printer.fixed_int Printer.fixed_stamp (Cli.bme mm_init)
                   (String "T" (String Output.backslash (String "t" (String "H" EmptyString))))
                   [Output.Result "T"; Output.Markup "t"; Output.Result "H"] _ _ _ _)).
  - discriminate.
  - reflexivity.
  - reflexivity.
  - repeat constructor.
Defined.

(** X21 on a format of thirty characters: sixteen temperatures and seven
    spaces make a line of exactly MAXBUF characters with its newline, and
    strcat writes its terminator behind [buf]. *)
Lemma format_output_line_or_overrun_witness :
  let format :=
    (Printer.copies 16 "T"
     ++ Printer.copies 7 (String Output.backslash (String "s" EmptyString)))%string in
  String.length format = 30%nat
  /\ Buffers.format_output Printer.fixed_2_2f Printer.fixed_int Printer.fixed_int
       Printer.fixed_stamp (Cli.bme mm_init) (Buffers.Copied format)
     = None.
Proof.
  cbv zeta. split; [reflexivity |].
  refine (proj2 (format_output_line_or_overrun Printer.fixed_2_2f Printer.fixed_int
                   Printer.fixed_int Printer.fixed_stamp (Cli.bme mm_init)
                   (Printer.copies 16 "T"
                    ++ Printer.copies 7 (String Output.backslash (String "s" EmptyString)))
                   (repeat (Output.Result "T") 16 ++ repeat (Output.Markup "s") 7)
                   _ _ _ _) _).
  - discriminate.
  - reflexivity.
  - reflexivity.
  - vm_compute. repeat constructor.
  - reflexivity.
Defined.

(** X22 on a temperature followed by a backslash and an x. *)
Lemma format_output_trailing_backslash_witness :
  Buffers.format_output Printer.fixed_2_2f Printer.fixed_int Printer.fixed_int
    Printer.fixed_stamp (Cli.bme mm_init)
    (Buffers.Copied (String "T" (String Output.backslash (String "x" EmptyString))))
  = Some (" Temp: 25.00" ++ " Temp: 25.00" ++ Output.NL)%string.
Proof.
  refine (proj1 (proj1 (format_output_trailing_backslash Printer.fixed_2_2f
                   Printer.fixed_int Printer.fixed_int Printer.fixed_stamp
                   (Cli.bme mm_init) (String "T" EmptyString) [Output.Result "T"] "x"
                   _ _ _) _ _) _).
  - reflexivity.
  - repeat constructor.
  - reflexivity.
  - discriminate.
  - vm_compute. reflexivity.
  - reflexivity.
Defined.

End OutputInstances.
